(** * FoodAI: the interactive food-ingredients assistant (AIMain/main.py)

    A shallow embedding of [main.py] and the properties of its menu loop.

    The program is a thin console client: it reads lines from the
    terminal, builds templated queries, sends them through a chat session
    of a hosted model, and prints the answers.  Everything the script
    does not compute itself (the terminal, the file system, the JSON
    parser, the remote service and the chat-session objects of the client
    library) is part of the [Machine] the script runs on; the script is a
    computation in a state-and-exception monad over that machine.

    [input_image_setup] and [get_gemini_response] (lines 61-81) are never
    called by the script and are left out. *)

From Stdlib Require Import String Ascii List Bool ZArith Lia PeanoNat.
From Stdlib Require Import Init.Byte.
Import ListNotations.
Open Scope string_scope.

(** ** Python strings

    A [str] is a Rocq [string]; each character is read as a code point
    below 256. *)
Module PyStr.

(** [str.isspace] on one character: the code points below 256 that
    Python classifies as whitespace (TAB..CR, FS..US, SPACE, NEL,
    NBSP). *)
Definition space_code (n : nat) : bool :=
  (((9 <=? n) && (n <=? 13)) || ((28 <=? n) && (n <=? 32))
   || (n =? 133) || (n =? 160))%nat.

Definition all_space (s : string) : bool :=
  forallb (fun c => space_code (nat_of_ascii c)) (list_ascii_of_string s).

(** [s.isspace()]: at least one character, and all of them whitespace. *)
Definition isspace (s : string) : bool :=
  match s with
  | EmptyString => false
  | String _ _ => all_space s
  end.

(** [str.lower] on one character: A..Z and the accented capitals
    (0xC0..0xDE without the multiplication sign 0xD7) move up by 32. *)
Definition lower_code (n : nat) : nat :=
  if (((65 <=? n) && (n <=? 90))
      || ((192 <=? n) && (n <=? 222) && negb (n =? 215)))%nat
  then n + 32 else n.

Fixpoint lower (s : string) : string :=
  match s with
  | EmptyString => EmptyString
  | String c r => String (ascii_of_nat (lower_code (nat_of_ascii c))) (lower r)
  end.

(** Truth value of a string in a condition: non-empty. *)
Definition truthy (s : string) : bool := negb (s =? "").

(** [needle in hay]. *)
Fixpoint contains (needle hay : string) : bool :=
  prefix needle hay
  || match hay with
     | EmptyString => false
     | String _ r => contains needle r
     end.

(** The newline character, as in the literal [\n]. *)
Definition nl : string := String (ascii_of_nat 10) EmptyString.

End PyStr.
Import PyStr.

(** ** JSON values, as [json.load] returns them *)
#[warnings="-register-all"] Inductive json : Type :=
| JNull
| JBool (b : bool)
| JNum (z : Z)
| JFloat (literal : string)  (* a number with a fraction or exponent, as written *)
| JStr (s : string)
| JArr (items : list json)
| JObj (members : list (string * json)).

(** What is found at the path of an image. *)
Inductive FileRead : Type :=
| NoSuchFile
| ReadError (text : string)  (* any other OSError raised by open/read *)
| Bytes (content : list byte).

(** ** Exceptions *)

(** The classes of [google.api_core.exceptions] the script names, and the
    rest of that hierarchy. *)
Inductive ApiKind : Type :=
| DeadlineExceeded
| InvalidArgument
| PermissionDenied
| NotFound
| ResourceExhausted
| Unknown
| ServiceUnavailable
| OtherApiError.

Inductive exn : Type :=
| SystemExit (code : Z)
| KeyboardInterrupt
| EOFError
| FileNotFoundError
| OSError (text : string)
| JSONDecodeError
| KeyError (key : string)
| TypeError
| ValueError
| ApiError (kind : ApiKind) (message : string)
| OtherError (text : string).

(** [isinstance(e, Exception)]: everything but [SystemExit] and
    [KeyboardInterrupt], which derive from [BaseException] only. *)
Definition is_Exception (e : exn) : bool :=
  match e with
  | SystemExit _ | KeyboardInterrupt => false
  | _ => true
  end.

(** What is found at the path of [keys.json]. *)
Inductive ConfigFile : Type :=
| CfgMissing                 (* open raises FileNotFoundError *)
| CfgMalformed               (* json.load raises JSONDecodeError *)
| CfgUnreadable (e : exn)    (* open or json.load raises something else:
                                PermissionError, UnicodeDecodeError, ... *)
| CfgParsed (content : json).

(** ** The machine *)

(** One answer of the terminal to [input]. *)
Inductive Key : Type :=
| Line (s : string)
| CtrlC.

(** One write to the terminal: a line of [print] (its newline left
    implicit), the prompt of an [input], or a line of [print] made of a
    fixed text followed by [str(e)] for an exception [e], whose wording
    is the interpreter's or the library's. *)
Inductive Output : Type :=
| Printed (text : string)
| Prompted (prompt : string)
| Reported (text : string) (e : exn).

(** What becomes of one request: the call returns a response whose
    [text] can be read, it returns a response without text (reading
    [response.text] then raises [ValueError]), or the call raises. *)
Inductive Reply : Type :=
| Response (text : string)
| Textless
| Raises (e : exn).

Inductive Role : Type := User | Assistant.

(** One remote call, as observed from outside: the session it was made
    on, the text sent, the images sent with it (the requests of this
    script carry none) and what came back. *)
Record Call : Type := mkCall {
  call_session : nat;
  call_message : string;
  call_images : list (list byte);
  call_reply : Reply
}.

(** The configuration handed to [genai.GenerativeModel]. *)
Record Model : Type := GenerativeModel {
  model_name : json;
  safety_settings : json;
  generation_config : json
}.

Record Machine : Type := mkMachine {
  (* the environment, never written *)
  argv : list string;
  keys_json : ConfigFile;
  files : string -> FileRead;
  service : nat -> Reply;        (* reply to the n-th remote call *)
  model_error : json -> json -> json -> option exn;
                                 (* what genai.GenerativeModel raises for a
                                    model name, safety settings and generation
                                    parameters, if it does *)
  (* the terminal *)
  stdin : list Key;
  stdout : list Output;          (* one entry per write, oldest first *)
  (* the client library *)
  sessions : list (list (Role * string)); (* every ChatSession created, with its history *)
  trace : list Call;             (* every remote call made, oldest first *)
  (* the variables of food_ingredients_chat *)
  last_food_item : option string;
  last_dish_description : option string
}.

Definition set_stdin (v : list Key) (m : Machine) : Machine :=
  mkMachine (argv m) (keys_json m) (files m) (service m) (model_error m)
            v (stdout m)
            (sessions m) (trace m) (last_food_item m) (last_dish_description m).

Definition set_stdout (v : list Output) (m : Machine) : Machine :=
  mkMachine (argv m) (keys_json m) (files m) (service m) (model_error m)
            (stdin m) v
            (sessions m) (trace m) (last_food_item m) (last_dish_description m).

Definition set_sessions (v : list (list (Role * string))) (m : Machine) : Machine :=
  mkMachine (argv m) (keys_json m) (files m) (service m) (model_error m)
            (stdin m) (stdout m)
            v (trace m) (last_food_item m) (last_dish_description m).

Definition set_trace (v : list Call) (m : Machine) : Machine :=
  mkMachine (argv m) (keys_json m) (files m) (service m) (model_error m)
            (stdin m) (stdout m)
            (sessions m) v (last_food_item m) (last_dish_description m).

Definition set_last_food_item (v : option string) (m : Machine) : Machine :=
  mkMachine (argv m) (keys_json m) (files m) (service m) (model_error m)
            (stdin m) (stdout m)
            (sessions m) (trace m) v (last_dish_description m).

Definition set_last_dish_description (v : option string) (m : Machine) : Machine :=
  mkMachine (argv m) (keys_json m) (files m) (service m) (model_error m)
            (stdin m) (stdout m)
            (sessions m) (trace m) (last_food_item m) v.

(** ** The monad: state over [Machine], with exceptions *)
Inductive Result (A : Type) : Type :=
| Ok (a : A)
| Raise (e : exn).
Arguments Ok {A} a.
Arguments Raise {A} e.

Definition M (A : Type) : Type := Machine -> Result A * Machine.

Definition ret {A} (a : A) : M A := fun m => (Ok a, m).

Definition bind {A B} (c : M A) (k : A -> M B) : M B :=
  fun m =>
    match c m with
    | (Ok a, m') => k a m'
    | (Raise e, m') => (Raise e, m')
    end.

Definition raise {A} (e : exn) : M A := fun m => (Raise e, m).

Declare Scope py_scope.
Delimit Scope py_scope with py.
Notation "x <- c ;; k" := (bind c (fun x => k))
  (at level 61, c at next level, right associativity) : py_scope.
Notation "c ;; k" := (bind c (fun _ => k))
  (at level 61, right associativity) : py_scope.
Open Scope py_scope.

(** [try: body  except ...: handler]: [clauses e] is the handler of the
    first [except] clause that matches [e], if any does. *)
Definition try_except {A} (body : M A) (clauses : exn -> option (M A)) : M A :=
  fun m =>
    match body m with
    | (Ok a, m') => (Ok a, m')
    | (Raise e, m') =>
        match clauses e with
        | Some handler => handler m'
        | None => (Raise e, m')
        end
    end.

(** [while True: body], cut after [fuel] iterations.  The loop has no
    [break]: it is left only by an exception. *)
Fixpoint while_true (fuel : nat) (body : M unit) : M unit :=
  match fuel with
  | O => ret tt
  | S n => body ;; while_true n body
  end.

(** ** Built-ins and library calls *)

(** [print(s)]: writes [s] and a newline. *)
Definition print (s : string) : M unit :=
  fun m => (Ok tt, set_stdout (stdout m ++ [Printed s]) m).

(** [print(f"{text}{e}")]: the text followed by [str(e)]. *)
Definition print_error (text : string) (e : exn) : M unit :=
  fun m => (Ok tt, set_stdout (stdout m ++ [Reported text e]) m).

(** [print(a, b)]: the two texts separated by a space. *)
Definition print2 (a b : string) : M unit := print (a ++ " " ++ b).

(** [input(prompt)]: writes the prompt, then takes the next answer. *)
Definition input (prompt : string) : M string :=
  fun m =>
    let m1 := set_stdout (stdout m ++ [Prompted prompt]) m in
    match stdin m with
    | [] => (Raise EOFError, m1)
    | CtrlC :: rest => (Raise KeyboardInterrupt, set_stdin rest m1)
    | Line s :: rest => (Ok s, set_stdin rest m1)
    end.

Definition sys_exit {A} (code : Z) : M A := raise (SystemExit code).

(** [os.system("clear -x")] only clears the screen. *)
Definition os_system (cmd : string) : M unit := ret tt.

(** [open(file); json.load(f)] on the configuration file. *)
Definition load_keys_json : M json :=
  fun m =>
    match keys_json m with
    | CfgMissing => (Raise FileNotFoundError, m)
    | CfgMalformed => (Raise JSONDecodeError, m)
    | CfgUnreadable e => (Raise e, m)
    | CfgParsed content => (Ok content, m)
    end.

(** The value of [key] in a JSON object. *)
Fixpoint dict_get (key : string) (members : list (string * json)) : option json :=
  match members with
  | [] => None
  | (k, v) :: rest => if k =? key then Some v else dict_get key rest
  end.

(** [content[key]] with a string key. *)
Definition subscript (content : json) (key : string) : M json :=
  match content with
  | JObj members =>
      match dict_get key members with
      | Some v => ret v
      | None => raise (KeyError key)
      end
  | _ => raise TypeError
  end.

(** [value == "literal"]. *)
Definition json_eq_str (value : json) (literal : string) : bool :=
  match value with
  | JStr s => s =? literal
  | _ => false
  end.

(** [genai.configure(api_key=...)] stores the key in the client. *)
Definition genai_configure (api_key : json) : M unit := ret tt.

(** [genai.GenerativeModel(model_name=..., safety_settings=...,
    generation_config=...)]: the library checks its arguments and may
    raise. *)
Definition new_model (name safety generation : json) : M Model :=
  fun m =>
    match model_error m name safety generation with
    | Some e => (Raise e, m)
    | None => (Ok (GenerativeModel name safety generation), m)
    end.

(** [open(path, 'rb').read()]. *)
Definition read_binary (path : string) : M (list byte) :=
  fun m =>
    match files m path with
    | NoSuchFile => (Raise FileNotFoundError, m)
    | ReadError t => (Raise (OSError t), m)
    | Bytes content => (Ok content, m)
    end.

(** [model.start_chat(history=[])]: a new session object with an empty
    history; the result is its reference. *)
Definition start_chat (model : Model) : M nat :=
  fun m => (Ok (length (sessions m)), set_sessions (sessions m ++ [[]]) m).

Fixpoint extend_history (chat : nat) (items : list (Role * string))
         (ss : list (list (Role * string))) : list (list (Role * string)) :=
  match ss, chat with
  | [], _ => []
  | h :: rest, O => (h ++ items)%list :: rest
  | h :: rest, S n => h :: extend_history n items rest
  end.

(** The request behind a well-formed [send_message]: one remote call.
    The result is the response object, that is its text when it has one.
    The history is the client library's: a response is appended to the
    session's history together with the message (as an empty text when
    it has none); a call that raises leaves the history as it was. *)
Definition generate (chat : nat) (message : string) : M (option string) :=
  fun m =>
    let reply := service m (length (trace m)) in
    let m1 := set_trace (trace m ++ [mkCall chat message [] reply]) m in
    match reply with
    | Response text =>
        (Ok (Some text),
         set_sessions
           (extend_history chat [(User, message); (Assistant, text)] (sessions m1)) m1)
    | Textless =>
        (Ok None,
         set_sessions
           (extend_history chat [(User, message); (Assistant, "")] (sessions m1)) m1)
    | Raises e => (Raise e, m1)
    end.

(** The values the script passes in its calls of [send_message]. *)
Inductive PyValue : Type :=
| PyStr (s : string)
| PyBool (b : bool)
| PyImages (images : list (list byte)).

Fixpoint keyword_value (name : string) (keywords : list (string * PyValue))
  : option PyValue :=
  match keywords with
  | [] => None
  | (k, v) :: rest => if k =? name then Some v else keyword_value name rest
  end.

(** [ChatSession.send_message(self, content, *, ...)]: [content] is the
    one positional parameter of the method and has no default;
    everything after it is passed by name.  [bound_content] is the value
    the interpreter binds to [content] for a call with the given
    positional and keyword arguments, when it can bind one. *)
Definition bound_content (positional : list PyValue)
           (keywords : list (string * PyValue)) : option PyValue :=
  match positional, keyword_value "content" keywords with
  | [content], None => Some content
  | [], Some content => Some content
  | _, _ => None
  end.

(** [chat.send_message(...)] with the given positional and keyword
    arguments.  A call that gives no [content] raises [TypeError] in the
    interpreter, before the method is entered and anything is sent.  A
    call with a text is the request for that text; the one keyword the
    script passes along with a text is [stream=False], the default.  (The
    script passes no other content; the model sends nothing for one.) *)
Definition send_message (chat : nat) (positional : list PyValue)
           (keywords : list (string * PyValue)) : M (option string) :=
  match bound_content positional keywords with
  | Some (PyStr message) => generate chat message
  | _ => raise TypeError
  end.

(** [response.text]: raises [ValueError] when the response has no text. *)
Definition response_text (response : option string) : M string :=
  match response with
  | Some text => ret text
  | None => raise ValueError
  end.

Definition get_last_food_item : M (option string) :=
  fun m => (Ok (last_food_item m), m).

Definition assign_last_food_item (v : option string) : M unit :=
  fun m => (Ok tt, set_last_food_item v m).

Definition assign_last_dish_description (v : option string) : M unit :=
  fun m => (Ok tt, set_last_dish_description v m).

Definition get_argv : M (list string) := fun m => (Ok (argv m), m).

(** ** The script *)

(** *** initialize_genai (lines 17-59) *)

Definition placeholder_key : string := "your gemini api key here".

Definition msg_config_not_found : string :=
  "Could not find the configuration file 'keys.json'. Ensure it exists".

Definition msg_config_unparsable : string :=
  "Error: Could not parse the key file 'keys.json'. Please check the file format.".

Definition msg_missing_key (key : string) : string :=
  "Error: Missing key '" ++ key ++ "' in 'keys.json' file.".

Definition key_instructions : list string :=
  [ "To use the Gemini API, you'll need an API key.";
    "Create a key in Google AI Studio.";
    "Save the key to 'keys.json' file." ].

Definition initialize_genai : M Model :=
  settings <-
    try_except
      (content <- load_keys_json ;;
       gemini_api_key <- subscript content "GEMINI_API_KEY" ;;
       (if json_eq_str gemini_api_key placeholder_key
        then print "To use the Gemini API, you'll need an API key." ;;
             print "Create a key in Google AI Studio." ;;
             print "Save the key to 'keys.json' file." ;;
             sys_exit 1
        else ret tt) ;;
       gemini_model <- subscript content "GEMINI_MODEL" ;;
       safety <- subscript content "SAFETY_SETTINGS" ;;
       generation <- subscript content "GENERATION_CONFIG" ;;
       genai_configure gemini_api_key ;;
       ret (gemini_model, safety, generation))
      (fun e =>
         match e with
         | FileNotFoundError =>
             Some (print msg_config_not_found ;; sys_exit 1)
         | JSONDecodeError =>
             Some (print msg_config_unparsable ;; sys_exit 1)
         | KeyError key =>
             Some (print (msg_missing_key key) ;; sys_exit 1)
         | _ => None
         end) ;;
  let '(gemini_model, safety, generation) := settings in
  new_model gemini_model safety generation.

(** *** analyze_image_with_gemini (lines 83-102) *)

Definition image_instruction : string := "Analyze this image for food information.".

Definition msg_image_not_found : string :=
  "Error: The specified image file could not be found.".

Definition msg_image_error : string :=
  "Error: An unexpected error occurred while analyzing the image: ".

Definition analyze_image_with_gemini (model : Model) (image_path : string)
  : M (option string) :=
  try_except
    (content <- read_binary image_path ;;
     session <- start_chat model ;;
     response <- send_message session []
                   [ ("message", PyStr image_instruction);
                     ("images", PyImages [content]) ] ;;
     text <- response_text response ;;
     ret (Some text))
    (fun e =>
       match e with
       | FileNotFoundError => Some (print msg_image_not_found ;; ret None)
       | _ =>
           if is_Exception e
           then Some (print_error msg_image_error e ;; ret None)
           else None
       end).

(** *** food_ingredients_chat (lines 104-295) *)

Definition ingredients_query (food_item : string) : string :=
  "What are the detailed and specific ingredients of " ++ food_item
  ++ "? Include any sub-ingredients and specific types of ingredients used.".

Definition contains_query (dish ingredient : string) : string :=
  "Does " ++ dish ++ " contain " ++ ingredient
  ++ "? Provide detailed information on how this ingredient is used in the dish if present.".

Definition analysis_query (food_item description : string) : string :=
  "Analyze the food item '" ++ food_item ++ "'. " ++ description ++ ". "
  ++ "Does it contain meat, seafood, red meat, poultry, other meat, eggs, dairy, honey, seafood, milk, fish, shellfish, tree nuts, peanuts, soy? "
  ++ "Provide the response as '1' for yes and '0' for no. "
  ++ "Also, indicate if it is high, medium, or low in wheat, gluten, lactose, paleo, sugar, carbs, protein, fat, calories.".

Definition prompt_option : string := "Choose an option (1, 2, or 3): ".
Definition prompt_food : string := "Enter a food to get its ingredients: ".
Definition prompt_dish : string := "Enter the name of the dish: ".
Definition prompt_ingredient : string := "Enter the ingredient to check: ".
Definition prompt_food_name : string := "Enter the name of the food item: ".
Definition prompt_description : string := "Enter a description of the food item: ".
Definition prompt_image : string :=
  "Enter the local path of the food item image (optional): ".

Definition prompt_reuse_food (last : string) : string :=
  "Use the last analyzed food item '" ++ last ++ "'? (yes/no): ".

Definition prompt_reuse_dish (last : string) : string :=
  "Use the last analyzed dish '" ++ last ++ "'? (yes/no): ".

Definition msg_food_empty : string :=
  "The food item is empty. Please try again." ++ nl.

Definition msg_dish_empty : string :=
  "Dish or ingredient input is empty. Please try again." ++ nl.

Definition msg_invalid_option : string :=
  "Invalid option. Please enter 1, 2, or 3." ++ nl.

(** What each [except] clause prints first. *)
Definition api_headline (kind : ApiKind) : string :=
  match kind with
  | DeadlineExceeded => "Deadline exceeded (Internet connection could be lost)"
  | InvalidArgument =>
      "Request fails API validation or you tried to access a model that requires allowlisting."
  | PermissionDenied => "Client doesn't have sufficient permission to call the API."
  | NotFound => "No valid object is found from the designated URL."
  | ResourceExhausted => "API quota over the limit or server overload."
  | Unknown => "Server error due to overload or dependency failure."
  | ServiceUnavailable => "Service is temporarily unavailable."
  | OtherApiError => ""
  end.

(** The seven [except] clauses that follow each of the three [try]
    blocks (lines 140-173, 197-230 and 259-292, the same text three
    times).  [continue] ends the turn, as does falling off the end of the
    branch: nothing follows the [try] statement in the loop body. *)
Definition api_clauses (e : exn) : option (M unit) :=
  match e with
  | ApiError DeadlineExceeded message =>
      Some (print (api_headline DeadlineExceeded) ;; print2 message nl ;; ret tt)
  | ApiError InvalidArgument message =>
      Some (print (api_headline InvalidArgument) ;; print2 message nl ;; sys_exit 1)
  | ApiError PermissionDenied message =>
      Some (print (api_headline PermissionDenied) ;; print2 message nl ;; sys_exit 1)
  | ApiError NotFound message =>
      Some (print (api_headline NotFound) ;; print2 message nl ;; sys_exit 1)
  | ApiError ResourceExhausted message =>
      Some (print (api_headline ResourceExhausted) ;; print2 message nl ;; sys_exit 1)
  | ApiError Unknown message =>
      Some (print (api_headline Unknown) ;; print2 message nl ;; sys_exit 1)
  | ApiError ServiceUnavailable message =>
      Some (print (api_headline ServiceUnavailable) ;; print2 message nl ;; sys_exit 1)
  | _ => None
  end.

(** [food_item == "" or food_item.isspace()]. *)
Definition blank (s : string) : bool := (s =? "") || isspace s.

(** [if last_food_item:] is taken for a non-empty string only. *)
Definition reusable (last : option string) : option string :=
  match last with
  | Some s => if truthy s then Some s else None
  | None => None
  end.

(** Lines 121-128 and 176-183: the name of the turn, reused or asked for. *)
Definition choose_name (reuse_prompt : string -> string) (ask : string) : M string :=
  last <- get_last_food_item ;;
  match reusable last with
  | Some s =>
      use_last <- input (reuse_prompt s) ;;
      if lower use_last =? "yes" then ret s else input ask
  | None => input ask
  end.

(** Lines 134-173: the [try] statement of option 1. *)
Definition submit_ingredients (chat : nat) (food_item : string) : M unit :=
  try_except
    (let query := ingredients_query food_item in
     response <- send_message chat [PyStr query] [("stream", PyBool false)] ;;
     print "Ingredients: " ;;
     text <- response_text response ;;
     print text)
    api_clauses.

(** Option 1, lines 120-173. *)
Definition option_1 (chat : nat) : M unit :=
  food_item <- choose_name prompt_reuse_food prompt_food ;;
  if blank food_item
  then print msg_food_empty
  else submit_ingredients chat food_item.

(** Lines 191-230: the [try] statement of option 2. *)
Definition submit_contains (chat : nat) (dish ingredient : string) : M unit :=
  try_except
    (let query := contains_query dish ingredient in
     response <- send_message chat [PyStr query] [("stream", PyBool false)] ;;
     print "Response: " ;;
     text <- response_text response ;;
     print text)
    api_clauses.

(** Option 2, lines 175-230. *)
Definition option_2 (chat : nat) : M unit :=
  dish <- choose_name prompt_reuse_dish prompt_dish ;;
  ingredient <- input prompt_ingredient ;;
  if blank dish || blank ingredient
  then print msg_dish_empty
  else submit_contains chat dish ingredient.

(** Lines 241-244: the description, extended by what the image shows. *)
Definition describe_with_image (model : Model) (description image : string)
  : M string :=
  if truthy image
  then
    extracted_text <- analyze_image_with_gemini model image ;;
    match extracted_text with
    | Some text => if truthy text then ret (description ++ " " ++ text)
                   else ret description
    | None => ret description
    end
  else ret description.

(** Lines 246-292: the [try] statement of option 3. *)
Definition submit_analysis (chat : nat) (food_item description : string) : M unit :=
  try_except
    (let query := analysis_query food_item description in
     response <- send_message chat [PyStr query] [("stream", PyBool false)] ;;
     print "Analysis: " ;;
     text <- response_text response ;;
     print text ;;
     assign_last_food_item (Some food_item) ;;
     assign_last_dish_description (Some description))
    api_clauses.

(** Option 3, lines 232-292. *)
Definition option_3 (model : Model) (chat : nat) : M unit :=
  food_item <- input prompt_food_name ;;
  description <- input prompt_description ;;
  image <- input prompt_image ;;
  if blank food_item
  then print msg_food_empty
  else
    description <- describe_with_image model description image ;;
    submit_analysis chat food_item description.

(** One iteration of the [while True] loop, lines 114-295. *)
Definition menu_turn (model : Model) (chat : nat) : M unit :=
  print "Options:" ;;
  print "1. Get ingredients of a food item." ;;
  print "2. Check if an ingredient is in a dish." ;;
  print "3. Analyze the properties of a food item." ;;
  option <- input prompt_option ;;
  if option =? "1" then option_1 chat
  else if option =? "2" then option_2 chat
  else if option =? "3" then option_3 model chat
  else print msg_invalid_option.

Definition food_ingredients_chat (fuel : nat) : M unit :=
  print "You are using the Food Ingredients Model." ;;
  model <- initialize_genai ;;
  chat <- start_chat model ;;
  assign_last_food_item None ;;
  assign_last_dish_description None ;;
  while_true fuel (menu_turn model chat).

(** *** main and the script body (lines 297-312) *)

Definition main (fuel : nat) : M unit :=
  os_system "clear -x" ;;
  args <- get_argv ;;
  if (1 <? length args)%nat
  then print ("Error: Unknown argument: " ++ nth 1 args "") ;; sys_exit 1
  else food_ingredients_chat fuel.

Definition script (fuel : nat) : M unit :=
  try_except (main fuel)
    (fun e =>
       match e with
       | KeyboardInterrupt => Some (print "___ See ya! ___" ;; sys_exit 0)
       | _ => None
       end).

(** How the process stands after [script]: still in the loop when the
    fuel ran out, otherwise ended with the status of [sys.exit], or with
    status 1 and a traceback for any other exception. *)
Inductive Status : Type :=
| Running
| Exited (code : Z).

Definition status_of {A} (r : Result A) : Status :=
  match r with
  | Ok _ => Running
  | Raise (SystemExit code) => Exited code
  | Raise _ => Exited 1
  end.

(** A machine as the operating system starts it: nothing printed, no
    session, no call made. *)
Definition boot (lib : json -> json -> json -> option exn) (args : list string)
           (cfg : ConfigFile) (fs : string -> FileRead) (srv : nat -> Reply)
           (keys : list Key) : Machine :=
  mkMachine args cfg fs srv lib keys [] [] [] None None.

(** A client library that takes every model configuration. *)
Definition accepting (name safety generation : json) : option exn := None.

(** ** Specification vocabulary *)

(** The six kinds the script treats as fatal. *)
Definition fatal (kind : ApiKind) : bool :=
  match kind with
  | InvalidArgument | PermissionDenied | NotFound
  | ResourceExhausted | Unknown | ServiceUnavailable => true
  | DeadlineExceeded | OtherApiError => false
  end.

(** [last_food_item], when set, holds a name that passed validation. *)
Definition valid_last (m : Machine) : Prop :=
  match last_food_item m with
  | Some f => f <> "" /\ isspace f = false
  | None => True
  end.


(** A call that carries an image.  The script makes none: the record
    keeps the distinction so that properties can say so. *)
Definition with_image (c : Call) : bool :=
  match call_images c with
  | [] => false
  | _ :: _ => true
  end.

(** The calls [after] has beyond [before]. *)
Definition new_calls (before after : list Call) : list Call :=
  skipn (length before) after.

(** The reply to the main query of a turn: the last call of the turn,
    when it carries no image. *)
Definition main_reply (before after : list Call) : option Reply :=
  match rev (new_calls before after) with
  | c :: _ => if with_image c then None else Some (call_reply c)
  | [] => None
  end.


(** The loop's two variables are as they were. *)
Definition same_vars (m m' : Machine) : Prop :=
  last_food_item m' = last_food_item m
  /\ last_dish_description m' = last_dish_description m.

(** The relations behind two invariants: validity of the stored name,
    and the ledger of sessions and calls. *)
Definition keeps_valid (m m' : Machine) : Prop :=
  valid_last m -> valid_last m'.


(** Nothing happened on the client library: no session was created and
    no call was made. *)
Definition no_contact (m m' : Machine) : Prop :=
  sessions m' = sessions m /\ trace m' = trace m.

(** The machine once the terminal has shown [shown] and the pending
    answers are down to [rest]; nothing else differs from [m]. *)
Definition after_input (m : Machine) (shown : list Output) (rest : list Key)
  : Machine :=
  set_stdin rest (set_stdout (stdout m ++ shown) m).

(** The menu, as lines 114-118 write it. *)
Definition menu_text : list Output :=
  [ Printed "Options:";
    Printed "1. Get ingredients of a food item.";
    Printed "2. Check if an ingredient is in a dish.";
    Printed "3. Analyze the properties of a food item.";
    Prompted prompt_option ].

(** What [after] shows beyond [before]. *)
Definition new_output (before after : list Output) : list Output :=
  skipn (length before) after.

Definition is_printed (o : Output) : bool :=
  match o with
  | Printed _ | Reported _ _ => true
  | Prompted _ => false
  end.

(** The questions asked, in order. *)
Fixpoint prompts (out : list Output) : list string :=
  match out with
  | [] => []
  | Prompted p :: rest => p :: prompts rest
  | Printed _ :: rest | Reported _ _ :: rest => prompts rest
  end.

(** Nothing was asked and no answer was taken; lines may have been
    printed. *)
Definition only_prints (m m' : Machine) : Prop :=
  stdin m' = stdin m
  /\ exists out, stdout m' = (stdout m ++ out)%list
                 /\ forallb is_printed out = true.

(** A turn that was turned down: it ends normally (so the loop goes on
    to show the menu again), its last line is [message], and the client
    library was not touched. *)
Definition rejected_with (message : string) (m : Machine)
           (r : Result unit * Machine) : Prop :=
  fst r = Ok tt
  /\ no_contact m (snd r)
  /\ exists shown, stdout (snd r) = (stdout m ++ shown ++ [Printed message])%list.

(** The machine after the image pass on [image]: a missing file is
    reported by the first [except] clause; any other failure to read it
    by the second; a file that was read leaves a new session behind and
    the [TypeError] of the call on it is reported by the second clause. *)
Definition after_image_pass (m : Machine) (image : string) : Machine :=
  match files m image with
  | NoSuchFile => set_stdout (stdout m ++ [Printed msg_image_not_found]) m
  | ReadError text =>
      set_stdout (stdout m ++ [Reported msg_image_error (OSError text)]) m
  | Bytes _ =>
      set_stdout (stdout m ++ [Reported msg_image_error TypeError])
                 (set_sessions (sessions m ++ [[]]) m)
  end.

(** How a [try] statement of the menu deals with a main query that
    raises an API error of [kind] on [m]: the turn ends normally on a
    deadline, and the process exits with status 1 on a fatal kind. *)
Definition handles_api_error (submit : M unit) (m : Machine) (kind : ApiKind)
  : Prop :=
  (kind = DeadlineExceeded -> fst (submit m) = Ok tt)
  /\ (fatal kind = true ->
      fst (submit m) = Raise (SystemExit 1)
      /\ status_of (fst (submit m)) = Exited 1).

(** The first line of every run (line 106). *)
Definition banner : string := "You are using the Food Ingredients Model.".

Definition required_keys : list string :=
  ["GEMINI_API_KEY"; "GEMINI_MODEL"; "SAFETY_SETTINGS"; "GENERATION_CONFIG"].

(** The API key is there and is the placeholder of the template. *)
Definition has_placeholder (members : list (string * json)) : bool :=
  match dict_get "GEMINI_API_KEY" members with
  | Some v => json_eq_str v placeholder_key
  | None => false
  end.

(** The run ended during startup: after the banner and the lines [out]
    the process exited with status 1, and nothing else happened. *)
Definition exits_at_startup (out : list string) (m : Machine)
           (r : Result unit * Machine) : Prop :=
  r = (Raise (SystemExit 1),
       set_stdout (stdout m ++ Printed banner :: map Printed out) m).

(** What the image pass can do to the machine: it never writes the
    variables, makes no call and takes no answer, and leaves the
    sessions there are as they were, adding at most an empty one. *)
Definition image_effect (m m' : Machine) : Prop :=
  same_vars m m'
  /\ trace m' = trace m
  /\ stdin m' = stdin m
  /\ (sessions m' = sessions m \/ sessions m' = (sessions m ++ [[]])%list).

(** The three [try] statements a turn can end in. *)
Definition is_submit (chat : nat) (submit : M unit) : Prop :=
  (exists food_item, submit = submit_ingredients chat food_item)
  \/ (exists dish ingredient, submit = submit_contains chat dish ingredient)
  \/ (exists food_item description,
         submit = submit_analysis chat food_item description).

(** A turn either makes no main query, or is one of the three [try]
    statements run on a machine [m1], whose call is the main query. *)
Definition turn_shape (chat : nat) (m : Machine) (r : Result unit * Machine)
  : Prop :=
  main_reply (trace m) (trace (snd r)) = None
  \/ exists submit m1,
       r = submit m1
       /\ is_submit chat submit
       /\ main_reply (trace m) (trace (snd r))
          = Some (service m1 (length (trace m1))).

(** The line the image pass prints for [image]. *)
Definition image_report (m : Machine) (image : string) : Output :=
  match files m image with
  | NoSuchFile => Printed msg_image_not_found
  | ReadError text => Reported msg_image_error (OSError text)
  | Bytes _ => Reported msg_image_error TypeError
  end.

(** The machine on which a turn of option 3 runs its [try] statement:
    the menu and the three questions are out, the answers are down to
    [rest], and the image pass has been through when a path was given. *)
Definition analysis_start (m : Machine) (image : string) (rest : list Key)
  : Machine :=
  let m0 := after_input m (menu_text ++ [Prompted prompt_food_name;
                                         Prompted prompt_description;
                                         Prompted prompt_image]) rest in
  if truthy image then after_image_pass m0 image else m0.

(** An exception that neither the three [except] clauses of
    [initialize_genai] nor the [except KeyboardInterrupt] of the script
    catch. *)
Definition uncaught_at_startup (e : exn) : bool :=
  match e with
  | FileNotFoundError | JSONDecodeError | KeyError _ | KeyboardInterrupt => false
  | _ => true
  end.

(** The machine on which the loop starts, given the machine [m] that
    startup left: the loop's session is open (lines 107-108) and the two
    variables are [None] (lines 110-111). *)
Definition loop_entry (m : Machine) : Machine :=
  set_last_dish_description None
    (set_last_food_item None (set_sessions (sessions m ++ [[]]) m)).

(** The service is the same: a computation cannot change what the
    remote side will answer. *)
Definition same_service (m m' : Machine) : Prop := service m' = service m.

(** What a turn sends: nothing, or the one call of one of the three
    [try] statements, run on a machine [m1] that has made the same calls
    as [m]. *)
Definition turn_sends (chat : nat) (m : Machine) (r : Result unit * Machine)
  : Prop :=
  trace (snd r) = trace m
  \/ exists submit m1 query,
       r = submit m1
       /\ is_submit chat submit
       /\ trace m1 = trace m
       /\ service m1 = service m
       /\ trace (snd r)
          = (trace m ++ [mkCall chat query [] (service m1 (length (trace m1)))])%list.


(** ** The frame: what every step of the script respects

    [R] relates the machine before a computation to the machine after
    it.  For a reflexive and transitive [R] it is enough that each
    primitive respects [R]. *)
Definition respects (R : Machine -> Machine -> Prop) {A} (c : M A) : Prop :=
  forall m, R m (snd (c m)).

(** ** Machines for the examples *)

(** A machine for the examples: a complete configuration, no image on
    disk, a service that answers every call. *)
Definition sample_config : ConfigFile :=
  CfgParsed (JObj [ ("GEMINI_API_KEY", JStr "secret");
                    ("GEMINI_MODEL", JStr "gemini-pro");
                    ("SAFETY_SETTINGS", JArr []);
                    ("GENERATION_CONFIG", JObj []) ]).

Definition sample_model : Model :=
  GenerativeModel (JStr "gemini-pro") (JArr []) (JObj []).

(** A machine as it stands when the loop is entered: the banner is
    out, the configuration is read and the loop's session (reference 0)
    is open. *)
Definition in_loop (m : Machine) : Machine := snd (food_ingredients_chat 0 m).

Definition fresh_machine (keys : list Key) : Machine :=
  boot accepting ["main.py"] sample_config (fun _ => NoSuchFile)
       (fun _ => Response "flour, water, yeast") keys.

Definition sample_machine (keys : list Key) : Machine :=
  in_loop (fresh_machine keys).

(** The same machine one turn later, after an analysis of "pizza": the
    name is stored. *)
Definition pizza_machine (keys : list Key) : Machine :=
  snd (menu_turn sample_model 0
         (sample_machine
            (Line "3" :: Line "pizza" :: Line "tasty" :: Line "" :: keys))).

(** A machine whose service is out of reach: every call runs into the
    deadline. *)
Definition offline_machine (keys : list Key) : Machine :=
  in_loop
    (boot accepting ["main.py"] sample_config (fun _ => NoSuchFile)
          (fun _ => Raises (ApiError DeadlineExceeded "504 Deadline Exceeded")) keys).

(** A machine whose service refuses every call. *)
Definition refusing_machine (keys : list Key) : Machine :=
  in_loop
    (boot accepting ["main.py"] sample_config (fun _ => NoSuchFile)
          (fun _ => Raises (ApiError PermissionDenied "403 denied")) keys).

(** A machine with an image on disk and a service that answers every
    call. *)
Definition image_machine : Machine :=
  boot accepting ["main.py"] sample_config (fun _ => Bytes [x89; x50; x4e; x47])
       (fun _ => Response "a pizza")
       [Line "3"; Line "pizza"; Line "tasty"; Line "dish.png"].

(** A machine whose service returns responses without a text. *)
Definition textless_machine (keys : list Key) : Machine :=
  boot accepting ["main.py"] sample_config (fun _ => NoSuchFile)
       (fun _ => Textless) keys.

Definition template_config : ConfigFile :=
  CfgParsed (JObj [ ("GEMINI_API_KEY", JStr "your gemini api key here");
                    ("GEMINI_MODEL", JStr "gemini-pro");
                    ("SAFETY_SETTINGS", JArr []);
                    ("GENERATION_CONFIG", JObj []) ]).

(** ** Vocabulary for further properties *)

(** The line printed on an interrupt (line 311). *)
Definition farewell : string := "___ See ya! ___".

(** An exception none of the seven [except] clauses names. *)
Definition unlisted (e : exn) : Prop :=
  forall kind message, e = ApiError kind message -> kind = OtherApiError.

(** [out] ends with the lines [lines]. *)
Definition ends_with (out lines : list Output) : Prop :=
  exists shown, out = (shown ++ lines)%list.

(** The answers a computation took: [m'] has the answers of [m] less
    [taken], from the front. *)
Definition took (taken : list Key) (m m' : Machine) : Prop :=
  stdin m = (taken ++ stdin m')%list.

(** A computation that cannot swallow an interrupt: when an interrupt
    is among the answers it took, it raises [KeyboardInterrupt]. *)
Definition interruptible {A} (c : M A) : Prop :=
  forall m, exists taken,
    took taken m (snd (c m))
    /\ (In CtrlC taken -> fst (c m) = Raise KeyboardInterrupt).

(** No answer is put back: the pending answers never get more. *)
Definition answers_shrink (m m' : Machine) : Prop :=
  (length (stdin m') <= length (stdin m))%nat.

(** The first required key, in the order of lines 26-37, that the
    configuration does not have. *)
Definition first_missing (members : list (string * json)) : option string :=
  find (fun key => match dict_get key members with
                   | None => true
                   | Some _ => false
                   end) required_keys.

(** Two machines that differ at most in [last_dish_description]. *)
Definition alike (m m' : Machine) : Prop :=
  set_last_dish_description None m = set_last_dish_description None m'.

(** A computation whose result and effects do not depend on
    [last_dish_description]. *)
Definition oblivious {A} (c : M A) : Prop :=
  forall m m', alike m m' ->
               fst (c m) = fst (c m') /\ alike (snd (c m)) (snd (c m')).

(** A turn adds at most one call with an image and then at most one main
    query to the calls made. *)
Definition at_most_two_calls (m m' : Machine) : Prop :=
  exists image_calls main_calls,
    trace m' = (trace m ++ image_calls ++ main_calls)%list
    /\ (length image_calls <= 1)%nat
    /\ (length main_calls <= 1)%nat
    /\ forallb with_image image_calls = true
    /\ forallb (fun c => negb (with_image c)) main_calls = true.

(** What a [try] statement of the menu does on any machine: it makes
    the one call [query] to [chat], asks nothing, and on an answer ends
    normally after printing [label] and the answer. *)
Definition sends_one (chat : nat) (query label : string) (submit : M unit)
  : Prop :=
  forall m,
    trace (snd (submit m))
    = (trace m ++ [mkCall chat query [] (service m (length (trace m)))])%list
    /\ only_prints m (snd (submit m))
    /\ length (sessions (snd (submit m))) = length (sessions m)
    /\ forall text,
         service m (length (trace m)) = Response text ->
         fst (submit m) = Ok tt
         /\ stdout (snd (submit m))
            = (stdout m ++ [Printed label; Printed text])%list.

(** What a turn that reaches its main query without an image pass shows
    from outside: the questions [asked], the pending answers [rest], the
    one call [call], no new session, and on an answer a normal end after
    [label] and the answer. *)
Definition asks_and_sends (asked : list string) (rest : list Key) (call : Call)
           (label : string) (m : Machine) (r : Result unit * Machine) : Prop :=
  new_calls (trace m) (trace (snd r)) = [call]
  /\ prompts (new_output (stdout m) (stdout (snd r))) = asked
  /\ stdin (snd r) = rest
  /\ length (sessions (snd r)) = length (sessions m)
  /\ forall text,
       call_reply call = Response text ->
       fst r = Ok tt
       /\ ends_with (stdout (snd r)) [Printed label; Printed text].

Arguments analyze_image_with_gemini : simpl never.
Arguments choose_name : simpl never.
Arguments submit_ingredients : simpl never.
Arguments submit_contains : simpl never.
Arguments submit_analysis : simpl never.
Arguments describe_with_image : simpl never.
Arguments option_1 : simpl never.
Arguments option_2 : simpl never.
Arguments option_3 : simpl never.
Arguments initialize_genai : simpl never.
Arguments ingredients_query : simpl never.
Arguments contains_query : simpl never.
Arguments analysis_query : simpl never.

(** ** Lemmas on strings *)

Lemma eqb_empty_false (s : string) : s <> "" -> (s =? "") = false.
Proof. intros H. apply String.eqb_neq. exact H. Qed.

Lemma blank_false_iff (s : string) :
  blank s = false <-> s <> "" /\ isspace s = false.
Proof.
  unfold blank. rewrite orb_false_iff, String.eqb_neq. tauto.
Qed.

Lemma blank_true_iff (s : string) :
  blank s = true <-> s = "" \/ isspace s = true.
Proof.
  unfold blank. rewrite orb_true_iff, String.eqb_eq. tauto.
Qed.

Lemma prefix_refl_app (k rest : string) : prefix k (k ++ rest) = true.
Proof.
  induction k as [|c k IH]; simpl.
  - destruct rest; reflexivity.
  - destruct (Ascii.ascii_dec c c) as [_|N]; [exact IH | now elim N].
Qed.

Lemma contains_prefix (k hay : string) : prefix k hay = true -> contains k hay = true.
Proof. intros H. destruct hay; cbn [contains]; rewrite H; reflexivity. Qed.

Lemma contains_app (k before rest : string) :
  contains k (before ++ k ++ rest) = true.
Proof.
  induction before as [|c b IH]; simpl.
  - apply contains_prefix, prefix_refl_app.
  - rewrite IH. apply orb_true_r.
Qed.

(** ** The two shapes of [send_message] in the script

    The three queries of the menu pass the text in first position, as
    [content], and [stream=False]: the query is sent.  The call of the
    image pass passes nothing in first position and names [message] and
    [images], not [content]: it raises [TypeError] and nothing is
    sent. *)
Lemma send_message_query chat query :
  send_message chat [PyStr query] [("stream", PyBool false)] = generate chat query.
Proof. reflexivity. Qed.

Lemma send_message_image session message images :
  send_message session [] [("message", message); ("images", images)]
  = raise TypeError.
Proof. reflexivity. Qed.

(** ** The frame rules *)
Section Frame.

Variable R : Machine -> Machine -> Prop.
Hypothesis R_refl : forall m, R m m.
Hypothesis R_trans : forall a b c, R a b -> R b c -> R a c.

Lemma respects_ret {A} (a : A) : respects R (ret a).
Proof. intros m. apply R_refl. Qed.

Lemma respects_raise {A} (e : exn) : respects R (@raise A e).
Proof. intros m. apply R_refl. Qed.

Lemma respects_bind {A B} (c : M A) (k : A -> M B) :
  respects R c -> (forall a, respects R (k a)) -> respects R (bind c k).
Proof.
  intros Hc Hk m. unfold bind.
  specialize (Hc m). destruct (c m) as [[a|e] m1]; simpl in *.
  - eapply R_trans; [exact Hc | apply Hk].
  - exact Hc.
Qed.

Lemma respects_try {A} (body : M A) (clauses : exn -> option (M A)) :
  respects R body ->
  (forall e handler, clauses e = Some handler -> respects R handler) ->
  respects R (try_except body clauses).
Proof.
  intros Hb Hh m. unfold try_except.
  specialize (Hb m). destruct (body m) as [[a|e] m1]; simpl in *.
  - exact Hb.
  - destruct (clauses e) as [handler|] eqn:E; simpl.
    + eapply R_trans; [exact Hb | eapply Hh; exact E].
    + exact Hb.
Qed.

Lemma respects_while (body : M unit) (fuel : nat) :
  respects R body -> respects R (while_true fuel body).
Proof.
  intros Hb. induction fuel as [|n IH]; simpl.
  - apply respects_ret.
  - apply respects_bind; [exact Hb | intros _; exact IH].
Qed.

Lemma respects_get_last : respects R get_last_food_item.
Proof. intros m. apply R_refl. Qed.

Lemma respects_get_argv : respects R get_argv.
Proof. intros m. apply R_refl. Qed.

Lemma respects_load_keys_json : respects R load_keys_json.
Proof.
  intros m. unfold load_keys_json. destruct (keys_json m); apply R_refl.
Qed.

Lemma respects_subscript content key : respects R (subscript content key).
Proof.
  unfold subscript. destruct content; try apply respects_raise.
  destruct (dict_get key members); [apply respects_ret | apply respects_raise].
Qed.

Lemma respects_read_binary path : respects R (read_binary path).
Proof.
  intros m. unfold read_binary. destruct (files m path); apply R_refl.
Qed.

(** The terminal. *)
Hypothesis R_print : forall s, respects R (print s).
Hypothesis R_input : forall p, respects R (input p).

Lemma respects_initialize_genai : respects R initialize_genai.
Proof.
  unfold initialize_genai.
  apply respects_bind.
  - apply respects_try.
    + apply respects_bind; [apply respects_load_keys_json | intros content].
      apply respects_bind; [apply respects_subscript | intros key].
      apply respects_bind.
      { destruct (json_eq_str key placeholder_key).
        - repeat (apply respects_bind; [apply R_print | intros _]).
          apply respects_raise.
        - apply respects_ret. }
      intros _.
      repeat (apply respects_bind; [apply respects_subscript | intro]).
      apply respects_bind; [apply respects_ret | intros _; apply respects_ret].
    + intros e handler H.
      destruct e; inversion H; subst;
        (apply respects_bind; [apply R_print | intros _; apply respects_raise]).
  - intros [[a b] c] m. unfold new_model.
    destruct (model_error m a b c); apply R_refl.
Qed.

Lemma respects_response_text response : respects R (response_text response).
Proof. destruct response; [apply respects_ret | apply respects_raise]. Qed.

(** The library calls of one turn: the main query to the loop's
    session, and the image pass as a whole. *)
Variable chat : nat.
Hypothesis R_send : forall message, respects R (generate chat message).
Hypothesis R_image :
  forall model path, respects R (analyze_image_with_gemini model path).

Lemma respects_api_clauses e handler :
  api_clauses e = Some handler -> respects R handler.
Proof.
  intros H. destruct e; try discriminate.
  destruct kind; inversion H; subst;
    (apply respects_bind; [apply R_print | intros _]);
    (apply respects_bind; [apply R_print | intros _]);
    first [apply respects_ret | apply respects_raise].
Qed.

Lemma respects_choose_name reuse_prompt ask :
  respects R (choose_name reuse_prompt ask).
Proof.
  unfold choose_name.
  apply respects_bind; [apply respects_get_last | intros last].
  destruct (reusable last); [|apply R_input].
  apply respects_bind; [apply R_input | intros answer].
  destruct (lower answer =? "yes"); [apply respects_ret | apply R_input].
Qed.

Lemma respects_submit_ingredients food_item :
  respects R (submit_ingredients chat food_item).
Proof.
  apply respects_try; [|apply respects_api_clauses].
  cbv zeta. rewrite send_message_query.
  apply respects_bind; [apply R_send | intros response].
  apply respects_bind; [apply R_print | intros _].
  apply respects_bind; [apply respects_response_text | intros text; apply R_print].
Qed.

Lemma respects_submit_contains dish ingredient :
  respects R (submit_contains chat dish ingredient).
Proof.
  apply respects_try; [|apply respects_api_clauses].
  cbv zeta. rewrite send_message_query.
  apply respects_bind; [apply R_send | intros response].
  apply respects_bind; [apply R_print | intros _].
  apply respects_bind; [apply respects_response_text | intros text; apply R_print].
Qed.

Lemma respects_option_1 : respects R (option_1 chat).
Proof.
  apply respects_bind; [apply respects_choose_name | intros food_item].
  destruct (blank food_item); [apply R_print | apply respects_submit_ingredients].
Qed.

Lemma respects_option_2 : respects R (option_2 chat).
Proof.
  apply respects_bind; [apply respects_choose_name | intros dish].
  apply respects_bind; [apply R_input | intros ingredient].
  destruct (blank dish || blank ingredient);
    [apply R_print | apply respects_submit_contains].
Qed.

Lemma respects_describe_with_image model description image :
  respects R (describe_with_image model description image).
Proof.
  unfold describe_with_image. destruct (truthy image); [|apply respects_ret].
  apply respects_bind; [apply R_image | intros [text|]].
  - destruct (truthy text); apply respects_ret.
  - apply respects_ret.
Qed.

(** The two assignments of option 3; the name assigned has passed the
    validation of line 237. *)
Hypothesis R_assign_food :
  forall f, blank f = false -> respects R (assign_last_food_item (Some f)).
Hypothesis R_assign_description :
  forall d, respects R (assign_last_dish_description (Some d)).

Lemma respects_submit_analysis food_item description :
  blank food_item = false ->
  respects R (submit_analysis chat food_item description).
Proof.
  intros Hvalid.
  apply respects_try; [|apply respects_api_clauses].
  cbv zeta. rewrite send_message_query.
  apply respects_bind; [apply R_send | intros response].
  apply respects_bind; [apply R_print | intros _].
  apply respects_bind; [apply respects_response_text | intros text].
  apply respects_bind; [apply R_print | intros _].
  apply respects_bind; [apply R_assign_food, Hvalid | intros _].
  apply R_assign_description.
Qed.

Lemma respects_option_3 model : respects R (option_3 model chat).
Proof.
  unfold option_3.
  apply respects_bind; [apply R_input | intros food_item].
  apply respects_bind; [apply R_input | intros description].
  apply respects_bind; [apply R_input | intros image].
  destruct (blank food_item) eqn:Hvalid; [apply R_print|].
  apply respects_bind; [apply respects_describe_with_image | intros d].
  apply respects_submit_analysis, Hvalid.
Qed.

Lemma respects_menu_turn model : respects R (menu_turn model chat).
Proof.
  unfold menu_turn.
  repeat (apply respects_bind; [apply R_print | intros _]).
  apply respects_bind; [apply R_input | intros option].
  destruct (option =? "1"); [apply respects_option_1|].
  destruct (option =? "2"); [apply respects_option_2|].
  destruct (option =? "3"); [apply respects_option_3 | apply R_print].
Qed.

End Frame.

(** The image pass respects whatever a new session and a printed line
    respect: its call never gets as far as a request. *)
Section ImageFrame.

Variable R : Machine -> Machine -> Prop.
Hypothesis R_refl : forall m, R m m.
Hypothesis R_trans : forall a b c, R a b -> R b c -> R a c.
Hypothesis R_print : forall s, respects R (print s).
Hypothesis R_report : forall text e, respects R (print_error text e).
Hypothesis R_start : forall model, respects R (start_chat model).

Lemma respects_analyze_image model path :
  respects R (analyze_image_with_gemini model path).
Proof.
  apply respects_try; [exact R_trans | |].
  - apply respects_bind; [exact R_trans | apply respects_read_binary, R_refl |].
    intros content.
    apply respects_bind; [exact R_trans | apply R_start | intros session].
    rewrite send_message_image.
    apply respects_bind; [exact R_trans | apply respects_raise, R_refl |].
    intros response.
    apply respects_bind;
      [exact R_trans | apply respects_response_text, R_refl | intros text].
    apply respects_ret, R_refl.
  - intros e handler H.
    destruct e; simpl in H; inversion H; subst;
      (apply respects_bind;
       [exact R_trans | first [apply R_print | apply R_report]
       | intros _; apply respects_ret, R_refl]).
Qed.

End ImageFrame.

(** ** The image pass, run

    Whatever the file holds, the image pass ends normally and returns no
    text, so the description of the turn stays as it was typed. *)
Lemma analyze_image_run model path m :
  analyze_image_with_gemini model path m = (Ok None, after_image_pass m path).
Proof.
  unfold analyze_image_with_gemini, after_image_pass, try_except, bind,
    read_binary.
  destruct (files m path) as [|text|content]; reflexivity.
Qed.

Lemma describe_with_image_run model description image m :
  describe_with_image model description image m
  = (Ok description, if truthy image then after_image_pass m image else m).
Proof.
  unfold describe_with_image, bind.
  destruct (truthy image); [|reflexivity].
  rewrite analyze_image_run. reflexivity.
Qed.

Lemma after_image_pass_effect m image : image_effect m (after_image_pass m image).
Proof.
  unfold after_image_pass, image_effect, same_vars.
  destruct (files m image); cbn; auto.
Qed.

(** ** The variables are written by option 3 only *)

Lemma same_vars_refl m : same_vars m m.
Proof. split; reflexivity. Qed.

Lemma same_vars_trans a b c : same_vars a b -> same_vars b c -> same_vars a c.
Proof. intros [H1 H2] [H3 H4]. split; congruence. Qed.

Lemma same_vars_print s : respects same_vars (print s).
Proof. intros m. split; reflexivity. Qed.

Lemma same_vars_input p : respects same_vars (input p).
Proof.
  intros m. unfold input. destruct (stdin m) as [|[line|] rest]; split; reflexivity.
Qed.

Lemma same_vars_start_chat model : respects same_vars (start_chat model).
Proof. intros m. split; reflexivity. Qed.

Lemma same_vars_report text e : respects same_vars (print_error text e).
Proof. intros m. split; reflexivity. Qed.

Lemma same_vars_send chat message : respects same_vars (generate chat message).
Proof.
  intros m. unfold generate.
  destruct (service m (length (trace m))); split; reflexivity.
Qed.

Lemma same_vars_image model path :
  respects same_vars (analyze_image_with_gemini model path).
Proof.
  apply respects_analyze_image;
    auto using same_vars_refl, same_vars_print, same_vars_report, same_vars_start_chat.
  exact same_vars_trans.
Qed.

Create HintDb frame.
#[local] Hint Resolve same_vars_refl same_vars_print same_vars_input
  same_vars_start_chat same_vars_send same_vars_image : frame.
#[local] Hint Immediate same_vars_trans : frame.

Lemma same_vars_option_1 chat : respects same_vars (option_1 chat).
Proof. apply respects_option_1; eauto with frame; exact same_vars_trans. Qed.

Lemma same_vars_option_2 chat : respects same_vars (option_2 chat).
Proof. apply respects_option_2; eauto with frame; exact same_vars_trans. Qed.



(** ** Running a turn on given answers *)

Ltac run_terminal :=
  cbn [bind print print2 input ret fst snd get_last_food_item
       set_stdout set_stdin stdin stdout last_food_item after_input].

Lemma menu_turn_line model chat m choice rest :
  stdin m = Line choice :: rest ->
  menu_turn model chat m
  = (if choice =? "1" then option_1 chat
     else if choice =? "2" then option_2 chat
     else if choice =? "3" then option_3 model chat
     else print msg_invalid_option) (after_input m menu_text rest).
Proof.
  intros H. destruct m; cbn [stdin] in H; subst.
  unfold menu_turn, menu_text. run_terminal.
  rewrite <- !app_assoc. reflexivity.
Qed.

Lemma option_3_lines model chat m food_item description image rest :
  stdin m = Line food_item :: Line description :: Line image :: rest ->
  option_3 model chat m
  = (if blank food_item then print msg_food_empty
     else d <- describe_with_image model description image ;;
          submit_analysis chat food_item d)
      (after_input m [Prompted prompt_food_name; Prompted prompt_description;
                      Prompted prompt_image] rest).
Proof.
  intros H. destruct m; cbn [stdin] in H; subst.
  unfold option_3. run_terminal.
  rewrite <- !app_assoc. reflexivity.
Qed.

(** The name of options 1 and 2, in the three ways lines 121-128 (and
    176-183) obtain it. *)
Lemma choose_name_fresh reuse_prompt ask m name rest :
  reusable (last_food_item m) = None ->
  stdin m = Line name :: rest ->
  choose_name reuse_prompt ask m = (Ok name, after_input m [Prompted ask] rest).
Proof.
  intros Hlast H. destruct m; cbn [stdin last_food_item] in *; subst.
  unfold choose_name. run_terminal. rewrite Hlast. run_terminal. reflexivity.
Qed.

Lemma choose_name_reused reuse_prompt ask m last answer rest :
  reusable (last_food_item m) = Some last ->
  stdin m = Line answer :: rest ->
  lower answer = "yes" ->
  choose_name reuse_prompt ask m
  = (Ok last, after_input m [Prompted (reuse_prompt last)] rest).
Proof.
  intros Hlast H Hyes. destruct m; cbn [stdin last_food_item] in *; subst.
  unfold choose_name. run_terminal. rewrite Hlast. run_terminal.
  rewrite Hyes. reflexivity.
Qed.

Lemma choose_name_declined reuse_prompt ask m last answer name rest :
  reusable (last_food_item m) = Some last ->
  stdin m = Line answer :: Line name :: rest ->
  lower answer <> "yes" ->
  choose_name reuse_prompt ask m
  = (Ok name, after_input m [Prompted (reuse_prompt last); Prompted ask] rest).
Proof.
  intros Hlast H Hno. destruct m; cbn [stdin last_food_item] in *; subst.
  unfold choose_name. run_terminal. rewrite Hlast. run_terminal.
  apply String.eqb_neq in Hno. rewrite Hno. run_terminal.
  rewrite <- !app_assoc. reflexivity.
Qed.

Lemma menu_turn_eof model chat m :
  stdin m = [] ->
  menu_turn model chat m = (Raise EOFError, after_input m menu_text []).
Proof.
  intros H. destruct m; cbn [stdin] in H; subst.
  unfold menu_turn, menu_text. run_terminal.
  rewrite <- !app_assoc. reflexivity.
Qed.

Lemma menu_turn_interrupt model chat m rest :
  stdin m = CtrlC :: rest ->
  menu_turn model chat m = (Raise KeyboardInterrupt, after_input m menu_text rest).
Proof.
  intros H. destruct m; cbn [stdin] in H; subst.
  unfold menu_turn, menu_text. run_terminal.
  rewrite <- !app_assoc. reflexivity.
Qed.

(** C5. A turn whose menu choice is not "3" (so every turn of option 1 and
    of option 2, whatever the outcome of its remote call) leaves
    [last_food_item] and [last_dish_description] as they were; the
    branches of options 1 and 2 never write them. *)
Theorem options_1_2_never_write_variables :
  (forall chat, respects same_vars (option_1 chat))
  /\ (forall chat, respects same_vars (option_2 chat))
  /\ forall model chat m,
       (forall rest, stdin m <> Line "3" :: rest) ->
       last_food_item (snd (menu_turn model chat m)) = last_food_item m
       /\ last_dish_description (snd (menu_turn model chat m))
          = last_dish_description m.
Proof.
  split; [exact same_vars_option_1 | split; [exact same_vars_option_2 |]].
  intros model chat m Hnot3.
  change (same_vars m (snd (menu_turn model chat m))).
  destruct (stdin m) as [|[choice|] rest] eqn:Hin.
  - rewrite (menu_turn_eof _ _ _ Hin). split; reflexivity.
  - rewrite (menu_turn_line _ _ _ _ _ Hin).
    apply same_vars_trans with (after_input m menu_text rest);
      [split; reflexivity|].
    destruct (choice =? "1"); [apply same_vars_option_1|].
    destruct (choice =? "2"); [apply same_vars_option_2|].
    destruct (choice =? "3") eqn:E3; [|apply same_vars_print].
    apply String.eqb_eq in E3. subst choice. now elim (Hnot3 rest).
  - rewrite (menu_turn_interrupt _ _ _ _ Hin). split; reflexivity.
Qed.

Lemma options_1_2_never_write_variables_witness :
  (forall rest, stdin (sample_machine [Line "1"; Line "pizza"]) <> Line "3" :: rest)
  /\ last_food_item
       (snd (menu_turn sample_model 0 (sample_machine [Line "1"; Line "pizza"])))
     = None.
Proof.
  split.
  - intros rest H. discriminate H.
  - apply (proj2 (proj2 options_1_2_never_write_variables)
             sample_model 0%nat (sample_machine [Line "1"; Line "pizza"])).
    intros rest H. discriminate H.
Defined.

(** ** The frame of a whole run *)
Section RunFrame.

Variable R : Machine -> Machine -> Prop.
Hypothesis R_refl : forall m, R m m.
Hypothesis R_trans : forall a b c, R a b -> R b c -> R a c.
Hypothesis R_print : forall s, respects R (print s).
Hypothesis R_input : forall p, respects R (input p).
Hypothesis R_report : forall text e, respects R (print_error text e).
Hypothesis R_start : forall model, respects R (start_chat model).
Hypothesis R_send_any :
  forall session message, respects R (generate session message).
Hypothesis R_assign_food :
  forall v, (forall f, v = Some f -> blank f = false) ->
            respects R (assign_last_food_item v).
Hypothesis R_assign_description :
  forall v, respects R (assign_last_dish_description v).

Lemma respects_turn model chat : respects R (menu_turn model chat).
Proof.
  apply respects_menu_turn; auto.
  - intros model' path. apply respects_analyze_image; auto.
  - intros f Hf. apply R_assign_food. intros f' E. inversion E. subst. exact Hf.
Qed.

Lemma respects_food_ingredients_chat fuel :
  respects R (food_ingredients_chat fuel).
Proof.
  unfold food_ingredients_chat.
  apply (respects_bind R R_trans); [apply R_print | intros _].
  apply (respects_bind R R_trans);
    [apply respects_initialize_genai; assumption | intros model].
  apply (respects_bind R R_trans); [apply R_start | intros chat].
  apply (respects_bind R R_trans);
    [apply R_assign_food; discriminate | intros _].
  apply (respects_bind R R_trans); [apply R_assign_description | intros _].
  apply (respects_while R R_refl R_trans), respects_turn.
Qed.

Lemma respects_main fuel : respects R (main fuel).
Proof.
  unfold main.
  apply (respects_bind R R_trans); [apply (respects_ret R R_refl) | intros _].
  apply (respects_bind R R_trans); [apply (respects_get_argv R R_refl) | intros args].
  destruct (1 <? length args)%nat.
  - apply (respects_bind R R_trans); [apply R_print | intros _].
    apply (respects_raise R R_refl).
  - apply respects_food_ingredients_chat.
Qed.

Lemma respects_script fuel : respects R (script fuel).
Proof.
  apply (respects_try R R_trans); [apply respects_main|].
  intros e handler H. destruct e; inversion H; subst.
  apply (respects_bind R R_trans); [apply R_print | intros _].
  apply (respects_raise R R_refl).
Qed.

End RunFrame.

(** ** The stored name is a validated name *)

Lemma same_vars_keeps_valid {A} (c : M A) :
  respects same_vars c -> respects keeps_valid c.
Proof.
  intros H m Hv. destruct (H m) as [E _].
  unfold valid_last in *. rewrite E. exact Hv.
Qed.

Lemma keeps_valid_assign_food v :
  (forall f, v = Some f -> blank f = false) ->
  respects keeps_valid (assign_last_food_item v).
Proof.
  intros Hv m _. unfold valid_last. cbn.
  destruct v as [f|]; [|exact I].
  apply blank_false_iff, Hv. reflexivity.
Qed.

Lemma keeps_valid_assign_description v :
  respects keeps_valid (assign_last_dish_description v).
Proof. intros m Hv. exact Hv. Qed.

Lemma keeps_valid_script fuel : respects keeps_valid (script fuel).
Proof.
  apply respects_script.
  - intros m H. exact H.
  - intros a b c H1 H2 H. auto.
  - intros s. apply same_vars_keeps_valid, same_vars_print.
  - intros p. apply same_vars_keeps_valid, same_vars_input.
  - intros text e. apply same_vars_keeps_valid, same_vars_report.
  - intros model. apply same_vars_keeps_valid, same_vars_start_chat.
  - intros session message. apply same_vars_keeps_valid, same_vars_send.
  - exact keeps_valid_assign_food.
  - exact keeps_valid_assign_description.
Qed.

Lemma keeps_valid_turn model chat : respects keeps_valid (menu_turn model chat).
Proof.
  apply respects_turn.
  - intros m H. exact H.
  - intros a b c H1 H2 H. auto.
  - intros s. apply same_vars_keeps_valid, same_vars_print.
  - intros p. apply same_vars_keeps_valid, same_vars_input.
  - intros text e. apply same_vars_keeps_valid, same_vars_report.
  - intros model'. apply same_vars_keeps_valid, same_vars_start_chat.
  - intros session message. apply same_vars_keeps_valid, same_vars_send.
  - exact keeps_valid_assign_food.
  - exact keeps_valid_assign_description.
Qed.

Lemma valid_last_reusable m last :
  valid_last m -> last_food_item m = Some last ->
  reusable (last_food_item m) = Some last /\ blank last = false.
Proof.
  unfold valid_last. intros Hv E. rewrite E in *. destruct Hv as [Hne Hsp].
  split.
  - unfold reusable, truthy. rewrite (eqb_empty_false _ Hne). reflexivity.
  - apply blank_false_iff. split; assumption.
Qed.

(** ** The calls of the three [try] statements *)

Ltac run_submit m :=
  cbv zeta; rewrite send_message_query;
  unfold try_except, bind, generate;
  destruct (service m (length (trace m))) as [text| |[]];
  try match goal with kind : ApiKind |- _ => destruct kind end;
  reflexivity.

Lemma submit_ingredients_trace chat food_item m :
  trace (snd (submit_ingredients chat food_item m))
  = (trace m ++ [mkCall chat (ingredients_query food_item) []
                        (service m (length (trace m)))])%list.
Proof. unfold submit_ingredients. run_submit m. Qed.

Lemma submit_contains_trace chat dish ingredient m :
  trace (snd (submit_contains chat dish ingredient m))
  = (trace m ++ [mkCall chat (contains_query dish ingredient) []
                        (service m (length (trace m)))])%list.
Proof. unfold submit_contains. run_submit m. Qed.

Lemma submit_analysis_trace chat food_item description m :
  trace (snd (submit_analysis chat food_item description m))
  = (trace m ++ [mkCall chat (analysis_query food_item description) []
                        (service m (length (trace m)))])%list.
Proof. unfold submit_analysis. run_submit m. Qed.

Lemma new_calls_app before added : new_calls before (before ++ added) = added.
Proof.
  unfold new_calls. induction before as [|c t IH]; simpl; [reflexivity | exact IH].
Qed.

Lemma new_calls_none before : new_calls before before = [].
Proof.
  rewrite <- (app_nil_r before) at 2. apply new_calls_app.
Qed.

(** ** Options 1 and 2 on given answers *)

Lemma option_1_reused chat m last answer rest :
  reusable (last_food_item m) = Some last ->
  stdin m = Line answer :: rest ->
  lower answer = "yes" ->
  option_1 chat m
  = (if blank last then print msg_food_empty else submit_ingredients chat last)
      (after_input m [Prompted (prompt_reuse_food last)] rest).
Proof.
  intros Hlast Hin Hyes. unfold option_1, bind.
  rewrite (choose_name_reused _ _ _ _ _ _ Hlast Hin Hyes). reflexivity.
Qed.

Lemma option_1_fresh chat m food_item rest :
  reusable (last_food_item m) = None ->
  stdin m = Line food_item :: rest ->
  option_1 chat m
  = (if blank food_item then print msg_food_empty
     else submit_ingredients chat food_item)
      (after_input m [Prompted prompt_food] rest).
Proof.
  intros Hlast Hin. unfold option_1, bind.
  rewrite (choose_name_fresh _ _ _ _ _ Hlast Hin). reflexivity.
Qed.

Lemma option_1_declined chat m last answer food_item rest :
  reusable (last_food_item m) = Some last ->
  stdin m = Line answer :: Line food_item :: rest ->
  lower answer <> "yes" ->
  option_1 chat m
  = (if blank food_item then print msg_food_empty
     else submit_ingredients chat food_item)
      (after_input m [Prompted (prompt_reuse_food last); Prompted prompt_food] rest).
Proof.
  intros Hlast Hin Hno. unfold option_1, bind.
  rewrite (choose_name_declined _ _ _ _ _ _ _ Hlast Hin Hno). reflexivity.
Qed.

Lemma input_after m shown line rest prompt :
  input prompt (after_input m shown (Line line :: rest))
  = (Ok line, after_input m (shown ++ [Prompted prompt]) rest).
Proof.
  destruct m. unfold after_input. run_terminal.
  rewrite <- !app_assoc. reflexivity.
Qed.

Lemma option_2_reused chat m last answer ingredient rest :
  reusable (last_food_item m) = Some last ->
  stdin m = Line answer :: Line ingredient :: rest ->
  lower answer = "yes" ->
  option_2 chat m
  = (if blank last || blank ingredient then print msg_dish_empty
     else submit_contains chat last ingredient)
      (after_input m [Prompted (prompt_reuse_dish last);
                      Prompted prompt_ingredient] rest).
Proof.
  intros Hlast Hin Hyes. unfold option_2, bind.
  rewrite (choose_name_reused _ _ _ _ _ _ Hlast Hin Hyes).
  rewrite input_after. reflexivity.
Qed.

Lemma option_2_fresh chat m dish ingredient rest :
  reusable (last_food_item m) = None ->
  stdin m = Line dish :: Line ingredient :: rest ->
  option_2 chat m
  = (if blank dish || blank ingredient then print msg_dish_empty
     else submit_contains chat dish ingredient)
      (after_input m [Prompted prompt_dish; Prompted prompt_ingredient] rest).
Proof.
  intros Hlast Hin. unfold option_2, bind.
  rewrite (choose_name_fresh _ _ _ _ _ Hlast Hin).
  rewrite input_after. reflexivity.
Qed.

Lemma option_2_declined chat m last answer dish ingredient rest :
  reusable (last_food_item m) = Some last ->
  stdin m = Line answer :: Line dish :: Line ingredient :: rest ->
  lower answer <> "yes" ->
  option_2 chat m
  = (if blank dish || blank ingredient then print msg_dish_empty
     else submit_contains chat dish ingredient)
      (after_input m [Prompted (prompt_reuse_dish last); Prompted prompt_dish;
                      Prompted prompt_ingredient] rest).
Proof.
  intros Hlast Hin Hno. unfold option_2, bind.
  rewrite (choose_name_declined _ _ _ _ _ _ _ Hlast Hin Hno).
  rewrite input_after. reflexivity.
Qed.

(** C10. In every state a run can reach, [last_food_item] is either unset
    or a non-empty string that is not all whitespace: it starts unset and
    its only other assignment (line 256) follows the validation of line
    237.  So a turn of option 1 or 2 that reuses it submits a query built
    from a non-blank name. *)
Theorem last_food_item_is_validated :
  (forall fuel lib args cfg fs srv keys,
      valid_last (snd (script fuel (boot lib args cfg fs srv keys))))
  /\ (forall model chat m,
         valid_last m -> valid_last (snd (menu_turn model chat m)))
  /\ (forall chat m last answer rest,
         valid_last m ->
         last_food_item m = Some last ->
         stdin m = Line answer :: rest ->
         lower answer = "yes" ->
         (last <> "" /\ isspace last = false)
         /\ new_calls (trace m) (trace (snd (option_1 chat m)))
            = [mkCall chat (ingredients_query last) []
                      (service m (length (trace m)))])
  /\ (forall chat m last answer ingredient rest,
         valid_last m ->
         last_food_item m = Some last ->
         stdin m = Line answer :: Line ingredient :: rest ->
         lower answer = "yes" ->
         blank ingredient = false ->
         (last <> "" /\ isspace last = false)
         /\ new_calls (trace m) (trace (snd (option_2 chat m)))
            = [mkCall chat (contains_query last ingredient) []
                      (service m (length (trace m)))]).
Proof.
  split; [|split; [|split]].
  - intros. apply keeps_valid_script. exact I.
  - intros model chat m. apply keeps_valid_turn.
  - intros chat m last answer rest Hv Hlast Hin Hyes.
    destruct (valid_last_reusable _ _ Hv Hlast) as [Hre Hnb].
    split; [apply blank_false_iff, Hnb|].
    rewrite (option_1_reused _ _ _ _ _ Hre Hin Hyes), Hnb.
    rewrite submit_ingredients_trace. apply new_calls_app.
  - intros chat m last answer ingredient rest Hv Hlast Hin Hyes Hing.
    destruct (valid_last_reusable _ _ Hv Hlast) as [Hre Hnb].
    split; [apply blank_false_iff, Hnb|].
    rewrite (option_2_reused _ _ _ _ _ _ Hre Hin Hyes), Hnb, Hing.
    cbn [orb]. rewrite submit_contains_trace. apply new_calls_app.
Qed.

Lemma last_food_item_is_validated_witness :
  valid_last (pizza_machine [Line "yes"])
  /\ new_calls (trace (pizza_machine [Line "yes"]))
               (trace (snd (option_1 0 (pizza_machine [Line "yes"]))))
     = [mkCall 0 (ingredients_query "pizza") [] (Response "flour, water, yeast")].
Proof.
  assert (Hv : valid_last (pizza_machine [Line "yes"])).
  { split; [discriminate | reflexivity]. }
  split; [exact Hv|].
  apply (proj1 (proj2 (proj2 last_food_item_is_validated))
           0%nat (pizza_machine [Line "yes"]) "pizza" "yes" [] Hv
           eq_refl eq_refl eq_refl).
Defined.

(** ** A [try] statement asks nothing *)

Lemma only_prints_refl m : only_prints m m.
Proof. split; [reflexivity|]. exists []. now rewrite app_nil_r. Qed.

Lemma only_prints_trans a b c :
  only_prints a b -> only_prints b c -> only_prints a c.
Proof.
  intros [H1 [o1 [E1 F1]]] [H2 [o2 [E2 F2]]]. split; [congruence|].
  exists (o1 ++ o2)%list. split.
  - rewrite E2, E1, app_assoc. reflexivity.
  - rewrite forallb_app, F1, F2. reflexivity.
Qed.

Lemma only_prints_print s : respects only_prints (print s).
Proof. intros m. split; [reflexivity|]. exists [Printed s]. split; reflexivity. Qed.

Lemma only_prints_send chat message :
  respects only_prints (generate chat message).
Proof.
  intros m. unfold generate.
  destruct (service m (length (trace m)));
    (split; [reflexivity|]; exists []; cbn; now rewrite app_nil_r).
Qed.

Lemma only_prints_submit_ingredients chat food_item :
  respects only_prints (submit_ingredients chat food_item).
Proof.
  apply respects_submit_ingredients;
    auto using only_prints_refl, only_prints_print, only_prints_send.
  exact only_prints_trans.
Qed.

Lemma prompts_app a b : prompts (a ++ b) = (prompts a ++ prompts b)%list.
Proof.
  induction a as [|[t|p|t e] a IH]; simpl;
    [reflexivity | exact IH | now rewrite IH | exact IH].
Qed.

Lemma prompts_printed out : forallb is_printed out = true -> prompts out = [].
Proof.
  induction out as [|[t|p|t e] out IH]; simpl; intros H;
    [reflexivity | exact (IH H) | discriminate | exact (IH H)].
Qed.

Lemma new_output_app before added : new_output before (before ++ added) = added.
Proof.
  unfold new_output. induction before as [|c t IH]; simpl; [reflexivity | exact IH].
Qed.

(** C7. When [last_food_item] is set (to "pizza", say) and the user picks
    option 1 and answers "yes" (in any letter case) to the reuse
    question, the one query of the turn is the ingredients question of
    line 135 with the stored name in it, and the turn asks exactly two
    questions, the menu choice and the reuse question: no food name is
    asked for. *)
Theorem option_1_reuses_last_food_item :
  forall model chat m last answer rest,
    valid_last m ->
    last_food_item m = Some last ->
    stdin m = Line "1" :: Line answer :: rest ->
    lower answer = "yes" ->
    new_calls (trace m) (trace (snd (menu_turn model chat m)))
    = [mkCall chat
         ("What are the detailed and specific ingredients of " ++ last
          ++ "? Include any sub-ingredients and specific types of ingredients used.")
         [] (service m (length (trace m)))]
    /\ prompts (new_output (stdout m) (stdout (snd (menu_turn model chat m))))
       = ["Choose an option (1, 2, or 3): ";
          "Use the last analyzed food item '" ++ last ++ "'? (yes/no): "]
    /\ stdin (snd (menu_turn model chat m)) = rest.
Proof.
  intros model chat m last answer rest Hv Hlast Hin Hyes.
  destruct (valid_last_reusable _ _ Hv Hlast) as [Hre Hnb].
  rewrite (menu_turn_line _ _ _ _ _ Hin).
  change ("1" =? "1") with true. cbv iota.
  rewrite (option_1_reused chat (after_input m menu_text (Line answer :: rest))
             last answer rest Hre eq_refl Hyes), Hnb.
  set (m1 := after_input _ _ rest).
  split; [|split].
  - rewrite submit_ingredients_trace. apply (new_calls_app (trace m)).
  - destruct (only_prints_submit_ingredients chat last m1) as [_ [out [E F]]].
    rewrite E. unfold m1. cbn [after_input stdout set_stdin set_stdout].
    rewrite <- !app_assoc, new_output_app, !prompts_app, (prompts_printed _ F).
    reflexivity.
  - destruct (only_prints_submit_ingredients chat last m1) as [E _].
    rewrite E. reflexivity.
Qed.

Lemma option_1_reuses_last_food_item_witness :
  valid_last (pizza_machine [Line "1"; Line "yes"])
  /\ new_calls (trace (pizza_machine [Line "1"; Line "yes"]))
       (trace (snd (menu_turn sample_model 0 (pizza_machine [Line "1"; Line "yes"]))))
     = [mkCall 0
          "What are the detailed and specific ingredients of pizza? Include any sub-ingredients and specific types of ingredients used."
          [] (Response "flour, water, yeast")]
  /\ prompts (new_output (stdout (pizza_machine [Line "1"; Line "yes"]))
       (stdout (snd (menu_turn sample_model 0 (pizza_machine [Line "1"; Line "yes"])))))
     = ["Choose an option (1, 2, or 3): ";
        "Use the last analyzed food item 'pizza'? (yes/no): "]
  /\ stdin (snd (menu_turn sample_model 0 (pizza_machine [Line "1"; Line "yes"]))) = [].
Proof.
  assert (Hv : valid_last (pizza_machine [Line "1"; Line "yes"])).
  { split; [discriminate | reflexivity]. }
  split; [exact Hv|].
  exact (option_1_reuses_last_food_item sample_model 0%nat
           (pizza_machine [Line "1"; Line "yes"]) "pizza" "yes" [] Hv
           eq_refl eq_refl eq_refl).
Defined.

(** ** Blank names *)

Lemma print_rejects m shown rest message :
  rejected_with message m (print message (after_input m shown rest)).
Proof.
  split; [reflexivity | split; [split; reflexivity|]].
  exists shown. cbn. rewrite <- app_assoc. reflexivity.
Qed.

Lemma after_input_twice m shown rest shown' rest' :
  after_input (after_input m shown rest) shown' rest'
  = after_input m (shown ++ shown') rest'.
Proof.
  destruct m. unfold after_input. cbn. rewrite <- app_assoc. reflexivity.
Qed.

Lemma while_true_next (body : M unit) fuel m m' :
  body m = (Ok tt, m') ->
  while_true (S fuel) body m = while_true fuel body m'.
Proof. intros H. cbn [while_true]. unfold bind. rewrite H. reflexivity. Qed.

(** C3. A turn in which the name the user typed (the food of option 1 or
    3, the dish or the ingredient of option 2) is empty or all whitespace
    is turned down with the message of its option; no session is created
    and no call is made in it, and the loop goes on with the next turn. *)
Theorem blank_input_is_rejected :
  forall model chat m,
    (forall food_item rest,
        reusable (last_food_item m) = None ->
        stdin m = Line "1" :: Line food_item :: rest ->
        food_item = "" \/ isspace food_item = true ->
        rejected_with msg_food_empty m (menu_turn model chat m))
    /\ (forall last answer food_item rest,
           reusable (last_food_item m) = Some last ->
           stdin m = Line "1" :: Line answer :: Line food_item :: rest ->
           lower answer <> "yes" ->
           food_item = "" \/ isspace food_item = true ->
           rejected_with msg_food_empty m (menu_turn model chat m))
    /\ (forall dish ingredient rest,
           reusable (last_food_item m) = None ->
           stdin m = Line "2" :: Line dish :: Line ingredient :: rest ->
           (dish = "" \/ isspace dish = true)
           \/ (ingredient = "" \/ isspace ingredient = true) ->
           rejected_with msg_dish_empty m (menu_turn model chat m))
    /\ (forall last answer dish ingredient rest,
           reusable (last_food_item m) = Some last ->
           stdin m = Line "2" :: Line answer :: Line dish :: Line ingredient :: rest ->
           lower answer <> "yes" ->
           (dish = "" \/ isspace dish = true)
           \/ (ingredient = "" \/ isspace ingredient = true) ->
           rejected_with msg_dish_empty m (menu_turn model chat m))
    /\ (forall last answer ingredient rest,
           reusable (last_food_item m) = Some last ->
           stdin m = Line "2" :: Line answer :: Line ingredient :: rest ->
           lower answer = "yes" ->
           ingredient = "" \/ isspace ingredient = true ->
           rejected_with msg_dish_empty m (menu_turn model chat m))
    /\ (forall food_item description image rest,
           stdin m = Line "3" :: Line food_item :: Line description
                          :: Line image :: rest ->
           food_item = "" \/ isspace food_item = true ->
           rejected_with msg_food_empty m (menu_turn model chat m))
    /\ (forall message fuel,
           rejected_with message m (menu_turn model chat m) ->
           while_true (S fuel) (menu_turn model chat) m
           = while_true fuel (menu_turn model chat) (snd (menu_turn model chat m))).
Proof.
  intros model chat m.
  split; [|split; [|split; [|split; [|split; [|split]]]]].
  - intros food_item rest Hre Hin Hblank. apply blank_true_iff in Hblank.
    rewrite (menu_turn_line _ _ _ _ _ Hin). change ("1" =? "1") with true. cbv iota.
    rewrite (option_1_fresh chat (after_input m menu_text (Line food_item :: rest))
               food_item rest Hre eq_refl), Hblank, after_input_twice.
    apply print_rejects.
  - intros last answer food_item rest Hre Hin Hno Hblank.
    apply blank_true_iff in Hblank.
    rewrite (menu_turn_line _ _ _ _ _ Hin). change ("1" =? "1") with true. cbv iota.
    rewrite (option_1_declined chat
               (after_input m menu_text (Line answer :: Line food_item :: rest))
               last answer food_item rest Hre eq_refl Hno), Hblank, after_input_twice.
    apply print_rejects.
  - intros dish ingredient rest Hre Hin Hblank.
    rewrite <- !blank_true_iff, <- orb_true_iff in Hblank.
    rewrite (menu_turn_line _ _ _ _ _ Hin).
    change ("2" =? "1") with false. change ("2" =? "2") with true. cbv iota.
    rewrite (option_2_fresh chat
               (after_input m menu_text (Line dish :: Line ingredient :: rest))
               dish ingredient rest Hre eq_refl), Hblank, after_input_twice.
    apply print_rejects.
  - intros last answer dish ingredient rest Hre Hin Hno Hblank.
    rewrite <- !blank_true_iff, <- orb_true_iff in Hblank.
    rewrite (menu_turn_line _ _ _ _ _ Hin).
    change ("2" =? "1") with false. change ("2" =? "2") with true. cbv iota.
    rewrite (option_2_declined chat
               (after_input m menu_text
                  (Line answer :: Line dish :: Line ingredient :: rest))
               last answer dish ingredient rest Hre eq_refl Hno),
      Hblank, after_input_twice.
    apply print_rejects.
  - intros last answer ingredient rest Hre Hin Hyes Hblank.
    apply blank_true_iff in Hblank.
    rewrite (menu_turn_line _ _ _ _ _ Hin).
    change ("2" =? "1") with false. change ("2" =? "2") with true. cbv iota.
    rewrite (option_2_reused chat
               (after_input m menu_text (Line answer :: Line ingredient :: rest))
               last answer ingredient rest Hre eq_refl Hyes),
      Hblank, orb_true_r, after_input_twice.
    apply print_rejects.
  - intros food_item description image rest Hin Hblank.
    apply blank_true_iff in Hblank.
    rewrite (menu_turn_line _ _ _ _ _ Hin).
    change ("3" =? "1") with false. change ("3" =? "2") with false.
    change ("3" =? "3") with true. cbv iota.
    rewrite (option_3_lines model chat
               (after_input m menu_text
                  (Line food_item :: Line description :: Line image :: rest))
               food_item description image rest eq_refl),
      Hblank, after_input_twice.
    apply print_rejects.
  - intros message fuel [Hok _]. apply while_true_next.
    destruct (menu_turn model chat m) as [r m']. cbn in *. now subst.
Qed.

Lemma blank_input_is_rejected_witness :
  rejected_with msg_food_empty (sample_machine [Line "1"; Line "   "])
    (menu_turn sample_model 0 (sample_machine [Line "1"; Line "   "]))
  /\ rejected_with msg_dish_empty (pizza_machine [Line "2"; Line "YES"; Line ""])
       (menu_turn sample_model 0 (pizza_machine [Line "2"; Line "YES"; Line ""]))
  /\ rejected_with msg_food_empty
       (sample_machine [Line "3"; Line ""; Line "tasty"; Line "dish.png"])
       (menu_turn sample_model 0
          (sample_machine [Line "3"; Line ""; Line "tasty"; Line "dish.png"])).
Proof.
  split; [|split].
  - apply (proj1 (blank_input_is_rejected sample_model 0%nat
                    (sample_machine [Line "1"; Line "   "])) "   " []);
      [reflexivity | reflexivity | right; reflexivity].
  - apply (proj1 (proj2 (proj2 (proj2 (proj2
             (blank_input_is_rejected sample_model 0%nat
                (pizza_machine [Line "2"; Line "YES"; Line ""]))))))
             "pizza" "YES" "" []);
      [reflexivity | reflexivity | reflexivity | left; reflexivity].
  - apply (proj1 (proj2 (proj2 (proj2 (proj2 (proj2
             (blank_input_is_rejected sample_model 0%nat
                (sample_machine [Line "3"; Line ""; Line "tasty"; Line "dish.png"])))))))
             "" "tasty" "dish.png" []);
      [reflexivity | left; reflexivity].
Defined.

(** ** The main query of a turn *)

Ltac run_failed_submit H :=
  cbv zeta; rewrite send_message_query;
  unfold handles_api_error, try_except, bind, generate;
  rewrite H; split;
  [ intros ->; reflexivity
  | let Hf := fresh "Hf" in
    intros Hf;
    match goal with kind : ApiKind |- _ => destruct kind end;
    try discriminate Hf; split; reflexivity ].

Lemma submit_ingredients_failure chat food_item m kind message :
  service m (length (trace m)) = Raises (ApiError kind message) ->
  handles_api_error (submit_ingredients chat food_item) m kind.
Proof. intros H. unfold submit_ingredients. run_failed_submit H. Qed.

Lemma submit_contains_failure chat dish ingredient m kind message :
  service m (length (trace m)) = Raises (ApiError kind message) ->
  handles_api_error (submit_contains chat dish ingredient) m kind.
Proof. intros H. unfold submit_contains. run_failed_submit H. Qed.

Lemma submit_analysis_failure chat food_item description m kind message :
  service m (length (trace m)) = Raises (ApiError kind message) ->
  handles_api_error (submit_analysis chat food_item description) m kind.
Proof. intros H. unfold submit_analysis. run_failed_submit H. Qed.

Lemma while_true_raise (body : M unit) fuel m e :
  fst (body m) = Raise e -> fst (while_true (S fuel) body m) = Raise e.
Proof.
  intros H. cbn [while_true]. unfold bind.
  destruct (body m) as [[[]|e'] m']; cbn in *; [discriminate | exact H].
Qed.

Lemma submit_analysis_last_food_item chat food_item description m :
  last_food_item (snd (submit_analysis chat food_item description m))
  = match service m (length (trace m)) with
    | Response _ => Some food_item
    | Textless | Raises _ => last_food_item m
    end.
Proof. unfold submit_analysis. run_submit m. Qed.

Lemma submit_analysis_result chat food_item description m :
  match service m (length (trace m)) with
  | Response _ => fst (submit_analysis chat food_item description m) = Ok tt
  | Textless => fst (submit_analysis chat food_item description m) = Raise ValueError
  | Raises _ => True
  end.
Proof. unfold submit_analysis. run_submit m; exact I. Qed.

(** ** The image pass *)

Lemma describe_with_image_effect model description image m :
  image_effect m (snd (describe_with_image model description image m)).
Proof.
  rewrite describe_with_image_run. cbn [snd].
  destruct (truthy image); [apply after_image_pass_effect|].
  unfold image_effect, same_vars. auto.
Qed.

Lemma after_image_pass_service m image :
  service (after_image_pass m image) = service m.
Proof. unfold after_image_pass. destruct (files m image); reflexivity. Qed.

(** A turn of option 3 whose food name passed line 237 is its [try]
    statement, run on the typed name and the typed description. *)
Lemma analysis_turn model chat m food_item description image rest :
  stdin m = Line "3" :: Line food_item :: Line description :: Line image :: rest ->
  blank food_item = false ->
  menu_turn model chat m
  = submit_analysis chat food_item description (analysis_start m image rest).
Proof.
  intros Hin Hnb.
  rewrite (menu_turn_line _ _ _ _ _ Hin).
  change ("3" =? "1") with false. change ("3" =? "2") with false.
  change ("3" =? "3") with true. cbv iota.
  rewrite (option_3_lines model chat
             (after_input m menu_text
                (Line food_item :: Line description :: Line image :: rest))
             food_item description image rest eq_refl),
    Hnb, after_input_twice.
  unfold bind. rewrite describe_with_image_run. reflexivity.
Qed.

Lemma analysis_start_effect m image rest :
  trace (analysis_start m image rest) = trace m
  /\ service (analysis_start m image rest) = service m
  /\ same_vars m (analysis_start m image rest)
  /\ stdin (analysis_start m image rest) = rest.
Proof.
  unfold analysis_start. cbv zeta.
  set (m0 := after_input m _ rest).
  destruct (truthy image); [|repeat split].
  destruct (after_image_pass_effect m0 image) as [Hv [Ht [Hi _]]].
  rewrite Ht, Hi, after_image_pass_service.
  split; [reflexivity | split; [reflexivity | split; [exact Hv | reflexivity]]].
Qed.

(** C4. The image pass of option 3 keeps its failures to itself.
    Whatever the path names, it prints one line and returns no text: the
    line of the first [except] clause when the file does not exist, and
    the line of the second, with the exception in it, when the file
    cannot be read or, once it was read, when the call on it raises (it
    always does: the call names parameters [send_message] does not have,
    and the [TypeError] is caught like any other error).  It sends
    nothing.  The turn then goes on to its [try] statement with the
    description exactly as typed: its one query is the question of lines
    247-251 with the typed name and the typed description in it, the
    turn ends the way that query ends, normally when it is answered, and
    the description it stores is the typed one. *)
Theorem image_failure_is_local :
  (forall model image m,
      fst (analyze_image_with_gemini model image m) = Ok None
      /\ stdout (snd (analyze_image_with_gemini model image m))
         = (stdout m
            ++ [match files m image with
                | NoSuchFile =>
                    Printed "Error: The specified image file could not be found."
                | ReadError text =>
                    Reported
                      "Error: An unexpected error occurred while analyzing the image: "
                      (OSError text)
                | Bytes _ =>
                    Reported
                      "Error: An unexpected error occurred while analyzing the image: "
                      TypeError
                end])%list
      /\ trace (snd (analyze_image_with_gemini model image m)) = trace m)
  /\ (forall model chat m food_item description image rest,
         stdin m = Line "3" :: Line food_item :: Line description
                        :: Line image :: rest ->
         food_item <> "" -> isspace food_item = false ->
         image <> "" ->
         menu_turn model chat m
         = submit_analysis chat food_item description
             (after_image_pass
                (after_input m
                   (menu_text ++ [Prompted prompt_food_name;
                                  Prompted prompt_description;
                                  Prompted prompt_image]) rest)
                image)
         /\ new_calls (trace m) (trace (snd (menu_turn model chat m)))
            = [mkCall chat
                 ("Analyze the food item '" ++ food_item ++ "'. " ++ description
                  ++ ". "
                  ++ "Does it contain meat, seafood, red meat, poultry, other meat, eggs, dairy, honey, seafood, milk, fish, shellfish, tree nuts, peanuts, soy? "
                  ++ "Provide the response as '1' for yes and '0' for no. "
                  ++ "Also, indicate if it is high, medium, or low in wheat, gluten, lactose, paleo, sugar, carbs, protein, fat, calories.")
                 [] (service m (length (trace m)))]
         /\ (forall text,
                service m (length (trace m)) = Response text ->
                fst (menu_turn model chat m) = Ok tt
                /\ last_dish_description (snd (menu_turn model chat m))
                   = Some description)).
Proof.
  split.
  - intros model image m. rewrite analyze_image_run. cbn [fst snd].
    unfold after_image_pass.
    destruct (files m image); (split; [reflexivity | split; reflexivity]).
  - intros model chat m food_item description image rest Hin Hne Hsp Himage.
    assert (Hnb : blank food_item = false) by (apply blank_false_iff; auto).
    assert (E : menu_turn model chat m
                = submit_analysis chat food_item description
                    (analysis_start m image rest)).
    { apply analysis_turn; assumption. }
    destruct (analysis_start_effect m image rest) as [Ht [Hs _]].
    split; [|split].
    + rewrite E. unfold analysis_start, truthy.
      rewrite (eqb_empty_false _ Himage). reflexivity.
    + rewrite E, submit_analysis_trace, Ht, Hs. apply new_calls_app.
    + intros text Hr. rewrite E.
      pose proof (submit_analysis_result chat food_item description
                    (analysis_start m image rest)) as Hres.
      rewrite Ht, Hs, Hr in Hres. split; [exact Hres|].
      unfold submit_analysis. cbv zeta. rewrite send_message_query.
      unfold try_except, bind, generate. rewrite Ht, Hs, Hr. reflexivity.
Qed.

Lemma image_failure_is_local_witness :
  new_calls (trace (sample_machine
                      [Line "3"; Line "pizza"; Line "tasty"; Line "dish.png"]))
    (trace (snd (menu_turn sample_model 0
       (sample_machine [Line "3"; Line "pizza"; Line "tasty"; Line "dish.png"]))))
  = [mkCall 0
       "Analyze the food item 'pizza'. tasty. Does it contain meat, seafood, red meat, poultry, other meat, eggs, dairy, honey, seafood, milk, fish, shellfish, tree nuts, peanuts, soy? Provide the response as '1' for yes and '0' for no. Also, indicate if it is high, medium, or low in wheat, gluten, lactose, paleo, sugar, carbs, protein, fat, calories."
       [] (Response "flour, water, yeast")]
  /\ fst (menu_turn sample_model 0
            (sample_machine [Line "3"; Line "pizza"; Line "tasty"; Line "dish.png"]))
     = Ok tt
  /\ last_dish_description (snd (menu_turn sample_model 0
       (sample_machine [Line "3"; Line "pizza"; Line "tasty"; Line "dish.png"])))
     = Some "tasty".
Proof.
  pose proof (proj2 image_failure_is_local sample_model 0%nat
                (sample_machine [Line "3"; Line "pizza"; Line "tasty"; Line "dish.png"])
                "pizza" "tasty" "dish.png" [] eq_refl) as H.
  destruct H as [_ [Hcalls Hend]];
    [discriminate | reflexivity | discriminate |].
  split; [exact Hcalls|].
  exact (Hend "flour, water, yeast" eq_refl).
Defined.

Lemma main_reply_app before calls c :
  main_reply before (before ++ calls ++ [c])
  = if with_image c then None else Some (call_reply c).
Proof.
  unfold main_reply. rewrite new_calls_app, rev_app_distr. reflexivity.
Qed.

Lemma main_reply_none before : main_reply before before = None.
Proof. unfold main_reply. rewrite new_calls_none. reflexivity. Qed.

(** C1, as amended. The [try] statement of option 3 sets
    [last_food_item] to the food name of the turn when its remote call
    returns a response whose text can be read.  It leaves
    [last_food_item] as it was when the call raises, whatever it raises,
    and also when the call returns a response without text: reading
    [response.text] on line 255 then raises [ValueError], which no
    [except] clause names, before line 256 is reached.  For a whole turn
    of option 3, by the reply to its main query: the name typed in this
    turn after a readable answer; the former value, and an uncaught
    [ValueError], after an answer without text; the former value when the
    query raised or the turn did not get as far as its query.  A turn
    whose name passed line 237 does get that far. *)
Theorem analysis_updates_last_food_item_on_readable_answer :
  (forall chat food_item description m,
      match service m (length (trace m)) with
      | Response _ =>
          fst (submit_analysis chat food_item description m) = Ok tt
          /\ last_food_item (snd (submit_analysis chat food_item description m))
             = Some food_item
      | Textless =>
          fst (submit_analysis chat food_item description m) = Raise ValueError
          /\ last_food_item (snd (submit_analysis chat food_item description m))
             = last_food_item m
      | Raises _ =>
          last_food_item (snd (submit_analysis chat food_item description m))
          = last_food_item m
      end)
  /\ (forall model chat m food_item description image rest,
         stdin m = Line "3" :: Line food_item :: Line description
                        :: Line image :: rest ->
         match main_reply (trace m) (trace (snd (menu_turn model chat m))) with
         | Some (Response _) =>
             last_food_item (snd (menu_turn model chat m)) = Some food_item
         | Some Textless =>
             fst (menu_turn model chat m) = Raise ValueError
             /\ last_food_item (snd (menu_turn model chat m)) = last_food_item m
         | Some (Raises _) | None =>
             last_food_item (snd (menu_turn model chat m)) = last_food_item m
         end)
  /\ (forall model chat m food_item description image rest,
         stdin m = Line "3" :: Line food_item :: Line description
                        :: Line image :: rest ->
         food_item <> "" -> isspace food_item = false ->
         main_reply (trace m) (trace (snd (menu_turn model chat m)))
         = Some (service m (length (trace m)))).
Proof.
  assert (Hmain : forall model chat m food_item description image rest,
             stdin m = Line "3" :: Line food_item :: Line description
                            :: Line image :: rest ->
             blank food_item = false ->
             main_reply (trace m) (trace (snd (menu_turn model chat m)))
             = Some (service m (length (trace m)))).
  { intros model chat m food_item description image rest Hin Hnb.
    rewrite (analysis_turn model chat m _ _ _ _ Hin Hnb), submit_analysis_trace.
    destruct (analysis_start_effect m image rest) as [Ht [Hs _]].
    rewrite Ht, Hs. apply (main_reply_app (trace m) []). }
  split; [|split].
  - intros chat food_item description m.
    pose proof (submit_analysis_result chat food_item description m) as Hres.
    rewrite submit_analysis_last_food_item.
    destruct (service m (length (trace m))); auto.
  - intros model chat m food_item description image rest Hin.
    destruct (blank food_item) eqn:Hnb.
    { rewrite (menu_turn_line _ _ _ _ _ Hin).
      change ("3" =? "1") with false. change ("3" =? "2") with false.
      change ("3" =? "3") with true. cbv iota.
      rewrite (option_3_lines model chat
                 (after_input m menu_text
                    (Line food_item :: Line description :: Line image :: rest))
                 food_item description image rest eq_refl), Hnb.
      cbn [print snd trace set_stdout after_input set_stdin].
      rewrite main_reply_none. reflexivity. }
    rewrite (Hmain model chat m _ _ _ _ Hin Hnb).
    rewrite (analysis_turn model chat m _ _ _ _ Hin Hnb).
    destruct (analysis_start_effect m image rest) as [Ht [Hs [[Hf _] _]]].
    pose proof (submit_analysis_result chat food_item description
                  (analysis_start m image rest)) as Hres.
    rewrite submit_analysis_last_food_item.
    rewrite Ht, Hs in *.
    destruct (service m (length (trace m))); auto.
  - intros model chat m food_item description image rest Hin Hne Hsp.
    apply (Hmain model chat m food_item description image rest Hin).
    apply blank_false_iff. auto.
Qed.

Lemma analysis_updates_last_food_item_on_readable_answer_witness :
  main_reply (trace (sample_machine [Line "3"; Line "pizza"; Line "tasty"; Line ""]))
    (trace (snd (menu_turn sample_model 0
       (sample_machine [Line "3"; Line "pizza"; Line "tasty"; Line ""]))))
  = Some (Response "flour, water, yeast")
  /\ last_food_item (snd (menu_turn sample_model 0
       (sample_machine [Line "3"; Line "pizza"; Line "tasty"; Line ""])))
     = Some "pizza".
Proof.
  split.
  - apply (proj2 (proj2 analysis_updates_last_food_item_on_readable_answer)
             sample_model 0%nat
             (sample_machine [Line "3"; Line "pizza"; Line "tasty"; Line ""])
             "pizza" "tasty" "" [] eq_refl);
      [discriminate | reflexivity].
  - exact (proj1 (proj2 analysis_updates_last_food_item_on_readable_answer)
             sample_model 0%nat
             (sample_machine [Line "3"; Line "pizza"; Line "tasty"; Line ""])
             "pizza" "tasty" "" [] eq_refl).
Defined.

(** C1, as stated, fails on a run whose analysis query returns a
    response without text: the remote call completes, raising nothing
    (the exchange is in the history of the session), yet reading the
    text of the response raises [ValueError] after the label is printed,
    the process ends with status 1, and [last_food_item] is not set to
    the submitted name. *)
Lemma textless_answer_leaves_last_food_item :
  map call_reply
      (trace (snd (script 1 (textless_machine
                               [Line "3"; Line "pizza"; Line "tasty"; Line ""]))))
  = [Textless]
  /\ map (map fst)
         (sessions (snd (script 1 (textless_machine
                                     [Line "3"; Line "pizza"; Line "tasty"; Line ""]))))
     = [[User; Assistant]]
  /\ fst (script 1 (textless_machine [Line "3"; Line "pizza"; Line "tasty"; Line ""]))
     = Raise ValueError
  /\ last (stdout (snd (script 1 (textless_machine
                                     [Line "3"; Line "pizza"; Line "tasty"; Line ""]))))
          (Printed "")
     = Printed "Analysis: "
  /\ last_food_item
       (snd (script 1 (textless_machine
                         [Line "3"; Line "pizza"; Line "tasty"; Line ""])))
     = None.
Proof. repeat split. Qed.

(** ** Every turn sends at most one query *)

Lemma no_contact_refl m : no_contact m m.
Proof. split; reflexivity. Qed.

Lemma no_contact_trans a b c : no_contact a b -> no_contact b c -> no_contact a c.
Proof. intros [H1 H2] [H3 H4]. split; congruence. Qed.

Lemma no_contact_print s : respects no_contact (print s).
Proof. intros m. split; reflexivity. Qed.

Lemma no_contact_input p : respects no_contact (input p).
Proof.
  intros m. unfold input. destruct (stdin m) as [|[line|] rest]; split; reflexivity.
Qed.

Lemma no_contact_choose_name reuse_prompt ask :
  respects no_contact (choose_name reuse_prompt ask).
Proof.
  apply respects_choose_name;
    auto using no_contact_refl, no_contact_input.
  exact no_contact_trans.
Qed.

Lemma same_service_input p : respects same_service (input p).
Proof.
  intros m. unfold input, same_service.
  destruct (stdin m) as [|[line|] rest]; reflexivity.
Qed.

Lemma same_service_choose_name reuse_prompt ask :
  respects same_service (choose_name reuse_prompt ask).
Proof.
  apply respects_choose_name.
  - intros m. reflexivity.
  - unfold same_service. intros a b c H1 H2. congruence.
  - apply same_service_input.
Qed.

Lemma sends_nothing chat m r :
  trace (snd r) = trace m -> turn_sends chat m r.
Proof. intros H. left. exact H. Qed.

Lemma option_1_sends chat m0 m :
  trace m0 = trace m -> service m0 = service m ->
  turn_sends chat m (option_1 chat m0).
Proof.
  intros Ht Hs. unfold option_1, bind.
  destruct (no_contact_choose_name prompt_reuse_food prompt_food m0) as [_ Hc].
  pose proof (same_service_choose_name prompt_reuse_food prompt_food m0) as Hv.
  unfold same_service in Hv.
  destruct (choose_name prompt_reuse_food prompt_food m0) as [[name|e] m1];
    cbn [snd] in Hc, Hv.
  - destruct (blank name).
    + apply sends_nothing. cbn. congruence.
    + right. exists (submit_ingredients chat name), m1, (ingredients_query name).
      split; [reflexivity | split; [left; eexists; reflexivity|]].
      split; [congruence | split; [congruence|]].
      rewrite submit_ingredients_trace, Hc, Ht. reflexivity.
  - apply sends_nothing. cbn. congruence.
Qed.

Lemma option_2_sends chat m0 m :
  trace m0 = trace m -> service m0 = service m ->
  turn_sends chat m (option_2 chat m0).
Proof.
  intros Ht Hs. unfold option_2, bind.
  destruct (no_contact_choose_name prompt_reuse_dish prompt_dish m0) as [_ Hc].
  pose proof (same_service_choose_name prompt_reuse_dish prompt_dish m0) as Hv.
  unfold same_service in Hv.
  destruct (choose_name prompt_reuse_dish prompt_dish m0) as [[dish|e] m1];
    cbn [snd] in Hc, Hv; [|apply sends_nothing; cbn; congruence].
  destruct (no_contact_input prompt_ingredient m1) as [_ Hi].
  pose proof (same_service_input prompt_ingredient m1) as Hw.
  unfold same_service in Hw.
  destruct (input prompt_ingredient m1) as [[ingredient|e] m2];
    cbn [snd] in Hi, Hw; [|apply sends_nothing; cbn; congruence].
  destruct (blank dish || blank ingredient).
  - apply sends_nothing. cbn. congruence.
  - right.
    exists (submit_contains chat dish ingredient), m2,
      (contains_query dish ingredient).
    split; [reflexivity | split; [right; left; do 2 eexists; reflexivity|]].
    split; [congruence | split; [congruence|]].
    rewrite submit_contains_trace, Hi, Hc, Ht. reflexivity.
Qed.

Lemma option_3_sends model chat m0 m :
  trace m0 = trace m -> service m0 = service m ->
  turn_sends chat m (option_3 model chat m0).
Proof.
  intros Ht Hs. unfold option_3, bind.
  destruct (no_contact_input prompt_food_name m0) as [_ H1].
  pose proof (same_service_input prompt_food_name m0) as S1.
  destruct (input prompt_food_name m0) as [[food_item|e] m1];
    cbn [snd] in H1, S1; [|apply sends_nothing; cbn; congruence].
  destruct (no_contact_input prompt_description m1) as [_ H2].
  pose proof (same_service_input prompt_description m1) as S2.
  destruct (input prompt_description m1) as [[description|e] m2];
    cbn [snd] in H2, S2; [|apply sends_nothing; cbn; congruence].
  destruct (no_contact_input prompt_image m2) as [_ H3].
  pose proof (same_service_input prompt_image m2) as S3.
  destruct (input prompt_image m2) as [[image|e] m3];
    cbn [snd] in H3, S3; [|apply sends_nothing; cbn; congruence].
  unfold same_service in *.
  destruct (blank food_item); [apply sends_nothing; cbn; congruence|].
  destruct (describe_with_image_effect model description image m3)
    as [_ [Hd _]].
  rewrite describe_with_image_run in *. cbn [snd] in Hd.
  assert (S4 : service (if truthy image then after_image_pass m3 image else m3)
               = service m3).
  { destruct (truthy image); [apply after_image_pass_service | reflexivity]. }
  set (m4 := if truthy image then after_image_pass m3 image else m3) in *.
  right.
  exists (submit_analysis chat food_item description), m4,
    (analysis_query food_item description).
  split; [reflexivity | split; [right; right; do 2 eexists; reflexivity|]].
  split; [congruence | split; [congruence|]].
  rewrite submit_analysis_trace, Hd, H3, H2, H1, Ht. reflexivity.
Qed.

Lemma menu_turn_sends model chat m :
  turn_sends chat m (menu_turn model chat m).
Proof.
  destruct (stdin m) as [|[choice|] rest] eqn:Hin.
  - rewrite (menu_turn_eof _ _ _ Hin). apply sends_nothing. reflexivity.
  - rewrite (menu_turn_line _ _ _ _ _ Hin).
    destruct (choice =? "1"); [apply option_1_sends; reflexivity|].
    destruct (choice =? "2"); [apply option_2_sends; reflexivity|].
    destruct (choice =? "3"); [apply option_3_sends; reflexivity|].
    apply sends_nothing. reflexivity.
  - rewrite (menu_turn_interrupt _ _ _ _ Hin). apply sends_nothing. reflexivity.
Qed.

Lemma menu_turn_shape model chat m :
  turn_shape chat m (menu_turn model chat m).
Proof.
  destruct (menu_turn_sends model chat m)
    as [H | [submit [m1 [q [E [Hs [Ht [Hv Hc]]]]]]]].
  - left. rewrite H. apply main_reply_none.
  - right. exists submit, m1. split; [exact E | split; [exact Hs|]].
    rewrite Hc. apply (main_reply_app (trace m) []).
Qed.

Lemma submit_failure chat submit m kind message :
  is_submit chat submit ->
  service m (length (trace m)) = Raises (ApiError kind message) ->
  handles_api_error submit m kind.
Proof.
  intros [[f ->] | [[d [i ->]] | [f [d ->]]]] H.
  - eapply submit_ingredients_failure, H.
  - eapply submit_contains_failure, H.
  - eapply submit_analysis_failure, H.
Qed.

(** The calls of a turn, and of the turns of a loop, are added at the
    end of the calls made before. *)
Lemma menu_turn_new_calls model chat m :
  trace (snd (menu_turn model chat m))
  = (trace m ++ new_calls (trace m) (trace (snd (menu_turn model chat m))))%list
  /\ (length (new_calls (trace m) (trace (snd (menu_turn model chat m)))) <= 1)%nat.
Proof.
  destruct (menu_turn_sends model chat m)
    as [H | [submit [m1 [q [_ [_ [_ [_ Hc]]]]]]]].
  - rewrite H, new_calls_none, app_nil_r. split; [reflexivity | cbn; lia].
  - rewrite Hc, new_calls_app. split; [reflexivity | cbn; lia].
Qed.

Lemma loop_new_calls model chat fuel m :
  trace (snd (while_true fuel (menu_turn model chat) m))
  = (trace m
     ++ new_calls (trace m)
          (trace (snd (while_true fuel (menu_turn model chat) m))))%list.
Proof.
  revert m. induction fuel as [|n IH]; intros m.
  - cbn. rewrite new_calls_none, app_nil_r. reflexivity.
  - cbn [while_true]. unfold bind.
    destruct (menu_turn_new_calls model chat m) as [Ht _].
    destruct (menu_turn model chat m) as [[[]|e] m1]; cbn [snd] in *.
    + rewrite (IH m1), Ht, <- app_assoc, new_calls_app. reflexivity.
    + rewrite Ht at 1. reflexivity.
Qed.

(** A fatal reply anywhere in a loop ends the loop with [sys.exit(1)]. *)
Lemma turn_fatal model chat m c kind message :
  In c (new_calls (trace m) (trace (snd (menu_turn model chat m)))) ->
  call_reply c = Raises (ApiError kind message) ->
  handles_api_error (fun m => menu_turn model chat m) m kind.
Proof.
  intros Hin Hr.
  destruct (menu_turn_sends model chat m)
    as [H | [submit [m1 [q [E [Hs [Ht [Hv Hc]]]]]]]].
  - rewrite H, new_calls_none in Hin. destruct Hin.
  - rewrite Hc, new_calls_app in Hin. destruct Hin as [<- | []].
    cbn [call_reply] in Hr.
    pose proof (submit_failure _ _ _ _ _ Hs Hr) as Hh.
    unfold handles_api_error in *. rewrite E. exact Hh.
Qed.

Lemma loop_fatal model chat fuel :
  forall m c kind message,
    In c (new_calls (trace m)
            (trace (snd (while_true fuel (menu_turn model chat) m)))) ->
    call_reply c = Raises (ApiError kind message) ->
    fatal kind = true ->
    fst (while_true fuel (menu_turn model chat) m) = Raise (SystemExit 1).
Proof.
  induction fuel as [|n IH]; intros m c kind message Hin Hr Hk.
  - cbn in Hin. rewrite new_calls_none in Hin. destruct Hin.
  - pose proof (turn_fatal model chat m c kind message) as Hturn.
    unfold handles_api_error in Hturn.
    destruct (menu_turn_new_calls model chat m) as [Ht _].
    cbn [while_true] in *. unfold bind in *.
    remember (new_calls (trace m) (trace (snd (menu_turn model chat m))))
      as added eqn:Ea.
    destruct (menu_turn model chat m) as [[[]|e] m1] eqn:E; cbn [fst snd] in *.
    + assert (Hsplit :
                new_calls (trace m)
                  (trace (snd (while_true n (menu_turn model chat) m1)))
                = (added
                   ++ new_calls (trace m1)
                        (trace (snd (while_true n (menu_turn model chat) m1))))%list).
      { rewrite (loop_new_calls model chat n m1) at 1.
        set (later := new_calls (trace m1) _).
        rewrite Ht, <- app_assoc. apply new_calls_app. }
      rewrite Hsplit in Hin.
      apply in_app_or in Hin. destruct Hin as [Hin | Hin].
      * destruct (Hturn Hin Hr) as [_ Hf]. destruct (Hf Hk) as [Hx _].
        discriminate Hx.
      * eapply IH; eassumption.
    + rewrite <- Ea in Hin.
      destruct (Hturn Hin Hr) as [_ Hf]. destruct (Hf Hk) as [Hx _]. exact Hx.
Qed.

Lemma no_contact_initialize : respects no_contact initialize_genai.
Proof.
  apply respects_initialize_genai;
    auto using no_contact_refl, no_contact_print.
  exact no_contact_trans.
Qed.

(** The script, down to its loop. *)
Lemma food_ingredients_chat_run fuel m :
  food_ingredients_chat fuel m
  = match initialize_genai (set_stdout (stdout m ++ [Printed banner]) m) with
    | (Ok model, m1) =>
        while_true fuel (menu_turn model (length (sessions m1))) (loop_entry m1)
    | (Raise e, m1) => (Raise e, m1)
    end.
Proof.
  unfold food_ingredients_chat, bind, print, banner.
  destruct (initialize_genai _) as [[model|e] m1]; reflexivity.
Qed.

Lemma main_run fuel m :
  main fuel m
  = if (1 <? length (argv m))%nat
    then (Raise (SystemExit 1),
          set_stdout
            (stdout m ++ [Printed ("Error: Unknown argument: " ++ nth 1 (argv m) "")])
            m)
    else food_ingredients_chat fuel m.
Proof.
  unfold main, bind, os_system, ret, get_argv.
  destruct (1 <? length (argv m))%nat; reflexivity.
Qed.

Lemma script_fatal fuel m c kind message :
  In c (new_calls (trace m) (trace (snd (script fuel m)))) ->
  call_reply c = Raises (ApiError kind message) ->
  fatal kind = true ->
  fst (script fuel m) = Raise (SystemExit 1).
Proof.
  intros Hin Hr Hk.
  assert (Hmain : In c (new_calls (trace m) (trace (snd (main fuel m)))) ->
                  fst (main fuel m) = Raise (SystemExit 1)).
  { rewrite main_run.
    destruct (1 <? length (argv m))%nat.
    { cbn. rewrite new_calls_none. intros []. }
    rewrite food_ingredients_chat_run.
    set (m0 := set_stdout _ m).
    destruct (no_contact_initialize m0) as [_ Ht1].
    destruct (initialize_genai m0) as [[model|e] m1]; cbn [snd] in *.
    - intros H. eapply loop_fatal; [|exact Hr | exact Hk].
      change (trace (loop_entry m1)) with (trace m1).
      rewrite Ht1. exact H.
    - cbn [fst snd]. rewrite Ht1. change (trace m0) with (trace m).
      rewrite new_calls_none. intros []. }
  unfold script, try_except in *.
  destruct (main fuel m) as [[[]|e] m1]; cbn [fst snd] in *.
  - discriminate (Hmain Hin).
  - destruct e; cbn [fst snd] in *;
      try (exact (Hmain Hin)).
    cbn in Hin. discriminate (Hmain Hin).
Qed.

(** C2. Every remote call of the script is the main query of a turn: the
    [send_message] of the [try] statement of option 1, 2 or 3 (the call
    of the image pass never gets as far as a request).  When it raises a
    deadline-exceeded error, the turn ends normally and the loop goes on
    with the next turn; when it raises an invalid-argument,
    permission-denied, not-found, resource-exhausted, unknown or
    service-unavailable error, [sys.exit(1)] is raised and the process
    ends with exit status 1, in whichever turn of a run that happens. *)
Theorem remote_error_handling :
  (forall chat m kind message,
      service m (length (trace m)) = Raises (ApiError kind message) ->
      (forall food_item,
          handles_api_error (submit_ingredients chat food_item) m kind)
      /\ (forall dish ingredient,
             handles_api_error (submit_contains chat dish ingredient) m kind)
      /\ (forall food_item description,
             handles_api_error (submit_analysis chat food_item description) m kind))
  /\ (forall model chat m c,
         In c (new_calls (trace m) (trace (snd (menu_turn model chat m)))) ->
         new_calls (trace m) (trace (snd (menu_turn model chat m))) = [c]
         /\ call_session c = chat
         /\ call_reply c = service m (length (trace m))
         /\ exists submit m1,
              menu_turn model chat m = submit m1 /\ is_submit chat submit)
  /\ (forall model chat m c kind message,
         In c (new_calls (trace m) (trace (snd (menu_turn model chat m)))) ->
         call_reply c = Raises (ApiError kind message) ->
         (kind = DeadlineExceeded ->
          fst (menu_turn model chat m) = Ok tt
          /\ forall fuel,
               while_true (S fuel) (menu_turn model chat) m
               = while_true fuel (menu_turn model chat)
                            (snd (menu_turn model chat m)))
         /\ (fatal kind = true ->
             fst (menu_turn model chat m) = Raise (SystemExit 1)
             /\ forall fuel,
                  status_of (fst (while_true (S fuel) (menu_turn model chat) m))
                  = Exited 1))
  /\ (forall fuel m c kind message,
         In c (new_calls (trace m) (trace (snd (script fuel m)))) ->
         call_reply c = Raises (ApiError kind message) ->
         fatal kind = true ->
         status_of (fst (script fuel m)) = Exited 1).
Proof.
  split; [|split; [|split]].
  - intros chat m kind message H. split; [|split]; intros.
    + eapply submit_ingredients_failure, H.
    + eapply submit_contains_failure, H.
    + eapply submit_analysis_failure, H.
  - intros model chat m c Hin.
    destruct (menu_turn_sends model chat m)
    as [H | [submit [m1 [q [E [Hs [Ht [Hv Hc]]]]]]]].
    { rewrite H, new_calls_none in Hin. destruct Hin. }
    rewrite Hc, new_calls_app in *. destruct Hin as [<- | []].
    split; [reflexivity | split; [reflexivity | split]].
    + cbn [call_reply]. rewrite Ht, Hv. reflexivity.
    + exists submit, m1. split; [exact E | exact Hs].
  - intros model chat m c kind message Hin Hr.
    destruct (turn_fatal model chat m c kind message Hin Hr) as [Hd Hf].
    split.
    + intros Hk. specialize (Hd Hk). split; [exact Hd|].
      intros fuel. apply while_true_next.
      destruct (menu_turn model chat m) as [r m']. cbn in *. now subst.
    + intros Hk. destruct (Hf Hk) as [Hx _]. split; [exact Hx|].
      intros fuel. rewrite (while_true_raise _ _ _ _ Hx). reflexivity.
  - intros fuel m c kind message Hin Hr Hk.
    rewrite (script_fatal fuel m c kind message Hin Hr Hk). reflexivity.
Qed.

Lemma remote_error_handling_witness :
  fst (menu_turn sample_model 0 (offline_machine [Line "1"; Line "pizza"])) = Ok tt
  /\ status_of (fst (script 5 (boot accepting ["main.py"] sample_config
                                    (fun _ => NoSuchFile)
                                    (fun _ => Raises (ApiError PermissionDenied
                                                               "403 denied"))
                                    [Line "1"; Line "pizza"; Line "2"])))
     = Exited 1.
Proof.
  split.
  - apply (proj1 (proj2 (proj2 remote_error_handling)) sample_model 0%nat
             (offline_machine [Line "1"; Line "pizza"])
             (mkCall 0 (ingredients_query "pizza") []
                     (Raises (ApiError DeadlineExceeded "504 Deadline Exceeded")))
             DeadlineExceeded "504 Deadline Exceeded");
      [left; reflexivity | reflexivity | reflexivity].
  - apply (proj2 (proj2 (proj2 remote_error_handling)) 5%nat
             (boot accepting ["main.py"] sample_config (fun _ => NoSuchFile)
                   (fun _ => Raises (ApiError PermissionDenied "403 denied"))
                   [Line "1"; Line "pizza"; Line "2"])
             (mkCall 0 (ingredients_query "pizza") []
                     (Raises (ApiError PermissionDenied "403 denied")))
             PermissionDenied "403 denied");
      [left; reflexivity | reflexivity | reflexivity].
Defined.

(** Whole runs: a refused main query ends the process with status 1; a
    deadline leaves it in the loop, where an interrupt then ends it with
    status 0 and the end of the input with a traceback and status 1. *)
Example refused_query_exits_1 :
  status_of (fst (script 5 (boot accepting ["main.py"] sample_config
                                 (fun _ => NoSuchFile)
                                 (fun _ => Raises (ApiError PermissionDenied
                                                            "403 denied"))
                                 [Line "1"; Line "pizza"; Line "2"])))
  = Exited 1
  /\ stdin (snd (script 5 (boot accepting ["main.py"] sample_config
                                (fun _ => NoSuchFile)
                                (fun _ => Raises (ApiError PermissionDenied
                                                           "403 denied"))
                                [Line "1"; Line "pizza"; Line "2"])))
     = [Line "2"].
Proof. split; reflexivity. Qed.

Example deadline_keeps_looping :
  status_of (fst (while_true 1 (menu_turn sample_model 0)
                             (offline_machine [Line "1"; Line "pizza"])))
  = Running
  /\ fst (while_true 5 (menu_turn sample_model 0)
                     (offline_machine [Line "1"; Line "pizza"; CtrlC]))
     = Raise KeyboardInterrupt
  /\ fst (while_true 5 (menu_turn sample_model 0)
                     (offline_machine [Line "1"; Line "pizza"]))
     = Raise EOFError.
Proof. repeat split. Qed.

(** ** Startup *)

Lemma script_startup_exit fuel m out :
  (length (argv m) <= 1)%nat ->
  initialize_genai (set_stdout (stdout m ++ [Printed banner]) m)
  = (Raise (SystemExit 1),
     set_stdout (stdout m ++ Printed banner :: map Printed out) m) ->
  exits_at_startup out m (script fuel m).
Proof.
  intros Hargs H. unfold exits_at_startup.
  unfold script, try_except, main, bind, os_system, ret, get_argv.
  destruct (1 <? length (argv m))%nat eqn:E.
  { apply Nat.ltb_lt in E. lia. }
  unfold food_ingredients_chat, bind, print. fold banner.
  rewrite H. reflexivity.
Qed.

Lemma initialize_missing_file m :
  keys_json m = CfgMissing ->
  initialize_genai m
  = (Raise (SystemExit 1), set_stdout (stdout m ++ [Printed msg_config_not_found]) m).
Proof.
  intros H. unfold initialize_genai, try_except, bind, load_keys_json.
  rewrite H. reflexivity.
Qed.

Lemma initialize_malformed m :
  keys_json m = CfgMalformed ->
  initialize_genai m
  = (Raise (SystemExit 1), set_stdout (stdout m ++ [Printed msg_config_unparsable]) m).
Proof.
  intros H. unfold initialize_genai, try_except, bind, load_keys_json.
  rewrite H. reflexivity.
Qed.

Lemma initialize_placeholder m members :
  keys_json m = CfgParsed (JObj members) ->
  has_placeholder members = true ->
  initialize_genai m
  = (Raise (SystemExit 1), set_stdout (stdout m ++ map Printed key_instructions) m).
Proof.
  intros H Hp. unfold has_placeholder in Hp.
  unfold initialize_genai, try_except, bind, load_keys_json, subscript.
  rewrite H. destruct (dict_get "GEMINI_API_KEY" members); [|discriminate].
  cbn. rewrite Hp. destruct m. cbn. rewrite <- !app_assoc. reflexivity.
Qed.

Lemma set_stdout_twice m a b :
  set_stdout (stdout (set_stdout (stdout m ++ a) m) ++ b)
             (set_stdout (stdout m ++ a) m)
  = set_stdout (stdout m ++ a ++ b) m.
Proof. destruct m. cbn. rewrite <- app_assoc. reflexivity. Qed.

Lemma script_exit_with fuel m out :
  (length (argv m) <= 1)%nat ->
  (forall m0, keys_json m0 = keys_json m ->
              initialize_genai m0
              = (Raise (SystemExit 1), set_stdout (stdout m0 ++ map Printed out) m0)) ->
  exits_at_startup out m (script fuel m).
Proof.
  intros Hargs H. apply script_startup_exit; [exact Hargs|].
  rewrite H by reflexivity. f_equal. apply set_stdout_twice.
Qed.

Lemma exits_at_startup_status out m r :
  exits_at_startup out m r ->
  status_of (fst r) = Exited 1 /\ no_contact m (snd r).
Proof. intros ->. split; [reflexivity | split; reflexivity]. Qed.

Lemma initialize_first_missing m members key :
  keys_json m = CfgParsed (JObj members) ->
  has_placeholder members = false ->
  first_missing members = Some key ->
  initialize_genai m
  = (Raise (SystemExit 1),
     set_stdout (stdout m ++ [Printed (msg_missing_key key)]) m).
Proof.
  intros Hcfg Hp Hfirst.
  unfold initialize_genai, try_except, bind, load_keys_json, subscript.
  rewrite Hcfg. unfold has_placeholder in Hp.
  unfold first_missing, required_keys in Hfirst. cbn [find] in Hfirst.
  destruct (dict_get "GEMINI_API_KEY" members) as [k|]; cbn.
  2:{ inversion Hfirst. reflexivity. }
  rewrite Hp. cbn.
  destruct (dict_get "GEMINI_MODEL" members); cbn.
  2:{ inversion Hfirst. reflexivity. }
  destruct (dict_get "SAFETY_SETTINGS" members); cbn.
  2:{ inversion Hfirst. reflexivity. }
  destruct (dict_get "GENERATION_CONFIG" members); cbn.
  2:{ inversion Hfirst. reflexivity. }
  discriminate Hfirst.
Qed.

Lemma initialize_non_object m content :
  keys_json m = CfgParsed content ->
  (forall members, content <> JObj members) ->
  initialize_genai m = (Raise TypeError, m).
Proof.
  intros Hcfg Hno.
  unfold initialize_genai, try_except, bind, load_keys_json, subscript.
  rewrite Hcfg. destruct content; try reflexivity. now elim (Hno members).
Qed.

Lemma initialize_unreadable m e :
  keys_json m = CfgUnreadable e ->
  uncaught_at_startup e = true ->
  initialize_genai m = (Raise e, m).
Proof.
  intros Hcfg He.
  unfold initialize_genai, try_except, bind, load_keys_json.
  rewrite Hcfg. destruct e; try discriminate He; reflexivity.
Qed.

Lemma script_startup_raise fuel m e m1 :
  (length (argv m) <= 1)%nat ->
  initialize_genai (set_stdout (stdout m ++ [Printed banner]) m) = (Raise e, m1) ->
  e <> KeyboardInterrupt ->
  script fuel m = (Raise e, m1).
Proof.
  intros Hargs H He. unfold script, try_except. rewrite main_run.
  destruct (1 <? length (argv m))%nat eqn:E.
  { apply Nat.ltb_lt in E. lia. }
  rewrite food_ingredients_chat_run, H.
  destruct e; try reflexivity. now elim He.
Qed.

Lemma has_placeholder_false members :
  dict_get "GEMINI_API_KEY" members <> Some (JStr "your gemini api key here") ->
  has_placeholder members = false.
Proof.
  unfold has_placeholder. intros H.
  destruct (dict_get "GEMINI_API_KEY" members) as [[| | | | | |]|];
    try reflexivity.
  cbn. apply String.eqb_neq. intros E. apply H. now rewrite E.
Qed.

Lemma first_missing_spec members :
  (forall key, first_missing members = Some key ->
               In key required_keys /\ dict_get key members = None)
  /\ (forall key, In key required_keys -> dict_get key members = None ->
                  exists first, first_missing members = Some first).
Proof.
  unfold first_missing. split.
  - intros key H. apply find_some in H. destruct H as [Hin Hd].
    split; [exact Hin|]. destruct (dict_get key members); [discriminate | reflexivity].
  - intros key Hin Hd.
    destruct (find _ required_keys) as [first|] eqn:E; [eauto|].
    pose proof (find_none _ _ E key Hin) as Hn. cbn in Hn.
    rewrite Hd in Hn. discriminate Hn.
Qed.

(** C6, as amended. At startup a missing [keys.json], a [keys.json] that
    is not JSON, and a [keys.json] holding an object without one of the
    four required keys (its API key, when there is one, not being the
    placeholder) each end the process with exit status 1 after the
    banner and one message of their own.  The message for the missing
    file names [keys.json]; the message for a missing key names that
    key, the first missing one in the order the script reads them.  The
    three messages differ from one another.  Other configurations end
    the run otherwise: with the placeholder as API key the three lines
    on how to get a key are printed, whatever else is missing; a
    [keys.json] that parses but holds no object ends in an uncaught
    [TypeError]; a [keys.json] that cannot be opened or decoded for
    another reason ends in that exception, uncaught.  All of them leave
    a non-zero exit status. *)
Theorem startup_configuration_errors :
  forall fuel m,
    (length (argv m) <= 1)%nat ->
    (keys_json m = CfgMissing ->
     exits_at_startup
       ["Could not find the configuration file 'keys.json'. Ensure it exists"]
       m (script fuel m))
    /\ (keys_json m = CfgMalformed ->
        exits_at_startup
          ["Error: Could not parse the key file 'keys.json'. Please check the file format."]
          m (script fuel m))
    /\ (forall members key,
           keys_json m = CfgParsed (JObj members) ->
           dict_get "GEMINI_API_KEY" members
           <> Some (JStr "your gemini api key here") ->
           first_missing members = Some key ->
           exits_at_startup
             ["Error: Missing key '" ++ key ++ "' in 'keys.json' file."]
             m (script fuel m))
    /\ (forall members,
           (forall key, first_missing members = Some key ->
                        In key ["GEMINI_API_KEY"; "GEMINI_MODEL";
                                "SAFETY_SETTINGS"; "GENERATION_CONFIG"]
                        /\ dict_get key members = None)
           /\ (forall key,
                  In key ["GEMINI_API_KEY"; "GEMINI_MODEL";
                          "SAFETY_SETTINGS"; "GENERATION_CONFIG"] ->
                  dict_get key members = None ->
                  exists first, first_missing members = Some first))
    /\ (forall members,
           keys_json m = CfgParsed (JObj members) ->
           dict_get "GEMINI_API_KEY" members
           = Some (JStr "your gemini api key here") ->
           exits_at_startup
             [ "To use the Gemini API, you'll need an API key.";
               "Create a key in Google AI Studio.";
               "Save the key to 'keys.json' file." ]
             m (script fuel m))
    /\ (forall content,
           keys_json m = CfgParsed content ->
           (forall members, content <> JObj members) ->
           script fuel m
           = (Raise TypeError,
              set_stdout
                (stdout m ++ [Printed "You are using the Food Ingredients Model."])
                m))
    /\ (forall e,
           keys_json m = CfgUnreadable e ->
           uncaught_at_startup e = true ->
           script fuel m
           = (Raise e,
              set_stdout
                (stdout m ++ [Printed "You are using the Food Ingredients Model."])
                m))
    /\ (forall out,
           exits_at_startup out m (script fuel m) ->
           script fuel m
           = (Raise (SystemExit 1),
              set_stdout
                (stdout m ++ Printed "You are using the Food Ingredients Model."
                        :: map Printed out) m)
           /\ status_of (fst (script fuel m)) = Exited 1)
    /\ (forall e, e <> SystemExit 0 -> status_of (@Raise unit e) <> Exited 0)
    /\ (forall key,
           "Could not find the configuration file 'keys.json'. Ensure it exists"
           <> "Error: Could not parse the key file 'keys.json'. Please check the file format."
           /\ "Error: Missing key '" ++ key ++ "' in 'keys.json' file."
              <> "Could not find the configuration file 'keys.json'. Ensure it exists"
           /\ "Error: Missing key '" ++ key ++ "' in 'keys.json' file."
              <> "Error: Could not parse the key file 'keys.json'. Please check the file format."
           /\ contains key ("Error: Missing key '" ++ key ++ "' in 'keys.json' file.")
              = true
           /\ contains "keys.json"
                "Could not find the configuration file 'keys.json'. Ensure it exists"
              = true).
Proof.
  intros fuel m Hargs.
  split; [|split; [|split; [|split; [|split; [|split; [|split; [|split; [|split]]]]]]]].
  - intros H. apply script_exit_with; [exact Hargs|].
    intros m0 E. apply initialize_missing_file. congruence.
  - intros H. apply script_exit_with; [exact Hargs|].
    intros m0 E. apply initialize_malformed. congruence.
  - intros members key H Hp Hfirst.
    apply (script_exit_with fuel m [msg_missing_key key] Hargs).
    intros m0 E. apply initialize_first_missing with members;
      [congruence | apply has_placeholder_false, Hp | exact Hfirst].
  - intros members. apply first_missing_spec.
  - intros members H Hkey.
    apply (script_exit_with fuel m key_instructions Hargs).
    intros m0 E. apply initialize_placeholder with members; [congruence|].
    unfold has_placeholder. rewrite Hkey. reflexivity.
  - intros content H Hno.
    apply script_startup_raise; [exact Hargs | | discriminate].
    apply initialize_non_object with content; [exact H | exact Hno].
  - intros e H He.
    apply script_startup_raise; [exact Hargs | |].
    + apply initialize_unreadable; [exact H | exact He].
    + intros ->. discriminate He.
  - intros out H. split; [exact H|].
    apply (exits_at_startup_status _ _ _ H).
  - intros e He. destruct e; cbn; try discriminate.
    intros H. apply He. inversion H. reflexivity.
  - intros key.
    split; [discriminate | split; [discriminate | split; [discriminate|]]].
    split; [apply (contains_app key "Error: Missing key '") | reflexivity].
Qed.

Lemma startup_configuration_errors_witness :
  exits_at_startup
    ["Could not find the configuration file 'keys.json'. Ensure it exists"]
    (boot accepting ["main.py"] CfgMissing (fun _ => NoSuchFile) (fun _ => Response "") [])
    (script 3 (boot accepting ["main.py"] CfgMissing (fun _ => NoSuchFile)
                    (fun _ => Response "") []))
  /\ exits_at_startup
       ["Error: Missing key 'SAFETY_SETTINGS' in 'keys.json' file."]
       (boot accepting ["main.py"]
             (CfgParsed (JObj [("GEMINI_MODEL", JStr "gemini-pro");
                               ("GEMINI_API_KEY", JStr "secret")]))
             (fun _ => NoSuchFile) (fun _ => Response "") [])
       (script 3 (boot accepting ["main.py"]
                       (CfgParsed (JObj [("GEMINI_MODEL", JStr "gemini-pro");
                                         ("GEMINI_API_KEY", JStr "secret")]))
                       (fun _ => NoSuchFile) (fun _ => Response "") []))
  /\ fst (script 3 (boot accepting ["main.py"]
                         (CfgUnreadable (OSError "Permission denied"))
                         (fun _ => NoSuchFile) (fun _ => Response "") []))
     = Raise (OSError "Permission denied").
Proof.
  split; [|split].
  - apply (proj1 (startup_configuration_errors 3%nat
             (boot accepting ["main.py"] CfgMissing (fun _ => NoSuchFile)
                   (fun _ => Response "") []) (le_n 1))).
    reflexivity.
  - apply (proj1 (proj2 (proj2 (startup_configuration_errors 3%nat
             (boot accepting ["main.py"]
                   (CfgParsed (JObj [("GEMINI_MODEL", JStr "gemini-pro");
                                     ("GEMINI_API_KEY", JStr "secret")]))
                   (fun _ => NoSuchFile) (fun _ => Response "") []) (le_n 1))))
             [("GEMINI_MODEL", JStr "gemini-pro"); ("GEMINI_API_KEY", JStr "secret")]
             "SAFETY_SETTINGS");
      [reflexivity | discriminate | reflexivity].
  - rewrite (proj1 (proj2 (proj2 (proj2 (proj2 (proj2 (proj2
               (startup_configuration_errors 3%nat
                  (boot accepting ["main.py"]
                        (CfgUnreadable (OSError "Permission denied"))
                        (fun _ => NoSuchFile) (fun _ => Response "") [])
                  (le_n 1))))))))
               (OSError "Permission denied") eq_refl eq_refl).
    reflexivity.
Defined.

(** C6, as stated, fails on a [keys.json] that lacks required keys while
    its API key is the placeholder: the run ends with status 1 after the
    lines on how to get a key, and no line names a missing field.  It
    also fails on a [keys.json] that holds a list, which has none of the
    required keys: the run ends in an uncaught [TypeError] right after
    the banner, without a message of the script's. *)
Lemma placeholder_hides_missing_keys :
  first_missing [("GEMINI_API_KEY", JStr "your gemini api key here")]
  = Some "GEMINI_MODEL"
  /\ script 3 (boot accepting ["main.py"]
                    (CfgParsed (JObj [("GEMINI_API_KEY",
                                       JStr "your gemini api key here")]))
                    (fun _ => NoSuchFile) (fun _ => Response "") [])
     = (Raise (SystemExit 1),
        set_stdout
          [ Printed "You are using the Food Ingredients Model.";
            Printed "To use the Gemini API, you'll need an API key.";
            Printed "Create a key in Google AI Studio.";
            Printed "Save the key to 'keys.json' file." ]
          (boot accepting ["main.py"]
                (CfgParsed (JObj [("GEMINI_API_KEY",
                                   JStr "your gemini api key here")]))
                (fun _ => NoSuchFile) (fun _ => Response "") []))
  /\ first_missing [] = Some "GEMINI_API_KEY"
  /\ script 3 (boot accepting ["main.py"] (CfgParsed (JArr []))
                    (fun _ => NoSuchFile) (fun _ => Response "") [])
     = (Raise TypeError,
        set_stdout [Printed "You are using the Food Ingredients Model."]
          (boot accepting ["main.py"] (CfgParsed (JArr []))
                (fun _ => NoSuchFile) (fun _ => Response "") [])).
Proof. repeat split. Qed.

(** C9. When [keys.json] parses and its API key is the placeholder text
    of the template, startup prints the three lines on how to get a key
    and exits with status 1; no session is created and no call is made. *)
Theorem placeholder_key_stops_startup :
  forall fuel m members,
    (length (argv m) <= 1)%nat ->
    keys_json m = CfgParsed (JObj members) ->
    dict_get "GEMINI_API_KEY" members = Some (JStr "your gemini api key here") ->
    exits_at_startup key_instructions m (script fuel m)
    /\ status_of (fst (script fuel m)) = Exited 1
    /\ trace (snd (script fuel m)) = trace m
    /\ sessions (snd (script fuel m)) = sessions m.
Proof.
  intros fuel m members Hargs H Hkey.
  assert (Hx : exits_at_startup key_instructions m (script fuel m)).
  { apply script_exit_with; [exact Hargs|].
    intros m0 E. apply initialize_placeholder with members; [congruence|].
    unfold has_placeholder. rewrite Hkey. reflexivity. }
  split; [exact Hx|].
  destruct (exits_at_startup_status _ _ _ Hx) as [Hs [Hss Ht]].
  split; [exact Hs | split; [exact Ht | exact Hss]].
Qed.

Lemma placeholder_key_stops_startup_witness :
  status_of (fst (script 3 (boot accepting ["main.py"] template_config (fun _ => NoSuchFile)
                                 (fun _ => Response "") [Line "1"; Line "pizza"])))
  = Exited 1
  /\ trace (snd (script 3 (boot accepting ["main.py"] template_config (fun _ => NoSuchFile)
                                (fun _ => Response "") [Line "1"; Line "pizza"])))
     = [].
Proof.
  destruct (placeholder_key_stops_startup 3%nat
              (boot accepting ["main.py"] template_config (fun _ => NoSuchFile)
                    (fun _ => Response "") [Line "1"; Line "pizza"])
              _ (le_n 1) eq_refl eq_refl) as [_ [Hs [Ht _]]].
  split; [exact Hs | exact Ht].
Defined.

(** ** Sessions and their histories *)


Lemma length_extend_history chat items ss :
  length (extend_history chat items ss) = length ss.
Proof.
  revert chat. induction ss as [|h rest IH]; intros [|chat]; cbn;
    try reflexivity.
  now rewrite IH.
Qed.








(** The ledger of sessions and calls. *)













(** * Further properties of the script *)

(** ** Command line *)

(** X1. Any command-line argument ends the run at once: the script prints
    the first argument as unknown and exits with status 1, before the
    banner, the configuration, any prompt and any call. *)
Theorem unknown_argument_exits_first :
  forall fuel m name arg rest,
    argv m = name :: arg :: rest ->
    script fuel m
    = (Raise (SystemExit 1),
       set_stdout (stdout m ++ [Printed ("Error: Unknown argument: " ++ arg)]) m).
Proof.
  intros fuel m name arg rest H.
  unfold script, try_except, main, bind, os_system, ret, get_argv.
  rewrite H. reflexivity.
Qed.

Lemma unknown_argument_exits_first_witness :
  status_of (fst (script 4 (boot accepting ["main.py"; "--help"] sample_config
                                 (fun _ => NoSuchFile) (fun _ => Response "")
                                 [Line "1"; Line "pizza"])))
  = Exited 1
  /\ stdout (snd (script 4 (boot accepting ["main.py"; "--help"] sample_config
                                 (fun _ => NoSuchFile) (fun _ => Response "")
                                 [Line "1"; Line "pizza"])))
     = [Printed "Error: Unknown argument: --help"].
Proof.
  rewrite (unknown_argument_exits_first 4%nat
             (boot accepting ["main.py"; "--help"] sample_config (fun _ => NoSuchFile)
                   (fun _ => Response "") [Line "1"; Line "pizza"])
             "main.py" "--help" [] eq_refl).
  split; reflexivity.
Defined.

(** ** The menu *)

(** X2. A menu choice other than "1", "2" and "3" (so also "1 " or an
    empty line: the choice is not trimmed) is turned down with the
    invalid-option message: the turn ends normally, asks nothing but the
    choice, takes that one answer, makes no call and writes no variable. *)
Theorem invalid_option_is_rejected :
  forall model chat m choice rest,
    stdin m = Line choice :: rest ->
    choice <> "1" -> choice <> "2" -> choice <> "3" ->
    rejected_with msg_invalid_option m (menu_turn model chat m)
    /\ stdin (snd (menu_turn model chat m)) = rest
    /\ prompts (new_output (stdout m) (stdout (snd (menu_turn model chat m))))
       = [prompt_option]
    /\ same_vars m (snd (menu_turn model chat m)).
Proof.
  intros model chat m choice rest Hin H1 H2 H3.
  apply String.eqb_neq in H1, H2, H3.
  rewrite (menu_turn_line _ _ _ _ _ Hin), H1, H2, H3.
  split; [apply print_rejects|].
  split; [reflexivity|].
  split; [|split; reflexivity].
  cbn [print snd after_input stdout set_stdin set_stdout].
  rewrite <- app_assoc, new_output_app. reflexivity.
Qed.

Lemma invalid_option_is_rejected_witness :
  rejected_with msg_invalid_option (sample_machine [Line "1 "; Line "pizza"])
    (menu_turn sample_model 0 (sample_machine [Line "1 "; Line "pizza"]))
  /\ stdin (snd (menu_turn sample_model 0 (sample_machine [Line "1 "; Line "pizza"])))
     = [Line "pizza"].
Proof.
  destruct (invalid_option_is_rejected sample_model 0%nat
              (sample_machine [Line "1 "; Line "pizza"]) "1 " [Line "pizza"]
              eq_refl) as [Hr [Hs _]]; try discriminate.
  split; [exact Hr | exact Hs].
Defined.

(** ** Errors of the main query *)

Lemma api_clauses_unlisted e : unlisted e -> api_clauses e = None.
Proof.
  intros H. destruct e; try reflexivity.
  specialize (H kind message eq_refl). subst kind. reflexivity.
Qed.

Lemma submit_unlisted chat submit m e :
  is_submit chat submit ->
  service m (length (trace m)) = Raises e ->
  unlisted e ->
  fst (submit m) = Raise e /\ stdout (snd (submit m)) = stdout m.
Proof.
  intros Hs Hr Hu. apply api_clauses_unlisted in Hu.
  destruct Hs as [[f ->] | [[d [i ->]] | [f [d ->]]]];
    [unfold submit_ingredients | unfold submit_contains | unfold submit_analysis];
    cbv zeta; rewrite send_message_query; unfold try_except, bind, generate; rewrite Hr; cbn [fst snd];
    rewrite Hu; split; reflexivity.
Qed.

(** X3. An exception of the main query that none of the seven [except]
    clauses names (an API error of another class, or any other
    exception) is not handled: the turn raises it unchanged, the loop
    ends with it, and for an error that is a traceback and exit status
    1. *)
Theorem unlisted_exception_propagates :
  forall model chat m e,
    main_reply (trace m) (trace (snd (menu_turn model chat m))) = Some (Raises e) ->
    unlisted e ->
    fst (menu_turn model chat m) = Raise e
    /\ (forall fuel, fst (while_true (S fuel) (menu_turn model chat) m) = Raise e)
    /\ (is_Exception e = true ->
        forall fuel,
          status_of (fst (while_true (S fuel) (menu_turn model chat) m)) = Exited 1).
Proof.
  intros model chat m e H Hu.
  destruct (menu_turn_shape model chat m) as [Hn | [submit [m1 [E [Hs Hm]]]]].
  { rewrite Hn in H. discriminate H. }
  rewrite Hm in H. inversion H as [Hsrv].
  destruct (submit_unlisted _ _ _ _ Hs Hsrv Hu) as [Hx _].
  rewrite <- E in Hx.
  split; [exact Hx | split].
  - intros fuel. apply while_true_raise, Hx.
  - intros He fuel. rewrite (while_true_raise _ _ _ _ Hx).
    destruct e; try reflexivity; discriminate He.
Qed.

(** A machine whose service fails with an error class the script has no
    clause for. *)
Lemma unlisted_exception_propagates_witness :
  fst (menu_turn sample_model 0
         (in_loop
            (boot accepting ["main.py"] sample_config (fun _ => NoSuchFile)
                  (fun _ => Raises (ApiError OtherApiError "500 Internal"))
                  [Line "2"; Line "pizza"; Line "basil"])))
  = Raise (ApiError OtherApiError "500 Internal").
Proof.
  apply (unlisted_exception_propagates sample_model 0%nat
           (in_loop
              (boot accepting ["main.py"] sample_config (fun _ => NoSuchFile)
                    (fun _ => Raises (ApiError OtherApiError "500 Internal"))
                    [Line "2"; Line "pizza"; Line "basil"]))
           (ApiError OtherApiError "500 Internal") eq_refl).
  intros kind message E. inversion E. reflexivity.
Defined.

Lemma submit_reports chat submit m kind message :
  is_submit chat submit ->
  service m (length (trace m)) = Raises (ApiError kind message) ->
  kind <> OtherApiError ->
  stdout (snd (submit m))
  = (stdout m ++ [Printed (api_headline kind); Printed (message ++ " " ++ nl)])%list.
Proof.
  intros Hs Hr Hk.
  destruct Hs as [[f ->] | [[d [i ->]] | [f [d ->]]]];
    [unfold submit_ingredients | unfold submit_contains | unfold submit_analysis];
    cbv zeta; rewrite send_message_query; unfold try_except, bind, generate; rewrite Hr; cbn [fst snd];
    (destruct kind; [| | | | | | |now elim Hk]);
    cbn; rewrite <- app_assoc; reflexivity.
Qed.

Lemma api_headline_injective k1 k2 :
  api_headline k1 = api_headline k2 -> k1 = k2.
Proof.
  destruct k1, k2; intros H; try reflexivity; discriminate H.
Qed.

(** X4. When the main query of a turn raises one of the seven API errors
    the script names, the last two lines of the turn are the headline of
    that error class and the error's own message; the seven headlines
    differ from each other, so the class can be read off the output. *)
Theorem api_error_is_reported :
  (forall k1 k2, api_headline k1 = api_headline k2 -> k1 = k2)
  /\ (forall model chat m kind message,
         main_reply (trace m) (trace (snd (menu_turn model chat m)))
         = Some (Raises (ApiError kind message)) ->
         kind <> OtherApiError ->
         ends_with (stdout (snd (menu_turn model chat m)))
                   [Printed (api_headline kind);
                    Printed (message ++ " " ++ nl)]).
Proof.
  split; [exact api_headline_injective|].
  intros model chat m kind message H Hk.
  destruct (menu_turn_shape model chat m) as [Hn | [submit [m1 [E [Hs Hm]]]]].
  { rewrite Hn in H. discriminate H. }
  rewrite Hm in H. inversion H as [Hsrv].
  exists (stdout m1). rewrite E. apply (submit_reports _ _ _ _ _ Hs Hsrv Hk).
Qed.

Lemma api_error_is_reported_witness :
  ends_with (stdout (snd (menu_turn sample_model 0
                            (refusing_machine [Line "1"; Line "pizza"]))))
            [Printed (api_headline PermissionDenied);
             Printed ("403 denied" ++ " " ++ nl)].
Proof.
  apply (proj2 api_error_is_reported sample_model 0%nat
           (refusing_machine [Line "1"; Line "pizza"])
           PermissionDenied "403 denied" eq_refl).
  discriminate.
Defined.

(** ** The call of the image pass *)

(** X5. [send_message] takes its text as [content], in first position
    or by name: a call that gives none raises [TypeError] before a
    request is made.  The three queries of the menu give it in first
    position and are sent.  The call of the image pass (lines 91-94)
    gives [message] and [images] instead: it is never sent, whatever the
    file holds.  On a file it could read, the image pass therefore
    returns nothing, reports the [TypeError] through its second [except]
    clause, and leaves behind the empty session it created for the call;
    sessions that existed before are as they were. *)
Theorem image_call_is_never_sent :
  (forall chat keywords m,
      keyword_value "content" keywords = None ->
      send_message chat [] keywords m = (Raise TypeError, m))
  /\ (forall chat query,
         send_message chat [PyStr query] [("stream", PyBool false)]
         = generate chat query)
  /\ (forall model path m content,
         files m path = Bytes content ->
         analyze_image_with_gemini model path m
         = (Ok None,
            set_stdout
              (stdout m
               ++ [Reported
                     "Error: An unexpected error occurred while analyzing the image: "
                     TypeError])
              (set_sessions (sessions m ++ [[]]) m)))
  /\ (forall model path m i,
         (i < length (sessions m))%nat ->
         nth_error (sessions (snd (analyze_image_with_gemini model path m))) i
         = nth_error (sessions m) i).
Proof.
  split; [|split; [|split]].
  - intros chat keywords m Hc. unfold send_message, bound_content.
    rewrite Hc. reflexivity.
  - intros chat query. reflexivity.
  - intros model path m content Hf. rewrite analyze_image_run.
    unfold after_image_pass. rewrite Hf. reflexivity.
  - intros model path m i Hi. rewrite analyze_image_run. cbn [snd].
    unfold after_image_pass.
    destruct (files m path); cbn; try reflexivity.
    apply nth_error_app1, Hi.
Qed.

Lemma image_call_is_never_sent_witness :
  send_message 1 []
    [("message", PyStr image_instruction);
     ("images", PyImages [[x89; x50; x4e; x47]])]
    (snd (start_chat sample_model (in_loop image_machine)))
  = (Raise TypeError, snd (start_chat sample_model (in_loop image_machine)))
  /\ nth_error (sessions (snd (analyze_image_with_gemini sample_model "dish.png"
                                 (in_loop image_machine)))) 0
     = Some [].
Proof.
  split.
  - apply (proj1 image_call_is_never_sent 1%nat
             [("message", PyStr image_instruction);
              ("images", PyImages [[x89; x50; x4e; x47]])]
             (snd (start_chat sample_model (in_loop image_machine)))).
    reflexivity.
  - apply (proj2 (proj2 (proj2 image_call_is_never_sent))
             sample_model "dish.png" (in_loop image_machine) 0%nat).
    apply le_n.
Defined.

(** ** Option 3 on given answers *)

Lemma submit_analysis_description chat food_item description m :
  last_dish_description (snd (submit_analysis chat food_item description m))
  = match service m (length (trace m)) with
    | Response _ => Some description
    | Textless | Raises _ => last_dish_description m
    end.
Proof. unfold submit_analysis. run_submit m. Qed.

Lemma submit_answered chat submit m text :
  is_submit chat submit ->
  service m (length (trace m)) = Response text ->
  fst (submit m) = Ok tt.
Proof.
  intros Hs Hr.
  destruct Hs as [[f ->] | [[d [i ->]] | [f [d ->]]]];
    [unfold submit_ingredients | unfold submit_contains | unfold submit_analysis];
    cbv zeta; rewrite send_message_query; unfold try_except, bind, generate;
    rewrite Hr; reflexivity.
Qed.

Lemma option_3_turn model chat m food_item description image rest :
  stdin m = Line "3" :: Line food_item :: Line description :: Line image :: rest ->
  menu_turn model chat m
  = (if blank food_item then print msg_food_empty
     else d <- describe_with_image model description image ;;
          submit_analysis chat food_item d)
      (after_input m (menu_text ++ [Prompted prompt_food_name;
                                    Prompted prompt_description;
                                    Prompted prompt_image]) rest).
Proof.
  intros Hin. rewrite (menu_turn_line _ _ _ _ _ Hin).
  change ("3" =? "1") with false. change ("3" =? "2") with false.
  change ("3" =? "3") with true. cbv iota.
  rewrite (option_3_lines model chat
             (after_input m menu_text
                (Line food_item :: Line description :: Line image :: rest))
             food_item description image rest eq_refl).
  rewrite after_input_twice. reflexivity.
Qed.

Lemma submit_analysis_output chat food_item description m text :
  service m (length (trace m)) = Response text ->
  stdout (snd (submit_analysis chat food_item description m))
  = (stdout m ++ [Printed "Analysis: "; Printed text])%list.
Proof.
  intros Hr. unfold submit_analysis. cbv zeta. rewrite send_message_query.
  unfold try_except, bind, generate. rewrite Hr. cbn.
  rewrite <- app_assoc. reflexivity.
Qed.

Lemma submit_analysis_stdin chat food_item description m :
  stdin (snd (submit_analysis chat food_item description m)) = stdin m.
Proof. unfold submit_analysis. run_submit m. Qed.

(** X6. What the user sees of a turn of option 3 that names an image
    and whose query is answered: the menu, the three questions, the one
    line of the image pass (the file was not found, or an error with the
    exception in it), the label and the answer, in that order.  The
    answers typed after the image path are still pending, and the name
    and the description the turn stores are those typed: nothing of the
    image is in them. *)
Theorem analysis_with_image_shows :
  forall model chat m food_item description image rest answer,
    stdin m = Line "3" :: Line food_item :: Line description
                   :: Line image :: rest ->
    food_item <> "" -> isspace food_item = false ->
    image <> "" ->
    service m (length (trace m)) = Response answer ->
    new_output (stdout m) (stdout (snd (menu_turn model chat m)))
    = (menu_text
       ++ [Prompted prompt_food_name; Prompted prompt_description;
           Prompted prompt_image; image_report m image;
           Printed "Analysis: "; Printed answer])%list
    /\ stdin (snd (menu_turn model chat m)) = rest
    /\ last_food_item (snd (menu_turn model chat m)) = Some food_item
    /\ last_dish_description (snd (menu_turn model chat m)) = Some description.
Proof.
  intros model chat m food_item description image rest answer
         Hin Hne Hsp Hi Hr.
  assert (Hnb : blank food_item = false) by (apply blank_false_iff; auto).
  rewrite (analysis_turn model chat m _ _ _ _ Hin Hnb).
  destruct (analysis_start_effect m image rest) as [Ht [Hs [_ Hrest]]].
  assert (Hr1 : service (analysis_start m image rest)
                        (length (trace (analysis_start m image rest)))
                = Response answer).
  { rewrite Ht, Hs. exact Hr. }
  split; [|split; [|split]].
  - rewrite (submit_analysis_output _ _ _ _ _ Hr1).
    unfold analysis_start, truthy. rewrite (eqb_empty_false _ Hi).
    cbn [negb]. unfold after_image_pass, image_report.
    change (files (after_input m _ rest)) with (files m).
    destruct (files m image); cbn [stdout set_stdout set_sessions after_input set_stdin];
      rewrite <- !app_assoc; rewrite new_output_app; reflexivity.
  - rewrite submit_analysis_stdin. exact Hrest.
  - rewrite submit_analysis_last_food_item, Hr1. reflexivity.
  - rewrite submit_analysis_description, Hr1. reflexivity.
Qed.

Lemma analysis_with_image_shows_witness :
  new_output (stdout (in_loop image_machine))
             (stdout (snd (menu_turn sample_model 0 (in_loop image_machine))))
  = (menu_text
     ++ [Prompted prompt_food_name; Prompted prompt_description;
         Prompted prompt_image;
         Reported "Error: An unexpected error occurred while analyzing the image: "
                  TypeError;
         Printed "Analysis: "; Printed "a pizza"])%list
  /\ last_dish_description (snd (menu_turn sample_model 0 (in_loop image_machine)))
     = Some "tasty".
Proof.
  destruct (analysis_with_image_shows sample_model 0%nat (in_loop image_machine)
              "pizza" "tasty" "dish.png" [] "a pizza" eq_refl)
    as [Hout [_ [_ Hd]]];
    [discriminate | reflexivity | discriminate | reflexivity |].
  split; [exact Hout | exact Hd].
Defined.

(** ** Turns that reach their main query *)

Ltac run_sends_one :=
  intros m; cbv zeta; rewrite send_message_query; unfold try_except, bind, generate;
  destruct (service m (length (trace m))) as [text| |e];
  [ cbn; rewrite ?length_extend_history;
    split; [reflexivity|];
    split; [split; [reflexivity|];
            eexists; split; [rewrite <- app_assoc; reflexivity | reflexivity]|];
    split; [reflexivity|];
    intros text' Ht; inversion Ht; subst;
    split; [reflexivity | rewrite <- app_assoc; reflexivity]
  | cbn; rewrite ?length_extend_history;
    split; [reflexivity|];
    split; [split; [reflexivity|];
            eexists; split; [reflexivity | reflexivity]|];
    split; [reflexivity|];
    intros text' Ht; discriminate Ht
  | destruct e;
    try match goal with kind : ApiKind |- _ => destruct kind end; cbn;
    (split; [reflexivity|];
     split; [split; [reflexivity|];
             first [ exists []; split; [now rewrite app_nil_r | reflexivity]
                   | eexists; split;
                     [rewrite <- app_assoc; reflexivity | reflexivity] ]|];
     split; [reflexivity|];
     intros text' Ht; discriminate Ht) ].

Lemma submit_ingredients_sends_one chat food_item :
  sends_one chat (ingredients_query food_item) "Ingredients: "
            (submit_ingredients chat food_item).
Proof. unfold submit_ingredients. run_sends_one. Qed.

Lemma submit_contains_sends_one chat dish ingredient :
  sends_one chat (contains_query dish ingredient) "Response: "
            (submit_contains chat dish ingredient).
Proof. unfold submit_contains. run_sends_one. Qed.

Lemma submit_analysis_sends_one chat food_item description :
  sends_one chat (analysis_query food_item description) "Analysis: "
            (submit_analysis chat food_item description).
Proof. unfold submit_analysis. run_sends_one. Qed.

Lemma sends_one_after_input chat query label submit m shown rest :
  sends_one chat query label submit ->
  asks_and_sends (prompts shown) rest
                 (mkCall chat query [] (service m (length (trace m)))) label
                 m (submit (after_input m shown rest)).
Proof.
  intros H. destruct (H (after_input m shown rest))
    as [Ht [[Hi [out [Ho Hp]]] [Hl Hok]]].
  split; [|split; [|split; [|split]]].
  - rewrite Ht. apply (new_calls_app (trace m)).
  - rewrite Ho. cbn [after_input stdout set_stdin set_stdout].
    rewrite <- app_assoc, new_output_app, prompts_app, (prompts_printed _ Hp).
    apply app_nil_r.
  - rewrite Hi. reflexivity.
  - rewrite Hl. reflexivity.
  - intros text Hr. destruct (Hok text Hr) as [Hf Hs].
    split; [exact Hf|]. rewrite Hs. eexists. reflexivity.
Qed.

(** X7. A turn of option 3 with a valid food name and an empty image
    path runs no image pass: it asks its three questions after the menu,
    makes the one main query, built from the description as typed, and
    creates no session.  When the query is answered the turn prints
    ["Analysis: "] and the answer, and caches the food name and the
    description. *)
Theorem analysis_without_image :
  forall model chat m food_item description rest,
    stdin m = Line "3" :: Line food_item :: Line description :: Line "" :: rest ->
    food_item <> "" -> isspace food_item = false ->
    asks_and_sends
      [prompt_option; prompt_food_name; prompt_description; prompt_image] rest
      (mkCall chat (analysis_query food_item description) []
              (service m (length (trace m))))
      "Analysis: " m (menu_turn model chat m)
    /\ (forall answer,
           service m (length (trace m)) = Response answer ->
           last_food_item (snd (menu_turn model chat m)) = Some food_item
           /\ last_dish_description (snd (menu_turn model chat m))
              = Some description).
Proof.
  intros model chat m food_item description rest Hin Hne Hsp.
  assert (Hnb : blank food_item = false) by (apply blank_false_iff; auto).
  rewrite (option_3_turn _ _ _ _ _ _ _ Hin), Hnb.
  unfold bind, describe_with_image. cbn [truthy String.eqb negb ret].
  split.
  - apply (sends_one_after_input chat _ _ _ m
             (menu_text ++ [Prompted prompt_food_name; Prompted prompt_description;
                            Prompted prompt_image]) rest
             (submit_analysis_sends_one chat food_item description)).
  - intros answer Ha.
    rewrite submit_analysis_last_food_item, submit_analysis_description.
    cbn [after_input service trace set_stdin set_stdout]. rewrite Ha.
    split; reflexivity.
Qed.

Lemma analysis_without_image_witness :
  new_calls [] (trace (snd (menu_turn sample_model 0
     (sample_machine [Line "3"; Line "pizza"; Line "tasty"; Line ""]))))
  = [mkCall 0 (analysis_query "pizza" "tasty") [] (Response "flour, water, yeast")]
  /\ last_dish_description (snd (menu_turn sample_model 0
       (sample_machine [Line "3"; Line "pizza"; Line "tasty"; Line ""])))
     = Some "tasty".
Proof.
  destruct (analysis_without_image sample_model 0%nat
              (sample_machine [Line "3"; Line "pizza"; Line "tasty"; Line ""])
              "pizza" "tasty" [] eq_refl) as [[Hc _] Hv];
    [discriminate | reflexivity |].
  split; [exact Hc|].
  exact (proj2 (Hv "flour, water, yeast" eq_refl)).
Defined.

Lemma option_1_turn model chat m rest :
  stdin m = Line "1" :: rest ->
  menu_turn model chat m = option_1 chat (after_input m menu_text rest).
Proof.
  intros Hin. rewrite (menu_turn_line _ _ _ _ _ Hin). reflexivity.
Qed.

Lemma option_2_turn model chat m rest :
  stdin m = Line "2" :: rest ->
  menu_turn model chat m = option_2 chat (after_input m menu_text rest).
Proof.
  intros Hin. rewrite (menu_turn_line _ _ _ _ _ Hin). reflexivity.
Qed.

(** X8. A turn of option 1 in which the user types a valid food name,
    because no name is stored or because the reuse question was answered
    with anything but "yes" (in any letter case), makes the one
    ingredients query, built from the name exactly as typed, not from the
    stored name; the declined reuse costs one more question.  When the
    query is answered the turn prints ["Ingredients: "] and the answer. *)
Theorem ingredients_of_typed_name :
  forall model chat m,
    (forall food_item rest,
        reusable (last_food_item m) = None ->
        stdin m = Line "1" :: Line food_item :: rest ->
        food_item <> "" -> isspace food_item = false ->
        asks_and_sends [prompt_option; prompt_food] rest
          (mkCall chat (ingredients_query food_item) []
                  (service m (length (trace m))))
          "Ingredients: " m (menu_turn model chat m))
    /\ (forall last answer food_item rest,
           reusable (last_food_item m) = Some last ->
           stdin m = Line "1" :: Line answer :: Line food_item :: rest ->
           lower answer <> "yes" ->
           food_item <> "" -> isspace food_item = false ->
           asks_and_sends [prompt_option; prompt_reuse_food last; prompt_food] rest
             (mkCall chat (ingredients_query food_item) []
                     (service m (length (trace m))))
             "Ingredients: " m (menu_turn model chat m)).
Proof.
  intros model chat m. split.
  - intros food_item rest Hre Hin Hne Hsp.
    assert (Hnb : blank food_item = false) by (apply blank_false_iff; auto).
    rewrite (option_1_turn _ _ _ _ Hin).
    rewrite (option_1_fresh chat (after_input m menu_text (Line food_item :: rest))
               food_item rest Hre eq_refl), Hnb, after_input_twice.
    apply (sends_one_after_input chat _ _ _ m
             (menu_text ++ [Prompted prompt_food]) rest
             (submit_ingredients_sends_one chat food_item)).
  - intros last answer food_item rest Hre Hin Hno Hne Hsp.
    assert (Hnb : blank food_item = false) by (apply blank_false_iff; auto).
    rewrite (option_1_turn _ _ _ _ Hin).
    rewrite (option_1_declined chat
               (after_input m menu_text (Line answer :: Line food_item :: rest))
               last answer food_item rest Hre eq_refl Hno), Hnb, after_input_twice.
    apply (sends_one_after_input chat _ _ _ m
             (menu_text ++ [Prompted (prompt_reuse_food last); Prompted prompt_food])
             rest (submit_ingredients_sends_one chat food_item)).
Qed.

Lemma ingredients_of_typed_name_witness :
  asks_and_sends [prompt_option; prompt_reuse_food "pizza"; prompt_food] []
    (mkCall 0 (ingredients_query " lasagne ") [] (Response "flour, water, yeast"))
    "Ingredients: " (pizza_machine [Line "1"; Line "y"; Line " lasagne "])
    (menu_turn sample_model 0 (pizza_machine [Line "1"; Line "y"; Line " lasagne "])).
Proof.
  apply (proj2 (ingredients_of_typed_name sample_model 0%nat
                  (pizza_machine [Line "1"; Line "y"; Line " lasagne "]))
           "pizza" "y" " lasagne " [] eq_refl eq_refl);
    [discriminate | discriminate | reflexivity].
Defined.



(** ** Interrupts *)

Lemma quiet_interruptible {A} (c : M A) :
  (forall m, stdin (snd (c m)) = stdin m) -> interruptible c.
Proof.
  intros H m. exists []. split; [unfold took; now rewrite H | intros []].
Qed.

Lemma interruptible_input p : interruptible (input p).
Proof.
  intros m. unfold input, took.
  destruct (stdin m) as [|[line|] rest] eqn:E; cbn [fst snd stdin set_stdin].
  - exists []. split; [cbn; now rewrite E | intros []].
  - exists [Line line]. split; [reflexivity | intros [H|[]]; discriminate H].
  - exists [CtrlC]. split; [reflexivity | reflexivity].
Qed.

Lemma interruptible_bind {A B} (c : M A) (k : A -> M B) :
  interruptible c -> (forall a, interruptible (k a)) -> interruptible (bind c k).
Proof.
  intros Hc Hk m. unfold bind.
  destruct (Hc m) as [t1 [H1 I1]].
  destruct (c m) as [[a|e] m1]; cbn [fst snd] in *.
  - destruct (Hk a m1) as [t2 [H2 I2]].
    exists (t1 ++ t2)%list. cbn [fst snd]. split.
    + unfold took in *. now rewrite H1, H2, app_assoc.
    + intros Hin. apply in_app_or in Hin. destruct Hin as [Hin|Hin].
      * discriminate (I1 Hin).
      * exact (I2 Hin).
  - exists t1. cbn [fst snd]. split; [assumption|].
    intros Hin. specialize (I1 Hin). inversion I1. reflexivity.
Qed.

Lemma interruptible_try {A} (body : M A) (clauses : exn -> option (M A)) :
  interruptible body ->
  clauses KeyboardInterrupt = None ->
  (forall e handler, clauses e = Some handler -> interruptible handler) ->
  interruptible (try_except body clauses).
Proof.
  intros Hb Hki Hh m. unfold try_except.
  destruct (Hb m) as [t1 [H1 I1]].
  destruct (body m) as [[a|e] m1]; cbn [fst snd] in *.
  - exists t1. cbn [fst snd]. split; assumption.
  - destruct (clauses e) as [handler|] eqn:E.
    + destruct (Hh e handler E m1) as [t2 [H2 I2]].
      exists (t1 ++ t2)%list. cbn [fst snd]. split.
      * unfold took in *. now rewrite H1, H2, app_assoc.
      * intros Hin. apply in_app_or in Hin. destruct Hin as [Hin|Hin].
        -- specialize (I1 Hin). inversion I1. subst e. congruence.
        -- exact (I2 Hin).
    + exists t1. cbn [fst snd]. split; assumption.
Qed.

Lemma interruptible_while (body : M unit) fuel :
  interruptible body -> interruptible (while_true fuel body).
Proof.
  intros Hb. induction fuel as [|n IH]; cbn [while_true].
  - apply quiet_interruptible. reflexivity.
  - apply interruptible_bind; [exact Hb | intros _; exact IH].
Qed.

Lemma interruptible_print s : interruptible (print s).
Proof. apply quiet_interruptible. reflexivity. Qed.

Lemma interruptible_submit chat query label submit :
  sends_one chat query label submit -> interruptible submit.
Proof.
  intros H. apply quiet_interruptible. intros m.
  destruct (H m) as [_ [[Hi _] _]]. exact Hi.
Qed.

Lemma analyze_image_stdin model path m :
  stdin (snd (analyze_image_with_gemini model path m)) = stdin m.
Proof.
  rewrite analyze_image_run. cbn [snd].
  apply (after_image_pass_effect m path).
Qed.

Lemma describe_with_image_stdin model description image m :
  stdin (snd (describe_with_image model description image m)) = stdin m.
Proof. apply (describe_with_image_effect model description image m). Qed.

Lemma interruptible_choose_name reuse_prompt ask :
  interruptible (choose_name reuse_prompt ask).
Proof.
  unfold choose_name.
  apply interruptible_bind; [apply quiet_interruptible; reflexivity | intros last].
  destruct (reusable last); [|apply interruptible_input].
  apply interruptible_bind; [apply interruptible_input | intros answer].
  destruct (lower answer =? "yes");
    [apply quiet_interruptible; reflexivity | apply interruptible_input].
Qed.

Lemma interruptible_menu_turn model chat : interruptible (menu_turn model chat).
Proof.
  unfold menu_turn.
  repeat (apply interruptible_bind; [apply interruptible_print | intros _]).
  apply interruptible_bind; [apply interruptible_input | intros option].
  destruct (option =? "1").
  { unfold option_1.
    apply interruptible_bind; [apply interruptible_choose_name | intros food_item].
    destruct (blank food_item); [apply interruptible_print|].
    eapply interruptible_submit, submit_ingredients_sends_one. }
  destruct (option =? "2").
  { unfold option_2.
    apply interruptible_bind; [apply interruptible_choose_name | intros dish].
    apply interruptible_bind; [apply interruptible_input | intros ingredient].
    destruct (blank dish || blank ingredient); [apply interruptible_print|].
    eapply interruptible_submit, submit_contains_sends_one. }
  destruct (option =? "3"); [|apply interruptible_print].
  unfold option_3.
  apply interruptible_bind; [apply interruptible_input | intros food_item].
  apply interruptible_bind; [apply interruptible_input | intros description].
  apply interruptible_bind; [apply interruptible_input | intros image].
  destruct (blank food_item); [apply interruptible_print|].
  apply interruptible_bind.
  - apply quiet_interruptible, describe_with_image_stdin.
  - intros d. eapply interruptible_submit, submit_analysis_sends_one.
Qed.

Lemma initialize_genai_stdin m : stdin (snd (initialize_genai m)) = stdin m.
Proof.
  apply (respects_initialize_genai (fun a b => stdin b = stdin a)).
  - reflexivity.
  - intros a b c H1 H2. congruence.
  - intros s x. reflexivity.
Qed.

Lemma interruptible_main fuel : interruptible (main fuel).
Proof.
  unfold main.
  apply interruptible_bind; [apply quiet_interruptible; reflexivity | intros _].
  apply interruptible_bind; [apply quiet_interruptible; reflexivity | intros args].
  destruct (1 <? length args)%nat.
  { apply interruptible_bind; [apply interruptible_print | intros _].
    apply quiet_interruptible. reflexivity. }
  unfold food_ingredients_chat.
  apply interruptible_bind; [apply interruptible_print | intros _].
  apply interruptible_bind;
    [apply quiet_interruptible, initialize_genai_stdin | intros model].
  apply interruptible_bind; [apply quiet_interruptible; reflexivity | intros chat].
  apply interruptible_bind; [apply quiet_interruptible; reflexivity | intros _].
  apply interruptible_bind; [apply quiet_interruptible; reflexivity | intros _].
  apply interruptible_while, interruptible_menu_turn.
Qed.

Lemma script_stdin fuel m :
  stdin (snd (script fuel m)) = stdin (snd (main fuel m)).
Proof.
  unfold script, try_except.
  destruct (main fuel m) as [[a|e] m1]; [reflexivity|].
  destruct e; reflexivity.
Qed.

(** X10. An interrupt is never swallowed: at whatever prompt of whatever
    turn the user interrupts, the run ends with exit status 0 and the
    farewell as its last line. *)
Theorem interrupt_ends_the_run :
  forall fuel m taken,
    took taken m (snd (script fuel m)) ->
    In CtrlC taken ->
    status_of (fst (script fuel m)) = Exited 0
    /\ ends_with (stdout (snd (script fuel m))) [Printed farewell].
Proof.
  intros fuel m taken Ht Hin.
  destruct (interruptible_main fuel m) as [t [H I]].
  unfold took in *. rewrite script_stdin in Ht.
  rewrite H in Ht. apply app_inv_tail in Ht. subst t.
  specialize (I Hin).
  unfold script, try_except.
  destruct (main fuel m) as [r m1]. cbn [fst] in I. subst r.
  split; [reflexivity|]. exists (stdout m1). reflexivity.
Qed.

Lemma interrupt_ends_the_run_witness :
  status_of (fst (script 5 (fresh_machine
       [Line "3"; Line "pizza"; CtrlC; Line "1"])))
  = Exited 0.
Proof.
  apply (interrupt_ends_the_run 5%nat
           (fresh_machine [Line "3"; Line "pizza"; CtrlC; Line "1"])
           [Line "3"; Line "pizza"; CtrlC]).
  - reflexivity.
  - right; right; left; reflexivity.
Defined.

(** ** Answers are used up *)

Lemma answers_shrink_input p : respects answers_shrink (input p).
Proof.
  intros m. unfold answers_shrink, input.
  destruct (stdin m) as [|[line|] rest] eqn:E; cbn; rewrite ?E; cbn; lia.
Qed.

Lemma answers_shrink_same {A} (c : M A) :
  (forall m, stdin (snd (c m)) = stdin m) -> respects answers_shrink c.
Proof. intros H m. unfold answers_shrink. rewrite H. apply le_n. Qed.

Lemma answers_shrink_dispatch model chat choice :
  respects answers_shrink
    (if choice =? "1" then option_1 chat
     else if choice =? "2" then option_2 chat
     else if choice =? "3" then option_3 model chat
     else print msg_invalid_option).
Proof.
  assert (Hrefl : forall m, answers_shrink m m) by (intros m; apply le_n).
  assert (Htrans : forall a b c,
             answers_shrink a b -> answers_shrink b c -> answers_shrink a c).
  { unfold answers_shrink. intros a b c H1 H2. lia. }
  assert (Hprint : forall s, respects answers_shrink (print s)).
  { intros s. apply answers_shrink_same. reflexivity. }
  assert (Hsend : forall message,
             respects answers_shrink (generate chat message)).
  { intros message. apply answers_shrink_same. intros m. unfold generate.
    destruct (service m (length (trace m))); reflexivity. }
  assert (Himage : forall model' path,
             respects answers_shrink (analyze_image_with_gemini model' path)).
  { intros model' path. apply answers_shrink_same, analyze_image_stdin. }
  destruct (choice =? "1").
  { apply respects_option_1; auto using answers_shrink_input. }
  destruct (choice =? "2").
  { apply respects_option_2; auto using answers_shrink_input. }
  destruct (choice =? "3"); [|apply Hprint].
  apply respects_option_3; auto using answers_shrink_input;
    intros; apply answers_shrink_same; reflexivity.
Qed.

Lemma menu_turn_takes_an_answer model chat m :
  fst (menu_turn model chat m) = Ok tt ->
  (length (stdin (snd (menu_turn model chat m))) < length (stdin m))%nat.
Proof.
  destruct (stdin m) as [|[choice|] rest] eqn:Hin.
  - rewrite (menu_turn_eof _ _ _ Hin). discriminate.
  - rewrite (menu_turn_line _ _ _ _ _ Hin). intros _.
    pose proof (answers_shrink_dispatch model chat choice
                  (after_input m menu_text rest)) as H.
    unfold answers_shrink in H.
    change (stdin (after_input m menu_text rest)) with rest in H.
    cbn [length]. lia.
  - rewrite (menu_turn_interrupt _ _ _ _ Hin). discriminate.
Qed.

Lemma loop_ends model chat fuel :
  forall m, (length (stdin m) < fuel)%nat ->
            exists e, fst (while_true fuel (menu_turn model chat) m) = Raise e.
Proof.
  induction fuel as [|n IH]; intros m Hlt; [lia|].
  cbn [while_true]. unfold bind.
  pose proof (menu_turn_takes_an_answer model chat m) as Hturn.
  destruct (menu_turn model chat m) as [[[]|e] m1]; cbn [fst snd] in *.
  - apply IH. specialize (Hturn eq_refl). lia.
  - exists e. reflexivity.
Qed.

Lemma main_ends fuel m :
  (length (stdin m) < fuel)%nat -> exists e, fst (main fuel m) = Raise e.
Proof.
  intros Hlt. unfold main, bind at 1 2, os_system, ret, get_argv.
  destruct (1 <? length (argv m))%nat; [eexists; reflexivity|].
  unfold food_ingredients_chat, bind at 1. cbn [print].
  set (m0 := set_stdout _ m). unfold bind at 1.
  pose proof (initialize_genai_stdin m0) as Hs.
  destruct (initialize_genai m0) as [[model|e] m1]; cbn [snd] in Hs;
    [|eexists; reflexivity].
  unfold bind at 1. cbn [start_chat]. unfold bind at 1 2.
  cbn [assign_last_food_item assign_last_dish_description].
  apply loop_ends. cbn. rewrite Hs. exact Hlt.
Qed.

(** X11. Every turn that ends normally has used up at least one answer,
    so the loop cannot spin on an input that has run out: a run on [n]
    answers is over within [n + 1] turns.  At the menu prompt the end of
    the input is an uncaught [EOFError]. *)
Theorem finite_input_ends_the_run :
  (forall model chat m,
      fst (menu_turn model chat m) = Ok tt ->
      (length (stdin (snd (menu_turn model chat m))) < length (stdin m))%nat)
  /\ (forall fuel m,
         (length (stdin m) < fuel)%nat ->
         status_of (fst (script fuel m)) <> Running)
  /\ (forall model chat m,
         stdin m = [] ->
         fst (menu_turn model chat m) = Raise EOFError).
Proof.
  split; [exact menu_turn_takes_an_answer | split].
  - intros fuel m Hlt. destruct (main_ends fuel m Hlt) as [e He].
    unfold script, try_except.
    destruct (main fuel m) as [r m1]. cbn [fst] in He. subst r.
    destruct e; discriminate.
  - intros model chat m Hin. rewrite (menu_turn_eof _ _ _ Hin). reflexivity.
Qed.

Lemma finite_input_ends_the_run_witness :
  (length (stdin (snd (menu_turn sample_model 0
                         (sample_machine [Line "9"; Line "1"]))))
   < length (stdin (sample_machine [Line "9"; Line "1"])))%nat
  /\ status_of (fst (script 3 (fresh_machine [Line "1"; Line "pizza"]))) <> Running.
Proof.
  split.
  - apply (proj1 finite_input_ends_the_run sample_model 0%nat
             (sample_machine [Line "9"; Line "1"])).
    reflexivity.
  - apply (proj1 (proj2 finite_input_ends_the_run) 3%nat
             (fresh_machine [Line "1"; Line "pizza"])).
    cbn. lia.
Defined.

(** ** Calls per turn *)

Lemma two_calls_none m m' : trace m' = trace m -> at_most_two_calls m m'.
Proof.
  intros H. exists [], []. rewrite H, app_nil_r.
  repeat split; cbn; auto.
Qed.

Lemma two_calls_main m m' c :
  trace m' = (trace m ++ [c])%list -> with_image c = false ->
  at_most_two_calls m m'.
Proof.
  intros H Hc. exists [], [c]. rewrite H.
  repeat split; cbn; auto. now rewrite Hc.
Qed.

(** X12. Whatever the answers and the service do, one turn makes at most
    two remote calls: at most one image call, and after it at most one
    main query; calls made earlier are never dropped or reordered. *)
Theorem turn_makes_at_most_two_calls :
  forall model chat m, at_most_two_calls m (snd (menu_turn model chat m)).
Proof.
  intros model chat m.
  destruct (menu_turn_sends model chat m)
    as [H | [submit [m1 [q [_ [_ [_ [_ Hc]]]]]]]].
  - apply two_calls_none, H.
  - eapply two_calls_main; [exact Hc | reflexivity].
Qed.

(** ** The cached description is never read *)

Ltac alike_primitive :=
  let m := fresh "m" in
  let m' := fresh "m'" in
  let H := fresh "H" in
  intros m m' H; destruct m, m'; unfold alike in *; cbn in *;
  inversion H; subst.

Lemma oblivious_ret {A} (a : A) : oblivious (ret a).
Proof. intros m m' H. split; [reflexivity | exact H]. Qed.

Lemma oblivious_raise {A} (e : exn) : oblivious (@raise A e).
Proof. intros m m' H. split; [reflexivity | exact H]. Qed.

Lemma oblivious_bind {A B} (c : M A) (k : A -> M B) :
  oblivious c -> (forall a, oblivious (k a)) -> oblivious (bind c k).
Proof.
  intros Hc Hk m m' H. unfold bind.
  destruct (Hc m m' H) as [E Ha].
  destruct (c m) as [[a|e] m1], (c m') as [[a'|e'] m1'];
    cbn [fst snd] in *; inversion E; subst.
  - apply Hk, Ha.
  - split; [reflexivity | exact Ha].
Qed.

Lemma oblivious_try {A} (body : M A) (clauses : exn -> option (M A)) :
  oblivious body ->
  (forall e handler, clauses e = Some handler -> oblivious handler) ->
  oblivious (try_except body clauses).
Proof.
  intros Hb Hh m m' H. unfold try_except.
  destruct (Hb m m' H) as [E Ha].
  destruct (body m) as [[a|e] m1], (body m') as [[a'|e'] m1'];
    cbn [fst snd] in *; inversion E; subst.
  - split; [reflexivity | exact Ha].
  - destruct (clauses e') as [handler|] eqn:Ec.
    + apply (Hh _ _ Ec), Ha.
    + split; [reflexivity | exact Ha].
Qed.

Lemma oblivious_while (body : M unit) fuel :
  oblivious body -> oblivious (while_true fuel body).
Proof.
  intros Hb. induction fuel as [|n IH]; cbn [while_true].
  - apply oblivious_ret.
  - apply oblivious_bind; [exact Hb | intros _; exact IH].
Qed.

Lemma oblivious_print s : oblivious (print s).
Proof. alike_primitive. split; reflexivity. Qed.

Lemma oblivious_input p : oblivious (input p).
Proof.
  alike_primitive. unfold input. cbn.
  match goal with |- context [match ?l with _ => _ end] => destruct l as [|[line|] rest] end;
    split; reflexivity.
Qed.

Lemma oblivious_get_last : oblivious get_last_food_item.
Proof. alike_primitive. split; reflexivity. Qed.

Lemma oblivious_read_binary path : oblivious (read_binary path).
Proof.
  alike_primitive. unfold read_binary. cbn.
  match goal with |- context [match ?f path with _ => _ end] => destruct (f path) end;
    split; reflexivity.
Qed.

Lemma oblivious_start_chat model : oblivious (start_chat model).
Proof. alike_primitive. split; reflexivity. Qed.

Lemma oblivious_send session message : oblivious (generate session message).
Proof.
  alike_primitive. unfold generate. cbn.
  match goal with
  | |- context [match ?r with Response _ => _ | Textless => _ | Raises _ => _ end] =>
      destruct r
  end; split; reflexivity.
Qed.

Lemma oblivious_report text e : oblivious (print_error text e).
Proof. alike_primitive. split; reflexivity. Qed.

Lemma oblivious_response_text response : oblivious (response_text response).
Proof. destruct response; [apply oblivious_ret | apply oblivious_raise]. Qed.

Lemma oblivious_assign_food v : oblivious (assign_last_food_item v).
Proof. alike_primitive. split; reflexivity. Qed.

Lemma oblivious_assign_description v : oblivious (assign_last_dish_description v).
Proof. alike_primitive. split; reflexivity. Qed.

Lemma oblivious_api_clauses e handler :
  api_clauses e = Some handler -> oblivious handler.
Proof.
  intros H. destruct e; try discriminate.
  destruct kind; inversion H; subst;
    (apply oblivious_bind; [apply oblivious_print | intros _]);
    (apply oblivious_bind; [apply oblivious_print | intros _]);
    first [apply oblivious_ret | apply oblivious_raise].
Qed.

Lemma oblivious_choose_name reuse_prompt ask :
  oblivious (choose_name reuse_prompt ask).
Proof.
  unfold choose_name.
  apply oblivious_bind; [apply oblivious_get_last | intros last].
  destruct (reusable last); [|apply oblivious_input].
  apply oblivious_bind; [apply oblivious_input | intros answer].
  destruct (lower answer =? "yes"); [apply oblivious_ret | apply oblivious_input].
Qed.

Lemma oblivious_analyze_image model path :
  oblivious (analyze_image_with_gemini model path).
Proof.
  apply oblivious_try.
  - apply oblivious_bind; [apply oblivious_read_binary | intros content].
    apply oblivious_bind; [apply oblivious_start_chat | intros session].
    rewrite send_message_image.
    apply oblivious_bind; [apply oblivious_raise | intros response].
    apply oblivious_bind; [apply oblivious_response_text | intros text].
    apply oblivious_ret.
  - intros e handler H.
    destruct e; cbn in H; inversion H; subst;
      (apply oblivious_bind;
       [first [apply oblivious_print | apply oblivious_report]
       | intros _; apply oblivious_ret]).
Qed.

Lemma oblivious_menu_turn model chat : oblivious (menu_turn model chat).
Proof.
  unfold menu_turn.
  repeat (apply oblivious_bind; [apply oblivious_print | intros _]).
  apply oblivious_bind; [apply oblivious_input | intros option].
  destruct (option =? "1").
  { unfold option_1.
    apply oblivious_bind; [apply oblivious_choose_name | intros food_item].
    destruct (blank food_item); [apply oblivious_print|].
    apply oblivious_try; [|apply oblivious_api_clauses].
    cbv zeta. rewrite send_message_query.
    apply oblivious_bind; [apply oblivious_send | intros response].
    apply oblivious_bind; [apply oblivious_print | intros _].
    apply oblivious_bind; [apply oblivious_response_text | intros text].
    apply oblivious_print. }
  destruct (option =? "2").
  { unfold option_2.
    apply oblivious_bind; [apply oblivious_choose_name | intros dish].
    apply oblivious_bind; [apply oblivious_input | intros ingredient].
    destruct (blank dish || blank ingredient); [apply oblivious_print|].
    apply oblivious_try; [|apply oblivious_api_clauses].
    cbv zeta. rewrite send_message_query.
    apply oblivious_bind; [apply oblivious_send | intros response].
    apply oblivious_bind; [apply oblivious_print | intros _].
    apply oblivious_bind; [apply oblivious_response_text | intros text].
    apply oblivious_print. }
  destruct (option =? "3"); [|apply oblivious_print].
  unfold option_3.
  apply oblivious_bind; [apply oblivious_input | intros food_item].
  apply oblivious_bind; [apply oblivious_input | intros description].
  apply oblivious_bind; [apply oblivious_input | intros image].
  destruct (blank food_item); [apply oblivious_print|].
  apply oblivious_bind.
  - unfold describe_with_image. destruct (truthy image); [|apply oblivious_ret].
    apply oblivious_bind; [apply oblivious_analyze_image | intros [text|]].
    + destruct (truthy text); apply oblivious_ret.
    + apply oblivious_ret.
  - intros d. apply oblivious_try; [|apply oblivious_api_clauses].
    cbv zeta. rewrite send_message_query.
    apply oblivious_bind; [apply oblivious_send | intros response].
    apply oblivious_bind; [apply oblivious_print | intros _].
    apply oblivious_bind; [apply oblivious_response_text | intros text].
    apply oblivious_bind; [apply oblivious_print | intros _].
    apply oblivious_bind; [apply oblivious_assign_food | intros _].
    apply oblivious_assign_description.
Qed.

(** X13. The cached description is write-only: nothing the loop does
    depends on it.  Whatever value [last_dish_description] holds, the
    same answers and the same service give the same outcome, the same
    output, the same calls, the same sessions and the same stored food
    name, over any number of turns. *)
Theorem description_cache_is_never_read :
  forall model chat fuel m v,
    fst (while_true fuel (menu_turn model chat) (set_last_dish_description v m))
    = fst (while_true fuel (menu_turn model chat) m)
    /\ stdout (snd (while_true fuel (menu_turn model chat)
                               (set_last_dish_description v m)))
       = stdout (snd (while_true fuel (menu_turn model chat) m))
    /\ trace (snd (while_true fuel (menu_turn model chat)
                              (set_last_dish_description v m)))
       = trace (snd (while_true fuel (menu_turn model chat) m))
    /\ sessions (snd (while_true fuel (menu_turn model chat)
                                 (set_last_dish_description v m)))
       = sessions (snd (while_true fuel (menu_turn model chat) m))
    /\ stdin (snd (while_true fuel (menu_turn model chat)
                              (set_last_dish_description v m)))
       = stdin (snd (while_true fuel (menu_turn model chat) m))
    /\ last_food_item (snd (while_true fuel (menu_turn model chat)
                                       (set_last_dish_description v m)))
       = last_food_item (snd (while_true fuel (menu_turn model chat) m)).
Proof.
  intros model chat fuel m v.
  assert (H : alike (set_last_dish_description v m) m) by reflexivity.
  destruct (oblivious_while _ fuel (oblivious_menu_turn model chat) _ _ H)
    as [E Ha].
  split; [exact E|]. unfold alike in Ha.
  split; [exact (f_equal stdout Ha)|].
  split; [exact (f_equal trace Ha)|].
  split; [exact (f_equal sessions Ha)|].
  split; [exact (f_equal stdin Ha) | exact (f_equal last_food_item Ha)].
Qed.

(** ** Startup, continued *)

Lemma json_eq_str_false value literal :
  json_eq_str value literal = false <-> value <> JStr literal.
Proof.
  destruct value; cbn; try (split; [discriminate | reflexivity]).
  rewrite String.eqb_neq. split; intros H E; apply H; [now inversion E | now rewrite E].
Qed.

Lemma initialize_complete m members key name safety generation :
  keys_json m = CfgParsed (JObj members) ->
  dict_get "GEMINI_API_KEY" members = Some key ->
  json_eq_str key placeholder_key = false ->
  dict_get "GEMINI_MODEL" members = Some name ->
  dict_get "SAFETY_SETTINGS" members = Some safety ->
  dict_get "GENERATION_CONFIG" members = Some generation ->
  initialize_genai m = new_model name safety generation m.
Proof.
  intros Hcfg H1 Hp H2 H3 H4.
  unfold initialize_genai, try_except, bind, load_keys_json, subscript.
  rewrite Hcfg, H1. cbn. rewrite Hp. cbn. rewrite H2. cbn. rewrite H3. cbn.
  rewrite H4. reflexivity.
Qed.

Lemma initialize_ok_inv m model :
  fst (initialize_genai m) = Ok model ->
  exists members key,
    keys_json m = CfgParsed (JObj members)
    /\ dict_get "GEMINI_API_KEY" members = Some key
    /\ json_eq_str key placeholder_key = false
    /\ dict_get "GEMINI_MODEL" members = Some (model_name model)
    /\ dict_get "SAFETY_SETTINGS" members = Some (safety_settings model)
    /\ dict_get "GENERATION_CONFIG" members = Some (generation_config model)
    /\ model_error m (model_name model) (safety_settings model)
                   (generation_config model) = None.
Proof.
  unfold initialize_genai, try_except, bind, load_keys_json, subscript.
  destruct (keys_json m) as [| |e|content] eqn:Ecfg; try discriminate.
  { destruct e; discriminate. }
  destruct content as [| | | | | |members]; try discriminate.
  destruct (dict_get "GEMINI_API_KEY" members) as [key|] eqn:E1; cbn;
    [|discriminate].
  destruct (json_eq_str key placeholder_key) eqn:Ep; cbn; [discriminate|].
  destruct (dict_get "GEMINI_MODEL" members) as [g|] eqn:E2; cbn; [|discriminate].
  destruct (dict_get "SAFETY_SETTINGS" members) as [sf|] eqn:E3; cbn;
    [|discriminate].
  destruct (dict_get "GENERATION_CONFIG" members) as [gc|] eqn:E4; cbn;
    [|discriminate].
  unfold new_model. destruct (model_error m g sf gc) eqn:El; cbn; [discriminate|].
  intros H. inversion H. subst model. cbn.
  exists members, key. repeat split; assumption.
Qed.

(** X14. [initialize_genai] succeeds exactly when [keys.json] is a JSON
    object that has all four keys, its API key is not the placeholder
    text, and the client library takes the model name, the safety
    settings and the generation parameters as they stand in the file
    (the API key may be any JSON value).  The model it returns is made
    of those three values, and a successful startup prints nothing and
    changes nothing.  The model is built after the [try] statement: an
    exception the library raises on these values is not handled by the
    clauses of [initialize_genai], whatever its class. *)
Theorem startup_succeeds_exactly_when :
  forall m model,
    (fst (initialize_genai m) = Ok model
     <-> exists members key,
           keys_json m = CfgParsed (JObj members)
           /\ dict_get "GEMINI_API_KEY" members = Some key
           /\ key <> JStr "your gemini api key here"
           /\ dict_get "GEMINI_MODEL" members = Some (model_name model)
           /\ dict_get "SAFETY_SETTINGS" members = Some (safety_settings model)
           /\ dict_get "GENERATION_CONFIG" members = Some (generation_config model)
           /\ model_error m (model_name model) (safety_settings model)
                          (generation_config model) = None)
    /\ (fst (initialize_genai m) = Ok model -> snd (initialize_genai m) = m)
    /\ (forall members key name safety generation e,
           keys_json m = CfgParsed (JObj members) ->
           dict_get "GEMINI_API_KEY" members = Some key ->
           key <> JStr "your gemini api key here" ->
           dict_get "GEMINI_MODEL" members = Some name ->
           dict_get "SAFETY_SETTINGS" members = Some safety ->
           dict_get "GENERATION_CONFIG" members = Some generation ->
           model_error m name safety generation = Some e ->
           initialize_genai m = (Raise e, m)).
Proof.
  intros m model.
  assert (Hback : (exists members key,
                      keys_json m = CfgParsed (JObj members)
                      /\ dict_get "GEMINI_API_KEY" members = Some key
                      /\ key <> JStr "your gemini api key here"
                      /\ dict_get "GEMINI_MODEL" members = Some (model_name model)
                      /\ dict_get "SAFETY_SETTINGS" members
                         = Some (safety_settings model)
                      /\ dict_get "GENERATION_CONFIG" members
                         = Some (generation_config model)
                      /\ model_error m (model_name model) (safety_settings model)
                                     (generation_config model) = None) ->
                  initialize_genai m = (Ok model, m)).
  { intros [members [key [Hcfg [H1 [Hp [H2 [H3 [H4 Hl]]]]]]]].
    apply json_eq_str_false in Hp.
    rewrite (initialize_complete m members key _ _ _ Hcfg H1 Hp H2 H3 H4).
    unfold new_model. rewrite Hl. destruct model; reflexivity. }
  assert (Hforth : fst (initialize_genai m) = Ok model ->
                   exists members key,
                     keys_json m = CfgParsed (JObj members)
                     /\ dict_get "GEMINI_API_KEY" members = Some key
                     /\ key <> JStr "your gemini api key here"
                     /\ dict_get "GEMINI_MODEL" members = Some (model_name model)
                     /\ dict_get "SAFETY_SETTINGS" members
                        = Some (safety_settings model)
                     /\ dict_get "GENERATION_CONFIG" members
                        = Some (generation_config model)
                     /\ model_error m (model_name model) (safety_settings model)
                                    (generation_config model) = None).
  { intros H.
    destruct (initialize_ok_inv m model H)
      as [members [key [Hcfg [H1 [Hp [H2 [H3 [H4 Hl]]]]]]]].
    exists members, key. apply json_eq_str_false in Hp.
    repeat split; assumption. }
  split; [split|split].
  - exact Hforth.
  - intros H. rewrite (Hback H). reflexivity.
  - intros H. rewrite (Hback (Hforth H)). reflexivity.
  - intros members key name safety generation e Hcfg H1 Hp H2 H3 H4 He.
    apply json_eq_str_false in Hp.
    rewrite (initialize_complete m members key _ _ _ Hcfg H1 Hp H2 H3 H4).
    unfold new_model. rewrite He. reflexivity.
Qed.

Lemma startup_succeeds_exactly_when_witness :
  fst (initialize_genai (fresh_machine [])) = Ok sample_model
  /\ initialize_genai
       (boot (fun name _ _ => match name with
                              | JStr _ => None
                              | _ => Some TypeError
                              end)
             ["main.py"]
             (CfgParsed (JObj [ ("GEMINI_API_KEY", JStr "secret");
                                ("GEMINI_MODEL", JNum 5);
                                ("SAFETY_SETTINGS", JArr []);
                                ("GENERATION_CONFIG", JObj []) ]))
             (fun _ => NoSuchFile) (fun _ => Response "") [])
     = (Raise TypeError,
        boot (fun name _ _ => match name with
                              | JStr _ => None
                              | _ => Some TypeError
                              end)
             ["main.py"]
             (CfgParsed (JObj [ ("GEMINI_API_KEY", JStr "secret");
                                ("GEMINI_MODEL", JNum 5);
                                ("SAFETY_SETTINGS", JArr []);
                                ("GENERATION_CONFIG", JObj []) ]))
             (fun _ => NoSuchFile) (fun _ => Response "") []).
Proof.
  split.
  - apply (proj2 (proj1 (startup_succeeds_exactly_when (fresh_machine [])
                           sample_model))).
    exists [ ("GEMINI_API_KEY", JStr "secret"); ("GEMINI_MODEL", JStr "gemini-pro");
             ("SAFETY_SETTINGS", JArr []); ("GENERATION_CONFIG", JObj []) ],
           (JStr "secret").
    split; [reflexivity | split; [reflexivity | split; [discriminate|]]].
    repeat split.
  - apply (proj2 (proj2 (startup_succeeds_exactly_when
             (boot (fun name _ _ => match name with
                                    | JStr _ => None
                                    | _ => Some TypeError
                                    end)
                   ["main.py"]
                   (CfgParsed (JObj [ ("GEMINI_API_KEY", JStr "secret");
                                      ("GEMINI_MODEL", JNum 5);
                                      ("SAFETY_SETTINGS", JArr []);
                                      ("GENERATION_CONFIG", JObj []) ]))
                   (fun _ => NoSuchFile) (fun _ => Response "") [])
             sample_model))
             [ ("GEMINI_API_KEY", JStr "secret"); ("GEMINI_MODEL", JNum 5);
               ("SAFETY_SETTINGS", JArr []); ("GENERATION_CONFIG", JObj []) ]
             (JStr "secret") (JNum 5) (JArr []) (JObj []) TypeError);
      try reflexivity.
    discriminate.
Defined.

(** X15. A [keys.json] that parses but is not a JSON object (a list, a
    string, a number, ...) is not reported like the other configuration
    errors: indexing it raises [TypeError], which no [except] clause of
    [initialize_genai] names, so the run ends right after the banner
    with a traceback and exit status 1. *)
Theorem non_object_configuration_is_uncaught :
  forall fuel m content,
    (length (argv m) <= 1)%nat ->
    keys_json m = CfgParsed content ->
    (forall members, content <> JObj members) ->
    script fuel m
    = (Raise TypeError, set_stdout (stdout m ++ [Printed banner]) m)
    /\ status_of (fst (script fuel m)) = Exited 1.
Proof.
  intros fuel m content Hargs Hcfg Hno.
  assert (E : script fuel m
              = (Raise TypeError, set_stdout (stdout m ++ [Printed banner]) m)).
  { unfold script, try_except, main, bind at 1 2, os_system, ret, get_argv.
    destruct (1 <? length (argv m))%nat eqn:El.
    { apply Nat.ltb_lt in El. lia. }
    unfold food_ingredients_chat, bind at 1. cbn [print]. fold banner.
    unfold bind at 1, initialize_genai, try_except, bind, load_keys_json, subscript.
    cbn [keys_json set_stdout]. rewrite Hcfg.
    destruct content; try reflexivity. now elim (Hno members). }
  rewrite E. split; reflexivity.
Qed.

Lemma non_object_configuration_is_uncaught_witness :
  status_of (fst (script 2 (boot accepting ["main.py"] (CfgParsed (JArr []))
                                 (fun _ => NoSuchFile) (fun _ => Response "") [])))
  = Exited 1.
Proof.
  apply (non_object_configuration_is_uncaught 2%nat
           (boot accepting ["main.py"] (CfgParsed (JArr [])) (fun _ => NoSuchFile)
                 (fun _ => Response "") [])
           (JArr []) (le_n 1) eq_refl).
  intros members H. discriminate H.
Defined.

(** X16. When several required keys are missing, the one reported is the
    first in the order the script reads them: API key, model, safety
    settings, generation parameters. *)
Theorem first_missing_key_is_reported :
  forall fuel m members key,
    (length (argv m) <= 1)%nat ->
    keys_json m = CfgParsed (JObj members) ->
    has_placeholder members = false ->
    first_missing members = Some key ->
    exits_at_startup [msg_missing_key key] m (script fuel m).
Proof.
  intros fuel m members key Hargs Hcfg Hp Hfirst.
  apply script_startup_exit; [exact Hargs|].
  assert (Hb : keys_json (set_stdout (stdout m ++ [Printed banner]) m)
               = CfgParsed (JObj members)) by exact Hcfg.
  unfold initialize_genai, try_except, bind, load_keys_json, subscript.
  rewrite Hb. unfold has_placeholder in Hp.
  unfold first_missing, required_keys in Hfirst. cbn [find] in Hfirst.
  destruct (dict_get "GEMINI_API_KEY" members) as [k|]; cbn.
  2:{ inversion Hfirst. subst key. cbn. f_equal. apply set_stdout_twice. }
  rewrite Hp. cbn.
  destruct (dict_get "GEMINI_MODEL" members); cbn.
  2:{ inversion Hfirst. subst key. cbn. f_equal. apply set_stdout_twice. }
  destruct (dict_get "SAFETY_SETTINGS" members); cbn.
  2:{ inversion Hfirst. subst key. cbn. f_equal. apply set_stdout_twice. }
  destruct (dict_get "GENERATION_CONFIG" members); cbn.
  2:{ inversion Hfirst. subst key. cbn. f_equal. apply set_stdout_twice. }
  discriminate Hfirst.
Qed.

Lemma first_missing_key_is_reported_witness :
  exits_at_startup [msg_missing_key "GEMINI_MODEL"]
    (boot accepting ["main.py"] (CfgParsed (JObj [("GEMINI_API_KEY", JStr "secret")]))
          (fun _ => NoSuchFile) (fun _ => Response "") [])
    (script 2 (boot accepting ["main.py"] (CfgParsed (JObj [("GEMINI_API_KEY", JStr "secret")]))
                    (fun _ => NoSuchFile) (fun _ => Response "") [])).
Proof.
  apply (first_missing_key_is_reported 2%nat
           (boot accepting ["main.py"] (CfgParsed (JObj [("GEMINI_API_KEY", JStr "secret")]))
                 (fun _ => NoSuchFile) (fun _ => Response "") [])
           [("GEMINI_API_KEY", JStr "secret")] "GEMINI_MODEL" (le_n 1)
           eq_refl eq_refl eq_refl).
Defined.

(** ** Two turns in a row *)

Lemma submit_service chat submit m :
  is_submit chat submit -> service (snd (submit m)) = service m.
Proof.
  intros [[f ->] | [[d [i ->]] | [f [d ->]]]];
    [unfold submit_ingredients | unfold submit_contains | unfold submit_analysis];
    run_submit m.
Qed.

Lemma sends_one_result chat query label submit m shown rest :
  sends_one chat query label submit ->
  trace (snd (submit (after_input m shown rest)))
  = (trace m ++ [mkCall chat query [] (service m (length (trace m)))])%list
  /\ stdin (snd (submit (after_input m shown rest))) = rest
  /\ exists out,
       stdout (snd (submit (after_input m shown rest)))
       = (stdout m ++ shown ++ out)%list
       /\ forallb is_printed out = true.
Proof.
  intros H. destruct (H (after_input m shown rest)) as [Ht [[Hi [out [Ho Hp]]] _]].
  split; [exact Ht | split; [exact Hi|]].
  exists out. split; [|exact Hp].
  rewrite Ho. cbn [after_input stdout set_stdin set_stdout].
  now rewrite <- app_assoc.
Qed.

Lemma while_two (body : M unit) m :
  fst (body m) = Ok tt ->
  snd (while_true 2 body m) = snd (body (snd (body m))).
Proof.
  intros H. cbn [while_true]. unfold bind.
  destruct (body m) as [[[]|e] m1]; cbn [fst snd] in *; [|discriminate H].
  destruct (body m1) as [[[]|e] m2]; reflexivity.
Qed.

Lemma analysis_turn_plain model chat m food_item description rest :
  stdin m = Line "3" :: Line food_item :: Line description :: Line "" :: rest ->
  blank food_item = false ->
  menu_turn model chat m
  = submit_analysis chat food_item description
      (after_input m (menu_text ++ [Prompted prompt_food_name;
                                    Prompted prompt_description;
                                    Prompted prompt_image]) rest).
Proof.
  intros Hin Hnb. rewrite (option_3_turn _ _ _ _ _ _ _ Hin), Hnb. reflexivity.
Qed.

(** X17. The stored name links two turns.  After a turn of option 3
    (without image) whose query was answered, a following turn of option
    1 offers that food name for reuse and, on "yes", asks for its
    ingredients.  After a turn of option 3 that ran into the deadline,
    with no name stored before, the following turn of option 1 offers
    nothing and asks for a food name. *)
Theorem analysed_food_is_offered_next :
  (forall model chat m food_item description answer rest text,
      stdin m = Line "3" :: Line food_item :: Line description :: Line ""
                     :: Line "1" :: Line answer :: rest ->
      food_item <> "" -> isspace food_item = false ->
      lower answer = "yes" ->
      service m (length (trace m)) = Response text ->
      new_calls (trace m)
                (trace (snd (while_true 2 (menu_turn model chat) m)))
      = [ mkCall chat (analysis_query food_item description) [] (Response text);
          mkCall chat (ingredients_query food_item) []
                 (service m (S (length (trace m)))) ]
      /\ prompts (new_output (stdout m)
                    (stdout (snd (while_true 2 (menu_turn model chat) m))))
         = [ prompt_option; prompt_food_name; prompt_description; prompt_image;
             prompt_option; prompt_reuse_food food_item ])
  /\ (forall model chat m food_item description other rest message,
         reusable (last_food_item m) = None ->
         stdin m = Line "3" :: Line food_item :: Line description :: Line ""
                        :: Line "1" :: Line other :: rest ->
         food_item <> "" -> isspace food_item = false ->
         other <> "" -> isspace other = false ->
         service m (length (trace m))
         = Raises (ApiError DeadlineExceeded message) ->
         new_calls (trace m)
                   (trace (snd (while_true 2 (menu_turn model chat) m)))
         = [ mkCall chat (analysis_query food_item description) []
                    (Raises (ApiError DeadlineExceeded message));
             mkCall chat (ingredients_query other) []
                    (service m (S (length (trace m)))) ]
         /\ prompts (new_output (stdout m)
                       (stdout (snd (while_true 2 (menu_turn model chat) m))))
            = [ prompt_option; prompt_food_name; prompt_description; prompt_image;
                prompt_option; prompt_food ]).
Proof.
  split.
  - intros model chat m food_item description answer rest text
           Hin Hne Hsp Hyes Hsrv.
    assert (Hnb : blank food_item = false) by (apply blank_false_iff; auto).
    pose proof (analysis_turn_plain model chat m food_item description _ Hin Hnb)
      as E1.
    set (shown1 := (menu_text ++ [Prompted prompt_food_name;
                                  Prompted prompt_description;
                                  Prompted prompt_image])%list) in *.
    set (rest1 := Line "1" :: Line answer :: rest) in *.
    destruct (sends_one_result chat _ _ _ m shown1 rest1
                (submit_analysis_sends_one chat food_item description))
      as [Ht1 [Hi1 [out1 [Ho1 Hp1]]]].
    assert (Hok : fst (menu_turn model chat m) = Ok tt).
    { rewrite E1. apply (submit_answered chat _ _ text); [|exact Hsrv].
      right; right. do 2 eexists. reflexivity. }
    assert (Hlast : last_food_item (snd (menu_turn model chat m)) = Some food_item).
    { rewrite E1, submit_analysis_last_food_item.
      change (service (after_input m shown1 rest1)) with (service m).
      change (trace (after_input m shown1 rest1)) with (trace m).
      rewrite Hsrv. reflexivity. }
    assert (Hsv : service (snd (menu_turn model chat m)) = service m).
    { rewrite E1, (submit_service chat); [reflexivity|].
      right; right. do 2 eexists. reflexivity. }
    rewrite (while_two _ _ Hok).
    rewrite <- E1 in Ht1, Hi1, Ho1.
    set (m1 := snd (menu_turn model chat m)) in *.
    assert (Hre : reusable (last_food_item m1) = Some food_item).
    { rewrite Hlast. unfold reusable, truthy.
      rewrite (eqb_empty_false _ Hne). reflexivity. }
    rewrite (option_1_turn model chat m1 _ Hi1).
    rewrite (option_1_reused chat (after_input m1 menu_text (Line answer :: rest))
               food_item answer rest Hre eq_refl Hyes), Hnb, after_input_twice.
    destruct (sends_one_result chat _ _ _ m1
                (menu_text ++ [Prompted (prompt_reuse_food food_item)]) rest
                (submit_ingredients_sends_one chat food_item))
      as [Ht2 [_ [out2 [Ho2 Hp2]]]].
    split.
    + rewrite Ht2, Ht1, Hsv, length_app, Hsrv. cbn [length].
      rewrite Nat.add_1_r, <- app_assoc. apply (new_calls_app (trace m)).
    + rewrite Ho2, Ho1, <- !app_assoc, new_output_app, !prompts_app,
        (prompts_printed _ Hp1), (prompts_printed _ Hp2).
      reflexivity.
  - intros model chat m food_item description other rest message
           Hre0 Hin Hne Hsp Hne' Hsp' Hsrv.
    assert (Hnb : blank food_item = false) by (apply blank_false_iff; auto).
    assert (Hnb' : blank other = false) by (apply blank_false_iff; auto).
    pose proof (analysis_turn_plain model chat m food_item description _ Hin Hnb)
      as E1.
    set (shown1 := (menu_text ++ [Prompted prompt_food_name;
                                  Prompted prompt_description;
                                  Prompted prompt_image])%list) in *.
    set (rest1 := Line "1" :: Line other :: rest) in *.
    destruct (sends_one_result chat _ _ _ m shown1 rest1
                (submit_analysis_sends_one chat food_item description))
      as [Ht1 [Hi1 [out1 [Ho1 Hp1]]]].
    assert (Hok : fst (menu_turn model chat m) = Ok tt).
    { rewrite E1.
      apply (submit_analysis_failure chat food_item description
               (after_input m shown1 rest1) DeadlineExceeded message Hsrv).
      reflexivity. }
    assert (Hlast : last_food_item (snd (menu_turn model chat m))
                    = last_food_item m).
    { rewrite E1, submit_analysis_last_food_item.
      change (service (after_input m shown1 rest1)) with (service m).
      change (trace (after_input m shown1 rest1)) with (trace m).
      rewrite Hsrv. reflexivity. }
    assert (Hsv : service (snd (menu_turn model chat m)) = service m).
    { rewrite E1, (submit_service chat); [reflexivity|].
      right; right. do 2 eexists. reflexivity. }
    rewrite (while_two _ _ Hok).
    rewrite <- E1 in Ht1, Hi1, Ho1.
    set (m1 := snd (menu_turn model chat m)) in *.
    assert (Hre : reusable (last_food_item m1) = None).
    { rewrite Hlast. exact Hre0. }
    rewrite (option_1_turn model chat m1 _ Hi1).
    rewrite (option_1_fresh chat (after_input m1 menu_text (Line other :: rest))
               other rest Hre eq_refl), Hnb', after_input_twice.
    destruct (sends_one_result chat _ _ _ m1
                (menu_text ++ [Prompted prompt_food]) rest
                (submit_ingredients_sends_one chat other))
      as [Ht2 [_ [out2 [Ho2 Hp2]]]].
    split.
    + rewrite Ht2, Ht1, Hsv, length_app, Hsrv. cbn [length].
      rewrite Nat.add_1_r, <- app_assoc. apply (new_calls_app (trace m)).
    + rewrite Ho2, Ho1, <- !app_assoc, new_output_app, !prompts_app,
        (prompts_printed _ Hp1), (prompts_printed _ Hp2).
      reflexivity.
Qed.

Lemma analysed_food_is_offered_next_witness :
  new_calls [] (trace (snd (while_true 2 (menu_turn sample_model 0)
     (sample_machine [Line "3"; Line "pizza"; Line "tasty"; Line "";
                      Line "1"; Line "Yes"]))))
  = [ mkCall 0 (analysis_query "pizza" "tasty") [] (Response "flour, water, yeast");
      mkCall 0 (ingredients_query "pizza") [] (Response "flour, water, yeast") ].
Proof.
  apply (proj1 analysed_food_is_offered_next sample_model 0%nat
           (sample_machine [Line "3"; Line "pizza"; Line "tasty"; Line "";
                            Line "1"; Line "Yes"])
           "pizza" "tasty" "Yes" [] "flour, water, yeast" eq_refl);
    [discriminate | reflexivity | reflexivity | reflexivity].
Defined.

(** ** A response without text *)

Lemma submit_textless chat submit m :
  is_submit chat submit ->
  service m (length (trace m)) = Textless ->
  fst (submit m) = Raise ValueError
  /\ exists label,
       stdout (snd (submit m)) = (stdout m ++ [Printed label])%list
       /\ In label ["Ingredients: "; "Response: "; "Analysis: "].
Proof.
  intros Hs Hr.
  destruct Hs as [[f ->] | [[d [i ->]] | [f [d ->]]]];
    [unfold submit_ingredients | unfold submit_contains | unfold submit_analysis];
    cbv zeta; rewrite send_message_query; unfold try_except, bind, generate;
    rewrite Hr; cbn; (split; [reflexivity|]); eexists; (split; [reflexivity|]);
    cbn; tauto.
Qed.

(** X18. When the main query of a turn returns a response that has no
    text, the turn prints the label of its option and then fails on
    reading [response.text]: the [ValueError] is none of the errors the
    [except] clauses name, so the turn raises it, the loop ends with it,
    and the process ends with a traceback and exit status 1.  The label
    is the last thing printed. *)
Theorem textless_response_ends_the_run :
  forall model chat m,
    main_reply (trace m) (trace (snd (menu_turn model chat m))) = Some Textless ->
    fst (menu_turn model chat m) = Raise ValueError
    /\ (forall fuel,
           fst (while_true (S fuel) (menu_turn model chat) m) = Raise ValueError
           /\ status_of (fst (while_true (S fuel) (menu_turn model chat) m))
              = Exited 1)
    /\ exists label,
         ends_with (stdout (snd (menu_turn model chat m))) [Printed label]
         /\ In label ["Ingredients: "; "Response: "; "Analysis: "].
Proof.
  intros model chat m H.
  destruct (menu_turn_shape model chat m) as [Hn | [submit [m1 [E [Hs Hm]]]]].
  { rewrite Hn in H. discriminate H. }
  rewrite Hm in H. inversion H as [Hsrv].
  destruct (submit_textless chat submit m1 Hs Hsrv) as [Hx [label [Ho Hl]]].
  rewrite <- E in Hx, Ho.
  split; [exact Hx | split].
  - intros fuel. rewrite (while_true_raise _ _ _ _ Hx). split; reflexivity.
  - exists label. split; [|exact Hl]. exists (stdout m1). exact Ho.
Qed.

Lemma textless_response_ends_the_run_witness :
  fst (menu_turn sample_model 0
         (in_loop (textless_machine [Line "2"; Line "pesto"; Line "basil"])))
  = Raise ValueError
  /\ status_of (fst (script 3 (textless_machine
                                 [Line "2"; Line "pesto"; Line "basil"])))
     = Exited 1.
Proof.
  split.
  - apply (textless_response_ends_the_run sample_model 0%nat
             (in_loop (textless_machine [Line "2"; Line "pesto"; Line "basil"]))).
    reflexivity.
  - reflexivity.
Defined.

(** ** Validation comes after the questions *)

(** X19. A blank name is only found out after all questions of the
    option have been asked: option 3 with a blank food name still asks
    for the description and the image path and uses up all three
    answers, and option 2 with a blank dish still asks for the
    ingredient and uses up both. *)
Theorem blank_name_is_found_after_all_questions :
  forall model chat m,
    (forall food_item description image rest,
        stdin m = Line "3" :: Line food_item :: Line description
                       :: Line image :: rest ->
        blank food_item = true ->
        stdin (snd (menu_turn model chat m)) = rest
        /\ prompts (new_output (stdout m) (stdout (snd (menu_turn model chat m))))
           = [prompt_option; prompt_food_name; prompt_description; prompt_image])
    /\ (forall dish ingredient rest,
           reusable (last_food_item m) = None ->
           stdin m = Line "2" :: Line dish :: Line ingredient :: rest ->
           blank dish = true ->
           stdin (snd (menu_turn model chat m)) = rest
           /\ prompts (new_output (stdout m)
                         (stdout (snd (menu_turn model chat m))))
              = [prompt_option; prompt_dish; prompt_ingredient]).
Proof.
  intros model chat m. split.
  - intros food_item description image rest Hin Hb.
    rewrite (option_3_turn _ _ _ _ _ _ _ Hin), Hb.
    split; [reflexivity|].
    cbn [print snd after_input stdout set_stdin set_stdout].
    rewrite <- app_assoc, new_output_app. reflexivity.
  - intros dish ingredient rest Hre Hin Hb.
    rewrite (option_2_turn _ _ _ _ Hin).
    rewrite (option_2_fresh chat
               (after_input m menu_text (Line dish :: Line ingredient :: rest))
               dish ingredient rest Hre eq_refl), Hb, after_input_twice.
    split; [reflexivity|].
    cbn [orb print snd after_input stdout set_stdin set_stdout].
    rewrite <- app_assoc, new_output_app. reflexivity.
Qed.

Lemma blank_name_is_found_after_all_questions_witness :
  stdin (snd (menu_turn sample_model 0
     (sample_machine [Line "3"; Line " "; Line "tasty"; Line "dish.png"; Line "1"])))
  = [Line "1"].
Proof.
  apply (proj1 (blank_name_is_found_after_all_questions sample_model 0%nat
                  (sample_machine [Line "3"; Line " "; Line "tasty";
                                   Line "dish.png"; Line "1"]))
           " " "tasty" "dish.png" [Line "1"] eq_refl eq_refl).
Defined.
